(** * The SecurityTrails harvester (sx25.py): a shallow embedding

    The development follows the source file function by function:
    JSON values and the Python operations the code applies to them,
    record extraction, page-count detection and its legitimacy check,
    the result sets with their flush to the output file, the task
    distribution, and the network side (session validation, cookie reload,
    page fetch, first-page discovery) over an explicit world.

    Conventions.
    - A Python [str] is a [string]; each character is a code point
      below 256.
    - A parsed JSON document is a [json]; JSON [null] and Python [None]
      are both [JNull]; numbers are integers.
    - A Python exception is a [Raise] result; the kind of the exception is
      kept for the reader.
    - The network, the cookie file and the file system are oracles: a
      property holds for every answer they can give.
    - Threads are serialised by [results_lock]: a run is a sequence of
      steps taken under the lock. Progress messages, the rotation of the
      User-Agent and garbage collection are left out. *)

From Stdlib Require Import ZArith Ascii String.
From stdpp Require Import base option list gmap strings.

Local Open Scope string_scope.
Local Open Scope list_scope.

(** ** Python values *)

Inductive exn : Type :=
  | TypeError
  | AttributeError
  | KeyError
  | IndexError
  | ZeroDivisionError.

Inductive result (A : Type) : Type :=
  | Ok (a : A)
  | Raise (e : exn).
Arguments Ok {A} a.
Arguments Raise {A} e.

Definition rbind {A B} (m : result A) (f : A → result B) : result B :=
  match m with
  | Ok a => f a
  | Raise e => Raise e
  end.

#[global] Instance result_ret : MRet result := @Ok.
#[global] Instance result_bind : MBind result := λ A B f m, rbind m f.

#[local] Set Warnings "-register-all".

Inductive json : Type :=
  | JNull
  | JBool (b : bool)
  | JNum (n : Z)
  | JStr (s : string)
  | JArr (items : list json)
  | JObj (fields : list (string * json)).

(** A dict is the list of its items in insertion order; a key is looked
    up at its first occurrence. *)
Fixpoint assoc (k : string) (fields : list (string * json)) : option json :=
  match fields with
  | [] => None
  | (k', v) :: rest => if String.eqb k k' then Some v else assoc k rest
  end.

(** [bool(x)] *)
Definition truthy (x : json) : bool :=
  match x with
  | JNull => false
  | JBool b => b
  | JNum n => negb (n =? 0)%Z
  | JStr s => negb (String.eqb s "")
  | JArr items => match items with [] => false | _ => true end
  | JObj fields => match fields with [] => false | _ => true end
  end.

(** [sub in s] on two strings *)
Fixpoint is_substring (sub s : string) : bool :=
  String.prefix sub s ||
  match s with
  | EmptyString => false
  | String _ rest => is_substring sub rest
  end.

Definition json_is_str (k : string) (x : json) : bool :=
  match x with
  | JStr s => String.eqb s k
  | _ => false
  end.

(** [k in x] for a string literal [k] *)
Definition py_in (k : string) (x : json) : result bool :=
  match x with
  | JObj fields => Ok (bool_decide (is_Some (assoc k fields)))
  | JArr items => Ok (existsb (json_is_str k) items)
  | JStr s => Ok (is_substring k s)
  | _ => Raise TypeError
  end.

(** [x[k]] for a string literal [k] *)
Definition py_getitem (x : json) (k : string) : result json :=
  match x with
  | JObj fields =>
      match assoc k fields with
      | Some v => Ok v
      | None => Raise KeyError
      end
  | _ => Raise TypeError
  end.

(** [x.get(k, default)] *)
Definition py_get (x : json) (k : string) (dflt : json) : result json :=
  match x with
  | JObj fields => Ok (default dflt (assoc k fields))
  | _ => Raise AttributeError
  end.

(** [len(x)] *)
Definition py_len (x : json) : result nat :=
  match x with
  | JObj fields => Ok (length fields)
  | JArr items => Ok (length items)
  | JStr s => Ok (String.length s)
  | _ => Raise TypeError
  end.

Fixpoint chars_of (s : string) : list json :=
  match s with
  | EmptyString => []
  | String c rest => JStr (String c EmptyString) :: chars_of rest
  end.

(** The values a [for] loop over [x] visits: the items of a list, the
    keys of a dict, the characters of a string. *)
Definition py_iter (x : json) : result (list json) :=
  match x with
  | JArr items => Ok items
  | JObj fields => Ok (map (λ kv, JStr kv.1) fields)
  | JStr s => Ok (chars_of s)
  | _ => Raise TypeError
  end.

(** [x == n] for an integer literal [n]; [True] and [False] compare as
    1 and 0. *)
Definition py_eq_int (x : json) (n : Z) : bool :=
  match x with
  | JNum m => (m =? n)%Z
  | JBool b => (Z.b2z b =? n)%Z
  | _ => false
  end.

(** [x == s] for a string literal [s] *)
Definition py_eq_str (x : json) (s : string) : bool :=
  match x with
  | JStr t => String.eqb t s
  | _ => false
  end.

(** [a and b] on two tests, the second evaluated only when the first
    holds. *)
Definition py_and (a : result bool) (b : result bool) : result bool :=
  x ← a; if x : bool then b else Ok false.

(** ** [str.strip()] *)

(** The characters [str.isspace()] accepts, among the code points below
    256: tab to carriage return, the four separators 28 to 31, the space,
    NEL (133) and the no-break space (160). *)
Definition is_space (c : ascii) : bool :=
  let n := nat_of_ascii c in
  ((9 <=? n)%nat && (n <=? 13)%nat) || ((28 <=? n)%nat && (n <=? 32)%nat)
  || (n =? 133)%nat || (n =? 160)%nat.

Fixpoint lstrip_chars (l : list ascii) : list ascii :=
  match l with
  | [] => []
  | c :: rest => if is_space c then lstrip_chars rest else l
  end.

Definition strip_chars (l : list ascii) : list ascii :=
  rev (lstrip_chars (rev (lstrip_chars l))).

Definition strip (s : string) : string :=
  string_of_list_ascii (strip_chars (list_ascii_of_string s)).

(** ** Record extraction *)

(** The test both branches of the response go through:
    [name in page_props and 'data' in page_props[name]]. *)
Definition has_branch_data (name : string) (page_props : json) : result bool :=
  py_and (py_in name page_props)
         (branch ← py_getitem page_props name; py_in "data" branch).

(** [page_props[name]['data']] *)
Definition branch_data (name : string) (page_props : json) : result json :=
  branch ← py_getitem page_props name; py_getitem branch "data".

(** One turn of the loop over the records: the hostname to append, if
    any. [hostname and hostname.strip()] holds for a string that has a
    character other than white space; a true value that is no string has no
    [strip]. *)
Definition record_hostname (record : json) : result (option string) :=
  hostname ← py_get record "hostname" (JStr "");
  if truthy hostname then
    match hostname with
    | JStr s =>
        if String.eqb (strip s) "" then Ok None else Ok (Some (strip s))
    | _ => Raise AttributeError
    end
  else Ok None.

Fixpoint append_hostnames (records : list json) (domains : list string)
  : result (list string) :=
  match records with
  | [] => Ok domains
  | record :: rest =>
      h ← record_hostname record;
      append_hostnames rest
        (match h with Some d => domains ++ [d] | None => domains end)
  end.

(** The body shared by the two branches, on [page_props[name]['data']]. *)
Definition extract_branch (branch_data : json) : result (list string) :=
  has_records ← py_in "records" branch_data;
  if has_records : bool then
    records ← py_getitem branch_data "records";
    items ← py_iter records;
    append_hostnames items []
  else Ok [].

Definition extract_domains_from_data (data : json) : result (list string) :=
  if negb (truthy data) then Ok [] else
  has_props ← py_in "pageProps" data;
  if negb has_props then Ok [] else
  page_props ← py_getitem data "pageProps";
  is_apex ← has_branch_data "apexDomainData" page_props;
  if is_apex : bool then
    apex_data ← branch_data "apexDomainData" page_props;
    extract_branch apex_data
  else
    is_server ← has_branch_data "serverResponse" page_props;
    if is_server : bool then
      server_data ← branch_data "serverResponse" page_props;
      extract_branch server_data
    else Ok [].

(** ** Page count and legitimacy of the ceiling *)

(** The count reported when none is found, which is also the ceiling the
    provider reports. *)
Definition default_total_pages : Z := 100.

(** [not data or 'pageProps' not in data] *)
Definition lacks_page_props (data : json) : result bool :=
  if negb (truthy data) then Ok true else
  has_props ← py_in "pageProps" data; Ok (negb has_props).

(** [name in meta and meta[name]] *)
Definition flag_set (name : string) (meta : json) : result bool :=
  py_and (py_in name meta) (v ← py_getitem meta name; Ok (truthy v)).

(** The count found in one branch: [None] when the branch, its [meta]
    or the [total_pages] field is missing and the code goes on to the next
    test. *)
Definition branch_total_pages (name : string) (page_props : json)
  : result (option json) :=
  present ← has_branch_data name page_props;
  if present : bool then
    bdata ← branch_data name page_props;
    has_total ← py_and (py_in "meta" bdata)
                       (meta ← py_getitem bdata "meta"; py_in "total_pages" meta);
    if has_total : bool then
      meta ← py_getitem bdata "meta";
      total_pages ← py_getitem meta "total_pages";
      _ ← flag_set "limit_reached" meta;
      Ok (Some total_pages)
    else Ok None
  else Ok None.

Definition get_total_pages_from_data (data : json) : result json :=
  lacks ← lacks_page_props data;
  if lacks : bool then Ok (JNum default_total_pages) else
  page_props ← py_get data "pageProps" (JObj []);
  apex ← branch_total_pages "apexDomainData" page_props;
  match apex with
  | Some total_pages => Ok total_pages
  | None =>
      server ← branch_total_pages "serverResponse" page_props;
      match server with
      | Some total_pages => Ok total_pages
      | None => Ok (JNum default_total_pages)
      end
  end.

(** [name in bdata and len(bdata[name]) > 0] *)
Definition has_some (name : string) (bdata : json) : result bool :=
  py_and (py_in name bdata)
         (v ← py_getitem bdata name; n ← py_len v; Ok (0 <? n)%nat).

(** One branch of the legitimacy check: [true] where the code returns
    [True], [false] where it goes on. *)
Definition branch_legitimate (name : string) (page_props : json) : result bool :=
  present ← has_branch_data name page_props;
  if present : bool then
    bdata ← branch_data name page_props;
    has_meta ← py_in "meta" bdata;
    if has_meta : bool then
      meta ← py_getitem bdata "meta";
      limit ← flag_set "limit_reached" meta;
      if limit : bool then Ok true else has_some "records" bdata
    else Ok false
  else Ok false.

Definition is_legitimate_100_pages (data : json) : result bool :=
  lacks ← lacks_page_props data;
  if lacks : bool then Ok false else
  page_props ← py_get data "pageProps" (JObj []);
  apex ← branch_legitimate "apexDomainData" page_props;
  if apex : bool then Ok true else
  server ← branch_legitimate "serverResponse" page_props;
  if server : bool then Ok true else Ok false.

(** ** Expiry markers in a response body *)

(** [d.get('status') == 401 or d.get('error') == 'session_expired'] *)
Definition has_expiry_marker (d : json) : result bool :=
  status ← py_get d "status" JNull;
  if py_eq_int status 401 then Ok true else
  error ← py_get d "error" JNull;
  Ok (py_eq_str error "session_expired").

(** [name in page_props] and the marker test on [page_props[name]] *)
Definition branch_expired (name : string) (page_props : json) : result bool :=
  present ← py_in name page_props;
  if present : bool then
    d ← py_getitem page_props name; has_expiry_marker d
  else Ok false.

Definition is_session_expired (data : json) : result bool :=
  if negb (truthy data) then Ok false else
  has_props ← py_in "pageProps" data;
  if has_props : bool then
    page_props ← py_getitem data "pageProps";
    apex ← branch_expired "apexDomainData" page_props;
    if apex : bool then Ok true else
    dns ← branch_expired "dnsData" page_props;
    if dns : bool then Ok true else Ok false
  else Ok false.

(** ** The result sets and the output file *)

(** [current_domains], [saved_domains] and the text of
    [output_filename.txt] ([None] while the file does not exist). *)
Record results : Type := {
  current_domains : gset string;
  saved_domains : gset string;
  output_file : option string;
}.

(** What the operating system does with the append of one flush: all of
    it, the refusal to open the file, or an error after [n] characters of
    the text have reached the file. *)
Inductive write_outcome : Type :=
  | WriteOk
  | OpenError
  | WriteError (n : nat).

(** Reading the existing file at start-up succeeds or raises. *)
Inductive read_outcome : Type :=
  | ReadOk
  | ReadError.

Definition newline : string := String (ascii_of_nat 10) EmptyString.

Definition is_line_break (c : ascii) : bool :=
  (nat_of_ascii c =? 10)%nat || (nat_of_ascii c =? 13)%nat.

(** The pieces of a text between its line breaks. A text file opened for
    reading ends a line at a line feed, a carriage return or the pair of
    them; the code strips each line and drops the blank ones, so the empty
    piece inside a pair changes nothing. *)
Fixpoint split_lines (text : string) : list string :=
  match text with
  | EmptyString => [EmptyString]
  | String c rest =>
      if is_line_break c then EmptyString :: split_lines rest
      else match split_lines rest with
           | [] => [String c EmptyString]
           | line :: lines => String c line :: lines
           end
  end.

(** [set(line.strip() for line in f if line.strip())] *)
Definition stripped_lines (text : string) : list string :=
  filter (λ l, l ≠ "") (map strip (split_lines text)).

(** [f.write(f"{domain}\n")] for each domain, in the order the set is
    iterated. *)
Definition lines_text (domains : list string) : string :=
  fold_right (λ d text, d +:+ newline +:+ text) "" domains.

(** [new_domains = current_domains - saved_domains] *)
Definition new_domains (st : results) : gset string :=
  current_domains st ∖ saved_domains st.

Definition append_text (file : option string) (text : string) : option string :=
  Some (default "" file +:+ text).

Definition save_current_results (io : write_outcome) (st : results) : results :=
  if decide (current_domains st = ∅) then st else
  if decide (new_domains st = ∅) then st else
  let text := lines_text (elements (new_domains st)) in
  match io with
  | WriteOk =>
      {| current_domains := current_domains st;
         saved_domains := saved_domains st ∪ new_domains st;
         output_file := append_text (output_file st) text |}
  | OpenError => st
  | WriteError n =>
      {| current_domains := current_domains st;
         saved_domains := saved_domains st;
         output_file := append_text (output_file st) (String.substring 0 n text) |}
  end.

Definition initialize_saved_domains (io : read_outcome) (st : results) : results :=
  match output_file st with
  | Some text =>
      match io with
      | ReadOk =>
          {| current_domains := current_domains st;
             saved_domains := list_to_set (stripped_lines text);
             output_file := output_file st |}
      | ReadError =>
          {| current_domains := current_domains st;
             saved_domains := ∅;
             output_file := output_file st |}
      end
  | None =>
      {| current_domains := current_domains st;
         saved_domains := ∅;
         output_file := output_file st |}
  end.

(** [current_domains.update(domains)] under the lock, as [worker_process]
    does with the records of each page. *)
Definition absorb (domains : list string) (st : results) : results :=
  {| current_domains := current_domains st ∪ list_to_set domains;
     saved_domains := saved_domains st;
     output_file := output_file st |}.

(** The sets as the module creates them, against the file found on disk. *)
Definition fresh_results (file : option string) : results :=
  {| current_domains := ∅; saved_domains := ∅; output_file := file |}.

(** What happens to the sets during a run, each step under the lock:
    the records of a response are absorbed, or a flush runs. A response
    whose extraction raises ends its thread and absorbs nothing. *)
Inductive action : Type :=
  | Absorb (data : json)
  | Flush (io : write_outcome).

Definition perform (st : results) (a : action) : results :=
  match a with
  | Absorb data =>
      match extract_domains_from_data data with
      | Ok domains => if decide (domains = []) then st else absorb domains st
      | Raise _ => st
      end
  | Flush io => save_current_results io st
  end.

(** A run: start-up reconciliation, then the actions in the order the
    lock serialises them. *)
Definition run (file : option string) (io : read_outcome) (actions : list action)
  : results :=
  fold_left perform actions (initialize_saved_domains io (fresh_results file)).

(** ** Distribution of the work items *)

(** A work item: the resource and the search term, [None] without one. *)
Definition work_item : Type := string * option string.

(** The combinations the two nested loops append, resource by resource. *)
Definition make_work_items (resources search_terms : list string) : list work_item :=
  match search_terms with
  | [] => map (λ resource, (resource, None)) resources
  | _ => flat_map (λ resource,
                     map (λ search_term, (resource, Some search_term)) search_terms)
                  resources
  end.

(** [enumerate(items)] *)
Definition enumerate {A} (items : list A) : list (Z * A) :=
  zip (map Z.of_nat (seq 0 (length items))) items.

(** The position [l[i]] denotes in a list of length [len]: a negative
    index counts from the end. *)
Definition py_index (len : nat) (i : Z) : result nat :=
  if (0 <=? i)%Z && (i <? Z.of_nat len)%Z then Ok (Z.to_nat i)
  else if (- Z.of_nat len <=? i)%Z && (i <? 0)%Z then Ok (Z.to_nat (Z.of_nat len + i))
  else Raise IndexError.

(** [worker_tasks[i % worker_count].append(work_item)] *)
Definition assign_item (worker_count : Z) (worker_tasks : list (list work_item))
    (entry : Z * work_item) : result (list (list work_item)) :=
  if (worker_count =? 0)%Z then Raise ZeroDivisionError else
  slot ← py_index (length worker_tasks) (entry.1 `mod` worker_count)%Z;
  Ok (alter (λ tasks, tasks ++ [entry.2]) slot worker_tasks).

Fixpoint assign_items (worker_count : Z) (entries : list (Z * work_item))
    (worker_tasks : list (list work_item)) : result (list (list work_item)) :=
  match entries with
  | [] => Ok worker_tasks
  | entry :: rest =>
      worker_tasks' ← assign_item worker_count worker_tasks entry;
      assign_items worker_count rest worker_tasks'
  end.

Definition distribute_resources_to_workers
    (resources search_terms : list string) (worker_count : Z)
  : result (list (list work_item)) :=
  match resources with
  | [] => Ok []
  | _ =>
      let work_items := make_work_items resources search_terms in
      let worker_tasks := replicate (Z.to_nat worker_count) [] in
      assign_items worker_count (enumerate work_items) worker_tasks
  end.

(** ** The world the network functions run in *)

(** The cookie dict [{'SecurityTrails': value}], known by its value. *)
Definition cookies : Type := string.

(** What [requests.get] does: it raises [ConnectionError] or
    [ReadTimeout], it raises something else, or it returns a response with
    a status code and a body ([None] when [response.json()] raises). *)
Inductive http_outcome : Type :=
  | ConnectionError
  | RequestError
  | Response (status : Z) (body : option json).

Inductive request : Type :=
  | ValidateRequest (c : cookies)
  | PageRequest (resource_type resource_value : string) (page : Z)
                (search : option string) (c : cookies).

(** What one reading of [cookies.json] gives: the SecurityTrails cookie;
    no file, no JSON or no such cookie; or another exception. *)
Inductive cookie_outcome : Type :=
  | CookieFound (value : cookies)
  | CookieAbsent
  | CookieError.

(** The [save_data] one call of [save_failed_response] writes. *)
Record failed_response : Type := {
  fr_resource_type : string;
  fr_resource_value : string;
  fr_attempt : nat;
  fr_error_type : string;
  fr_response_data : json;
}.

(** What a run does to the outside, in order. *)
Inductive event : Type :=
  | EvAttempt (attempt max_retries : nat)
  | EvRequest (r : request)
  | EvSleep (seconds : Z)
  | EvArchive (entry : failed_response).

(** The outside as an oracle, with the module's globals: the answer to
    the n-th request, the n-th reading of the cookie file, the clock
    (which [time.sleep] moves on), [current_cookies],
    [last_cookie_reload_time], and what was done so far. *)
Record world : Type := {
  network : nat → request → http_outcome;
  requests_made : nat;
  cookie_file : nat → cookie_outcome;
  cookie_reads : nat;
  now : Z;
  current_cookies : option cookies;
  last_cookie_reload_time : Z;
  trace : list event;
}.

Definition M (A : Type) : Type := world → result A * world.

#[global] Instance M_ret : MRet M := λ A a w, (Ok a, w).
#[global] Instance M_bind : MBind M := λ A B f m w,
  match m w with
  | (Ok a, w') => f a w'
  | (Raise e, w') => (Raise e, w')
  end.

(** A computation on values run inside the world: an exception it raises
    goes up. *)
Definition lift {A} (r : result A) : M A := λ w, (r, w).

Definition emit (e : event) : M () := λ w,
  (Ok (),
   {| network := network w; requests_made := requests_made w;
      cookie_file := cookie_file w; cookie_reads := cookie_reads w;
      now := now w; current_cookies := current_cookies w;
      last_cookie_reload_time := last_cookie_reload_time w;
      trace := trace w ++ [e] |}).

(** [time.sleep(seconds)] *)
Definition sleep (seconds : Z) : M () := λ w,
  (Ok (),
   {| network := network w; requests_made := requests_made w;
      cookie_file := cookie_file w; cookie_reads := cookie_reads w;
      now := (now w + seconds)%Z; current_cookies := current_cookies w;
      last_cookie_reload_time := last_cookie_reload_time w;
      trace := trace w ++ [EvSleep seconds] |}).

(** [requests.get(...)] *)
Definition http_get (r : request) : M http_outcome := λ w,
  (Ok (network w (requests_made w) r),
   {| network := network w; requests_made := S (requests_made w);
      cookie_file := cookie_file w; cookie_reads := cookie_reads w;
      now := now w; current_cookies := current_cookies w;
      last_cookie_reload_time := last_cookie_reload_time w;
      trace := trace w ++ [EvRequest r] |}).

(** Opening and parsing [cookies.json] once. *)
Definition read_cookie_file : M cookie_outcome := λ w,
  (Ok (cookie_file w (cookie_reads w)),
   {| network := network w; requests_made := requests_made w;
      cookie_file := cookie_file w; cookie_reads := S (cookie_reads w);
      now := now w; current_cookies := current_cookies w;
      last_cookie_reload_time := last_cookie_reload_time w;
      trace := trace w |}).

(** [current_cookies = cookies; last_cookie_reload_time = time.time()] *)
Definition install_cookies (c : cookies) : M () := λ w,
  (Ok (),
   {| network := network w; requests_made := requests_made w;
      cookie_file := cookie_file w; cookie_reads := cookie_reads w;
      now := now w; current_cookies := Some c;
      last_cookie_reload_time := now w;
      trace := trace w |}).

(** [save_failed_response]: the call is recorded with the data it
    saves. The directory and file name, the time stamp, and an error
    while the file is written (which the function reports and swallows)
    are left out. *)
Definition save_failed_response (resource_type resource_value : string)
    (attempt : nat) (response_data : json) (error_type : string) : M () :=
  emit (EvArchive {| fr_resource_type := resource_type;
                     fr_resource_value := resource_value;
                     fr_attempt := attempt;
                     fr_error_type := error_type;
                     fr_response_data := response_data |}).

(** ** Loading and validating the cookie *)

Fixpoint load_attempts (max_retries : nat) (attempts : list nat) : M (option cookies) :=
  match attempts with
  | [] => mret None
  | attempt :: rest =>
      outcome ← read_cookie_file;
      match outcome with
      | CookieFound value => mret (Some value)
      | CookieAbsent => mret None
      | CookieError =>
          if (attempt <? max_retries - 1)%nat
          then _ ← sleep 2; load_attempts max_retries rest
          else mret None
      end
  end.

Definition load_securitytrails_cookie : M (option cookies) :=
  load_attempts 3 (seq 0 3).

(** What [validate_session] answers on the outcome of its request. An
    exception while the body is parsed or inspected is passed over. *)
Definition session_valid (outcome : http_outcome) : bool :=
  match outcome with
  | ConnectionError | RequestError => false
  | Response status body =>
      if (status =? 401)%Z then false else
      match body with
      | Some data =>
          match is_session_expired data with
          | Ok true => false
          | _ => (status =? 200)%Z
          end
      | None => (status =? 200)%Z
      end
  end.

Definition validate_session (cookies_dict : cookies) : M bool :=
  outcome ← http_get (ValidateRequest cookies_dict);
  mret (session_valid outcome).

Definition reload_cookies : M (option cookies) :=
  loaded ← load_securitytrails_cookie;
  match loaded with
  | Some c =>
      valid ← validate_session c;
      if valid : bool then _ ← install_cookies c; mret (Some c)
      else mret None
  | None => mret None
  end.

(** ** Fetching a page *)

(** The keys of [api_paths]. *)
Definition resource_types : list string :=
  ["subdomain"; "reverse_ip"; "reverse_mx"; "reverse_email"; "reverse_ns"; "keyword"].

(** [params["search"]] is set for a search term that is not empty. *)
Definition search_param (search_term : option string) : option string :=
  match search_term with
  | Some s => if String.eqb s "" then None else Some s
  | None => None
  end.

Section fetch.
Variables (resource_type resource_value : string) (page : Z).
Variables (search_term : option string) (max_retries : nat).

(** The turns of [for attempt in range(max_retries)] that are left, with
    the cookies the next request carries. Each [continue] of the source
    is the call on [rest]; falling out of the loop returns [None]. *)
Fixpoint fetch_attempts (attempts : list nat) (cookies_dict : cookies) : M json :=
  let retry_after_reload rest : M json :=
    new_cookies ← reload_cookies;
    match new_cookies with
    | Some c => fetch_attempts rest c
    | None => mret JNull
    end in
  match attempts with
  | [] => mret JNull
  | attempt :: rest =>
      outcome ← http_get (PageRequest resource_type resource_value page
                                      (search_param search_term) cookies_dict);
      match outcome with
      | ConnectionError =>
          if (attempt <? max_retries - 1)%nat
          then _ ← sleep 2; fetch_attempts rest cookies_dict
          else mret JNull
      | RequestError => mret JNull
      | Response status body =>
          if (status =? 401)%Z then retry_after_reload rest
          else if (400 <=? status)%Z && (status <? 600)%Z then
            (* raise_for_status, then the HTTPError handler *)
            if (status =? 401)%Z then retry_after_reload rest else mret JNull
          else
            match body with
            | None => mret JNull
            | Some data =>
                match is_session_expired data with
                | Raise _ => mret JNull
                | Ok true => retry_after_reload rest
                | Ok false => mret data
                end
            end
      end
  end.

Definition get_securitytrails_data (cookies_dict : cookies) : M json :=
  if bool_decide (resource_type ∈ resource_types)
  then fetch_attempts (seq 0 max_retries) cookies_dict
  else mret JNull.
End fetch.

(** [scrape_page]: the page, its domains and the success flag. *)
Definition scrape_page (resource_type resource_value : string) (page : Z)
    (cookies_dict : cookies) (search_term : option string)
  : M (Z * list string * bool) :=
  data ← get_securitytrails_data resource_type resource_value page search_term 5
                                 cookies_dict;
  if truthy data then
    domains ← lift (extract_domains_from_data data);
    match domains with
    | [] => mret (page, [], false)
    | _ => mret (page, domains, true)
    end
  else mret (page, [], false).

(** ** Discovery of the page count *)

Section discovery.
Variables (resource_type resource_value : string).
Variables (search_term : option string) (max_retries : nat).

(** After a failed turn: [time.sleep(2 * (attempt + 1))]. *)
Definition wait_time (attempt : nat) : Z := 2 * (Z.of_nat attempt + 1).

(** The turns that are left of [for attempt in range(max_retries)]. *)
Fixpoint first_page_attempts (attempts : list nat) (cookies_dict : cookies)
  : M (json * json) :=
  match attempts with
  | [] => mret (JNull, JNum default_total_pages)
  | attempt :: rest =>
      _ ← emit (EvAttempt (attempt + 1) max_retries);
      valid ← validate_session cookies_dict;
      new_cookies ← (if valid : bool then mret (Some cookies_dict)
                     else reload_cookies);
      match new_cookies with
      | None => first_page_attempts rest cookies_dict
      | Some c =>
          first_page_data ←
            get_securitytrails_data resource_type resource_value 1 search_term 5 c;
          if truthy first_page_data then
            total_pages ← lift (get_total_pages_from_data first_page_data);
            if py_eq_int total_pages default_total_pages then
              legitimate ← lift (is_legitimate_100_pages first_page_data);
              if legitimate : bool then mret (first_page_data, total_pages)
              else
                _ ← save_failed_response resource_type resource_value
                      (attempt + 1) first_page_data "total_pages_detection_failed";
                _ ← sleep (wait_time attempt);
                first_page_attempts rest c
            else mret (first_page_data, total_pages)
          else
            _ ← save_failed_response resource_type resource_value
                  (attempt + 1) (JObj [("error", JStr "no_data_received")])
                  "no_data_received";
            _ ← sleep (wait_time attempt);
            first_page_attempts rest c
      end
  end.

Definition get_first_page_with_retry (cookies_dict : cookies) : M (json * json) :=
  first_page_attempts (seq 0 max_retries) cookies_dict.
End discovery.

(** ** Notions the properties are stated with *)

(** No white space at the head of a string. *)
Definition no_lead_space (l : list ascii) : Prop :=
  match l with
  | [] => True
  | c :: _ => is_space c = false
  end.

(** A record the output keeps is not empty and has no white space at
    either end. *)
Definition clean (d : string) : Prop := d ≠ "" ∧ strip d = d.

(** The records the claim calls dropped: a dict whose hostname is
    missing, empty or made of white space only. *)
Definition blank_hostname (record : json) : bool :=
  match record with
  | JObj fields =>
      match assoc "hostname" fields with
      | None => true
      | Some (JStr s) => forallb is_space (list_ascii_of_string s)
      | Some _ => false
      end
  | _ => false
  end.

(** A response with one branch, its records and its meta data. *)
Definition page_response (name : string) (records : list json) (meta : json) : json :=
  JObj [("pageProps",
         JObj [(name, JObj [("data", JObj [("records", JArr records);
                                            ("meta", meta)])])])].

(** The tasks of [items], numbered from [start], whose number is [k]
    modulo [W]: in their order in [items]. *)
Fixpoint slice_from {A} (W k start : nat) (items : list A) : list A :=
  match items with
  | [] => []
  | x :: rest =>
      if decide (start `mod` W = k) then x :: slice_from W k (S start) rest
      else slice_from W k (S start) rest
  end.

(** The slices of a round-robin partition into [W]. *)
Definition round_robin {A} (W : nat) (items : list A) : list (list A) :=
  map (λ k, slice_from W k 0 items) (seq 0 W).

(** A string without line feed or carriage return. *)
Definition no_line_break (s : string) : bool :=
  forallb (λ c, negb (is_line_break c)) (list_ascii_of_string s).

(** What a computation did between two worlds: the oracles are the same
    and [evs] was added to the trace. *)
Definition extends (w w' : world) (evs : list event) : Prop :=
  network w' = network w ∧ cookie_file w' = cookie_file w
  ∧ trace w' = trace w ++ evs.

(** The session globals are the same in the two worlds. *)
Definition same_session (w w' : world) : Prop :=
  current_cookies w' = current_cookies w
  ∧ last_cookie_reload_time w' = last_cookie_reload_time w.

(** The page requests among some events. *)
Definition page_requests (evs : list event) : list request :=
  omap (λ e, match e with
             | EvRequest (PageRequest rt rv p s c) => Some (PageRequest rt rv p s c)
             | _ => None
             end) evs.

(** The numbers of the attempts that were begun, and of those that were
    archived. *)
Definition attempts_of (evs : list event) : list nat :=
  omap (λ e, match e with EvAttempt n _ => Some n | _ => None end) evs.

Definition archived_attempts (evs : list event) : list nat :=
  omap (λ e, match e with EvArchive entry => Some (fr_attempt entry) | _ => None end) evs.

(** Events of the session and page functions: requests and sleeps. *)
Definition is_plain (e : event) : bool :=
  match e with
  | EvRequest _ | EvSleep _ => true
  | _ => false
  end.

(** A world for examples: the cookie file holds [fresh], the session in
    use is [stale], and the network answers the n-th request by [answer]. *)
Definition example_world (answer : nat → request → http_outcome)
    (file : nat → cookie_outcome) : world :=
  {| network := answer; requests_made := 0;
     cookie_file := file; cookie_reads := 0;
     now := 0; current_cookies := Some "stale";
     last_cookie_reload_time := 0; trace := [] |}.

(** What the fetch does on an authorization failure: reload the
    cookies, then go on with [k] on the new ones, or return [None]. *)
Definition reload_then (k : cookies → M json) : M json :=
  new_cookies ← reload_cookies;
  match new_cookies with
  | Some c => k c
  | None => mret JNull
  end.

(** The two ways a response reports an authorization failure to the
    fetch: the status 401, or, in a response that [raise_for_status]
    accepts, a body that parses and holds an expiry marker. *)
Definition authorization_failure (outcome : http_outcome) : Prop :=
  match outcome with
  | Response status body =>
      status = 401%Z
      ∨ (¬ (400 ≤ status < 600)%Z
         ∧ ∃ data, body = Some data ∧ is_session_expired data = Ok true)
  | _ => False
  end.

(** Every archive entry is followed at once by the back-off sleep of its
    attempt: twice the attempt number, in seconds. *)
Fixpoint backoff_follows (evs : list event) : bool :=
  match evs with
  | [] => true
  | EvArchive entry :: rest =>
      match rest with
      | EvSleep seconds :: _ =>
          (seconds =? 2 * Z.of_nat (fr_attempt entry))%Z && backoff_follows rest
      | _ => false
      end
  | _ :: rest => backoff_follows rest
  end.

(** Every validation request is answered as valid. *)
Definition always_valid (net : nat → request → http_outcome) : Prop :=
  ∀ n c, session_valid (net n (ValidateRequest c)) = true.


(** The records one step adds to [current_domains]. *)
Definition absorbed (a : action) : gset string :=
  match a with
  | Absorb data =>
      match extract_domains_from_data data with
      | Ok domains => list_to_set domains
      | Raise _ => ∅
      end
  | Flush _ => ∅
  end.

(** A text that is empty or ends in a line break. *)
Fixpoint ends_with_break (text : string) : bool :=
  match text with
  | EmptyString => true
  | String c EmptyString => is_line_break c
  | String _ rest => ends_with_break rest
  end.

(** The records a reading of the output file finds on disk. *)
Definition disk_records (file : option string) : gset string :=
  list_to_set (stripped_lines (default "" file)).

(** A step that keeps file and sets in line: the records it absorbs
    have no line break in them, and its write does not stop half-way. *)
Definition tidy (a : action) : Prop :=
  match a with
  | Absorb data =>
      ∀ domains, extract_domains_from_data data = Ok domains →
                 Forall (λ d, no_line_break d = true) domains
  | Flush io => ∀ n, io ≠ WriteError n
  end.

(** How many of the numbers below [s] are [k] modulo [W], for [k < W]. *)
Definition slots_below (W k s : nat) : nat := (s + W - 1 - k) / W.

(** A record the extraction cannot read: it is not a dict, or its
    hostname is a true value that is not a string. *)
Definition bad_record (record : json) : bool :=
  match record with
  | JObj fields =>
      match assoc "hostname" fields with
      | None | Some (JStr _) => false
      | Some v => truthy v
      end
  | _ => true
  end.

(** A record carries the hostname string [h]. *)
Definition has_hostname (record : json) (h : string) : Prop :=
  ∃ fields, record = JObj fields ∧ assoc "hostname" fields = Some (JStr h).

(** [current_cookies] is what it was, or cookies that a validation
    request of this world was answered as valid for. *)
Definition session_kept_or_valid (w w' : world) : Prop :=
  current_cookies w' = current_cookies w
  ∨ ∃ c n, current_cookies w' = Some c
           ∧ session_valid (network w n (ValidateRequest c)) = true.

(** The requests among some events, of either kind. *)
Definition requests_of (evs : list event) : list request :=
  omap (λ e, match e with EvRequest r => Some r | _ => None end) evs.

(** What [n] attempts that all fail in transport leave in the trace: the
    request, and two seconds of sleep between one attempt and the next. *)
Fixpoint transport_trace (req : request) (n : nat) : list event :=
  match n with
  | 0 => []
  | S n' =>
      match n' with
      | 0 => [EvRequest req]
      | S _ => EvRequest req :: EvSleep 2 :: transport_trace req n'
      end
  end.

(** The answers the fetch gives up on at once: an exception of
    [requests.get] other than a connection error or a read timeout, an
    HTTP error status other than 401, a body that does not parse, or a
    body on which the expiry check raises. *)
Definition gives_up (outcome : http_outcome) : Prop :=
  match outcome with
  | ConnectionError => False
  | RequestError => True
  | Response status body =>
      status ≠ 401%Z
      ∧ ((400 ≤ status < 600)%Z
         ∨ body = None
         ∨ ∃ data e, body = Some data ∧ is_session_expired data = Raise e)
  end.

(** The data a fetch returns went through both checks: they are the body
    of the answer to a request numbered from [lo] to below [hi], with a
    status that is neither 401 nor an HTTP error, and no expiry marker was
    found in them. *)
Definition checked_body (page_request : cookies → request) (w : world)
    (lo hi : nat) (data : json) : Prop :=
  ∃ n c status,
    (lo ≤ n < hi)%nat
    ∧ network w n (page_request c) = Response status (Some data)
    ∧ status ≠ 401%Z ∧ ¬ (400 ≤ status < 600)%Z
    ∧ is_session_expired data = Ok false.

(** What [n] turns of the discovery loop may do between two worlds: at
    most twelve requests a turn, at most five of them for a page, every one
    of these for page 1 of the resource; and the session is kept, or
    replaced by validated cookies. *)
Definition discovery_bounds (resource_type resource_value : string)
    (search_term : option string) (n : nat) (w w' : world)
    (evs : list event) : Prop :=
  extends w w' evs
  ∧ session_kept_or_valid w w'
  ∧ (requests_made w ≤ requests_made w' ≤ requests_made w + 12 * n)%nat
  ∧ (length (page_requests evs) ≤ 5 * n)%nat
  ∧ Forall (λ r, ∃ c, r = PageRequest resource_type resource_value 1
                                      (search_param search_term) c)
           (page_requests evs).

(** ** Resources and search terms from files and from the command line *)

(** [text.split(',')] *)
Fixpoint comma_pieces (text : string) : list string :=
  match text with
  | EmptyString => [EmptyString]
  | String c rest =>
      if Ascii.eqb c "," then EmptyString :: comma_pieces rest
      else match comma_pieces rest with
           | [] => [String c EmptyString]
           | piece :: pieces => String c piece :: pieces
           end
  end.

(** [[x.strip() for x in pieces if x.strip()]] *)
Definition stripped_pieces (pieces : list string) : list string :=
  filter (λ x, x ≠ "") (strip <$> pieces).

(** [l.index(x)], where [x] is in [l] *)
Fixpoint list_index (x : string) (l : list string) : option nat :=
  match l with
  | [] => None
  | y :: rest => if String.eqb y x then Some 0%nat else S <$> list_index x rest
  end.

(** The tuple [parse_command_line_args] returns. *)
Record cli_args : Type := {
  cli_resources : option (list string);
  cli_search_terms : option (list string);
  cli_thread_count : Z;
  cli_resource_type : option string;
  cli_output_filename : option string;
  cli_worker_count : Z;
}.

(** [return None, None, 5, None, None, 1] *)
Definition no_args : cli_args :=
  {| cli_resources := None; cli_search_terms := None; cli_thread_count := 5;
     cli_resource_type := None; cli_output_filename := None;
     cli_worker_count := 1 |}.

Section command_line.
(** [int(s)] on a string: the integer, or [None] for a [ValueError]. *)
Variable py_int : string → option Z.
(** The text of a file, or [None] when it cannot be opened or read. *)
Variable read_file : string → option string.

(** [load_resources_from_file] and [load_search_terms_from_file]: the
    stripped lines that are not blank, or the empty list on an error. *)
Definition load_resources_from_file (filename : string) : list string :=
  match read_file filename with
  | Some text => stripped_lines text
  | None => []
  end.

Definition load_search_terms_from_file (filename : string) : list string :=
  match read_file filename with
  | Some text => stripped_lines text
  | None => []
  end.

(** The argument behind the first occurrence of [flag], where the flag
    is there and something follows it. *)
Definition arg_after (flag : string) (argv : list string) : option string :=
  idx ← list_index flag argv; argv !! (idx + 1)%nat.

(** A list given by the flag [file_flag] with a file name, or else by
    the flag [list_flag] with the items between commas. A flag with nothing
    behind it leaves the list empty; [list_flag] is looked at only where
    [file_flag] is absent. *)
Definition list_argument (file_flag list_flag : string)
    (load : string → list string) (argv : list string) : list string :=
  if bool_decide (file_flag ∈ argv) then
    match arg_after file_flag argv with
    | Some filename => load filename
    | None => []
    end
  else if bool_decide (list_flag ∈ argv) then
    match arg_after list_flag argv with
    | Some items => stripped_pieces (comma_pieces items)
    | None => []
    end
  else [].

(** A count given by [flag]: the integer behind it when it parses and
    lies between 1 and 50, and [dflt] in every other case. *)
Definition count_argument (flag : string) (dflt : Z) (argv : list string) : Z :=
  match arg_after flag argv with
  | Some value =>
      match py_int value with
      | Some n => if (1 <=? n)%Z && (n <=? 50)%Z then n else dflt
      | None => dflt
      end
  | None => dflt
  end.

Definition parse_command_line_args (argv : list string) : cli_args :=
  if (length argv <? 2)%nat then no_args else
  if bool_decide (default "" (argv !! 1%nat) ∈ ["-h"; "--help"; "help"])
  then no_args else
  let resources :=
    list_argument "--resources-file" "--resources" load_resources_from_file argv in
  let search_terms :=
    list_argument "--search-terms-file" "--search-terms"
                  load_search_terms_from_file argv in
  let parsed resource_type :=
    {| cli_resources := Some resources;
       cli_search_terms := Some search_terms;
       cli_thread_count := count_argument "--threads" 5 argv;
       cli_resource_type := resource_type;
       cli_output_filename :=
         Some (default "securitytrails_results" (arg_after "--output" argv));
       cli_worker_count := count_argument "--workers" 1 argv |} in
  match arg_after "--type" argv with
  | Some resource_type =>
      if bool_decide (resource_type ∈ resource_types)
      then parsed (Some resource_type) else no_args
  | None => parsed None
  end.
End command_line.

(** [','.join(items)] *)
Fixpoint comma_join (items : list string) : string :=
  match items with
  | [] => ""
  | [x] => x
  | x :: rest => x +:+ String "," (comma_join rest)
  end.

(** No comma in [s]. *)
Fixpoint comma_free (s : string) : bool :=
  match s with
  | EmptyString => true
  | String c rest => negb (Ascii.eqb c ",") && comma_free rest
  end.

(** An item as the lists of resources and search terms hold them: not
    empty, and with no white space at either end. *)
Definition clean_item (x : string) : Prop := x ≠ "" ∧ strip x = x.

(** The three cases in which [parse_command_line_args] returns its tuple
    for no arguments. *)
Definition no_usable_args (argv : list string) : Prop :=
  (length argv < 2)%nat
  ∨ (∃ a, argv !! 1%nat = Some a ∧ a ∈ ["-h"; "--help"; "help"])
  ∨ (∃ t, arg_after "--type" argv = Some t ∧ t ∉ resource_types).

(** ** The directory of a resource's failed responses *)

(** The characters [str.isalnum()] accepts, among the code points below
    256: the digits and letters of ASCII, the superscripts and fractions
    of Latin-1 and its letters. *)
Definition is_alnum (c : ascii) : bool :=
  let n := nat_of_ascii c in
  let within lo hi := ((lo <=? n)%nat && (n <=? hi)%nat)%bool in
  within 48 57 || within 65 90 || within 97 122 || (n =? 170)%nat
  || within 178 179 || (n =? 181)%nat || within 185 186 || within 188 190
  || within 192 214 || within 216 246 || within 248 255.

(** [c.isalnum() or c in ('-', '.', '_')] *)
Definition safe_char (c : ascii) : bool :=
  is_alnum c || Ascii.eqb c "-" || Ascii.eqb c "." || Ascii.eqb c "_".

(** [l.rstrip()] *)
Definition rstrip_chars (l : list ascii) : list ascii :=
  rev (lstrip_chars (rev l)).

(** The name [save_failed_response] gives the directory of a resource:
    [safe_resource = "".join(c for c in resource_value if ...).rstrip()]. *)
Definition safe_resource (resource_value : string) : string :=
  string_of_list_ascii
    (rstrip_chars (List.filter safe_char (list_ascii_of_string resource_value))).

(** ** Notions for the session, the archive and the count of requests *)

(** An expiry marker: a dict whose [status] is 401 or whose [error] is
    [session_expired]. *)
Definition is_marker (d : json) : Prop :=
  ∃ fields, d = JObj fields
    ∧ (assoc "status" fields = Some (JNum 401)
       ∨ assoc "error" fields = Some (JStr "session_expired")).

(** A body in which a marker is there to be found: a dict whose
    [pageProps] is a dict where [apexDomainData] is a marker, or is absent
    or a dict without one while [dnsData] is a marker. *)
Definition marker_found (data : json) : Prop :=
  ∃ top pp, data = JObj top ∧ assoc "pageProps" top = Some (JObj pp)
    ∧ match assoc "apexDomainData" pp with
      | Some apex =>
          is_marker apex
          ∨ ((∃ fields, apex = JObj fields)
             ∧ ∃ dns, assoc "dnsData" pp = Some dns ∧ is_marker dns)
      | None => ∃ dns, assoc "dnsData" pp = Some dns ∧ is_marker dns
      end.

(** The entries archived among some events. *)
Definition archive_entries (evs : list event) : list failed_response :=
  omap (λ e, match e with EvArchive entry => Some entry | _ => None end) evs.

(** The entry discovery archives for an attempt whose fetch gave nothing. *)
Definition no_data_entry (resource_type resource_value : string) (attempt : nat)
  : failed_response :=
  {| fr_resource_type := resource_type;
     fr_resource_value := resource_value;
     fr_attempt := attempt;
     fr_error_type := "no_data_received";
     fr_response_data := JObj [("error", JStr "no_data_received")] |}.

(** No reading of the cookie file finds a cookie. *)
Definition no_cookie (file : nat → cookie_outcome) : Prop :=
  ∀ i value, file i ≠ CookieFound value.

(** Between two worlds the count of requests moved on by the requests
    that came into the trace. *)
Definition counted (w w' : world) : Prop :=
  (requests_made w' + length (requests_of (trace w))
   = requests_made w + length (requests_of (trace w')))%nat.

(** A computation that counts every request it leaves in the trace. *)
Definition keeps_count {A} (m : M A) : Prop := ∀ w, counted w (m w).2.

(** ** The shape of a discovery run *)

(** A value of a length above zero: a list, a string or a dict that is
    not empty. *)
Definition nonempty_value (v : json) : Prop :=
  (∃ item items, v = JArr (item :: items))
  ∨ (∃ c s, v = JStr (String c s))
  ∨ (∃ field fields, v = JObj (field :: fields)).

(** What lets the count 100 pass: in the apexDomainData or the
    serverResponse branch, the data hold [meta], and either the meta data
    hold a true [limit_reached] or the data hold a [records] value of a
    length above zero. *)
Definition ceiling_signal (data : json) : Prop :=
  ∃ name page_props bdata meta,
    (name = "apexDomainData" ∨ name = "serverResponse")
    ∧ py_get data "pageProps" (JObj []) = Ok page_props
    ∧ branch_data name page_props = Ok bdata
    ∧ py_getitem bdata "meta" = Ok meta
    ∧ ((∃ v, py_getitem meta "limit_reached" = Ok v ∧ truthy v = true)
       ∨ (∃ records, py_getitem bdata "records" = Ok records
                     ∧ nonempty_value records)).

(** The three ways discovery takes what the fetch of the first page
    gave: it returns the data with their count (a count of 100 only where
    the legitimacy check says yes); it archives, under an error type, no
    data or data whose count of 100 the check refuses; or reading the count
    or the check raises. *)
Definition accepted (data total_pages : json) : Prop :=
  truthy data = true
  ∧ get_total_pages_from_data data = Ok total_pages
  ∧ (py_eq_int total_pages default_total_pages = true →
     is_legitimate_100_pages data = Ok true).

Definition rejected (data : json) (error_type : string) (saved : json) : Prop :=
  (truthy data = false
   ∧ error_type = "no_data_received"
   ∧ saved = JObj [("error", JStr "no_data_received")])
  ∨ (truthy data = true
     ∧ (∃ total_pages, get_total_pages_from_data data = Ok total_pages
                       ∧ py_eq_int total_pages default_total_pages = true)
     ∧ is_legitimate_100_pages data = Ok false
     ∧ error_type = "total_pages_detection_failed"
     ∧ saved = data).

Definition raising (data : json) (e : exn) : Prop :=
  truthy data = true
  ∧ (get_total_pages_from_data data = Raise e
     ∨ ((∃ total_pages, get_total_pages_from_data data = Ok total_pages
                        ∧ py_eq_int total_pages default_total_pages = true)
        ∧ is_legitimate_100_pages data = Raise e)).

Section discovery_shape.
(** The world a run starts in, for the answers of its network. *)
Variable w0 : world.
Variables (resource_type resource_value : string).
Variables (search_term : option string) (max_retries : nat).

(** What an attempt does about its session, seen from outside, where its
    first request is request number [i]: it asks for a validation of the
    cookies [c] it has; if the answer is not valid, the cookie file is read,
    with sleeps of two seconds between readings that fail, and a cookie
    found there is validated in turn. The session it ends with is [c], the
    cookie found if that one is valid, or none. *)
Definition session_events (i : nat) (c : cookies) (evs : list event)
    (session : option cookies) : Prop :=
  if session_valid (network w0 i (ValidateRequest c))
  then evs = [EvRequest (ValidateRequest c)] ∧ session = Some c
  else ∃ (sleeps : nat) (found : option cookies),
         evs = EvRequest (ValidateRequest c) :: replicate sleeps (EvSleep 2)
               ++ match found with
                  | Some c' => [EvRequest (ValidateRequest c')]
                  | None => []
                  end
         ∧ session = match found with
                     | Some c' =>
                         if session_valid (network w0 (S i) (ValidateRequest c'))
                         then Some c' else None
                     | None => None
                     end.

(** What the fetch of the first page does, seen from outside, where its
    first request is request number [i]: requests and sleeps only, at most
    five requests for a page, each for page 1 of the resource; and data
    other than [None] are the checked body of the answer to one of them. *)
Definition fetch_events (i : nat) (evs : list event) (data : json) : Prop :=
  Forall (λ e, is_plain e = true) evs
  ∧ (length (page_requests evs) ≤ 5)%nat
  ∧ Forall (λ r, ∃ c, r = PageRequest resource_type resource_value 1
                                      (search_param search_term) c)
           (page_requests evs)
  ∧ (data ≠ JNull →
     checked_body (PageRequest resource_type resource_value 1
                               (search_param search_term))
                  w0 i (i + length (requests_of evs)) data).

(** The events of a discovery and its result, from the attempt after the
    [k]-th on, where the next request is request number [i] and the cookies
    in hand are [c]. After the last attempt the run falls back. An attempt
    that ends without a session is given up: nothing is fetched, archived
    or waited for. An attempt with a session fetches the page; it returns,
    raises, or archives one entry under its number, sleeps twice its number
    in seconds and leaves the turn to the next attempt. *)
Inductive discovery_trace :
    nat → nat → cookies → list event → result (json * json) → Prop :=
  | discovery_fallback i c :
      discovery_trace i max_retries c [] (Ok (JNull, JNum default_total_pages))
  | discovery_skipped i k c session rest r :
      (k < max_retries)%nat →
      session_events i c session None →
      discovery_trace (i + length (requests_of session)) (S k) c rest r →
      discovery_trace i k c (EvAttempt (S k) max_retries :: session ++ rest) r
  | discovery_failed i k c c' session fetch data error_type saved rest r :
      (k < max_retries)%nat →
      session_events i c session (Some c') →
      fetch_events (i + length (requests_of session)) fetch data →
      rejected data error_type saved →
      discovery_trace (i + length (requests_of (session ++ fetch))) (S k) c' rest r →
      discovery_trace i k c
        (EvAttempt (S k) max_retries :: session ++ fetch
           ++ [EvArchive {| fr_resource_type := resource_type;
                            fr_resource_value := resource_value;
                            fr_attempt := S k;
                            fr_error_type := error_type;
                            fr_response_data := saved |};
               EvSleep (2 * Z.of_nat (S k))]
           ++ rest) r
  | discovery_returned i k c c' session fetch data total_pages :
      (k < max_retries)%nat →
      session_events i c session (Some c') →
      fetch_events (i + length (requests_of session)) fetch data →
      accepted data total_pages →
      discovery_trace i k c (EvAttempt (S k) max_retries :: session ++ fetch)
                      (Ok (data, total_pages))
  | discovery_raised i k c c' session fetch data e :
      (k < max_retries)%nat →
      session_events i c session (Some c') →
      fetch_events (i + length (requests_of session)) fetch data →
      raising data e →
      discovery_trace i k c (EvAttempt (S k) max_retries :: session ++ fetch)
                      (Raise e).
End discovery_shape.

(** * Properties of the code *)

(** ** Facts about [strip] *)

Lemma lstrip_chars_no_lead l : no_lead_space (lstrip_chars l).
Proof.
  induction l as [|c l IH]; simpl; [done|].
  destruct (is_space c) eqn:E; [done|]. by simpl.
Qed.

Lemma lstrip_chars_fixed l : no_lead_space l → lstrip_chars l = l.
Proof. destruct l as [|c l]; simpl; [done|]. by intros ->. Qed.

Lemma lstrip_chars_suffix l : ∃ p, l = p ++ lstrip_chars l.
Proof.
  induction l as [|c l [p IH]]; simpl.
  - by exists [].
  - destruct (is_space c).
    + exists (c :: p). simpl. by rewrite <- IH.
    + by exists [].
Qed.

Lemma no_lead_space_prefix (l q : list ascii) :
  no_lead_space (l ++ q) → no_lead_space l.
Proof. by destruct l. Qed.

Lemma strip_chars_lead l : no_lead_space (strip_chars l).
Proof.
  unfold strip_chars.
  destruct (lstrip_chars_suffix (rev (lstrip_chars l))) as [p Hp].
  apply (no_lead_space_prefix _ (rev p)).
  rewrite <- rev_app_distr, <- Hp, rev_involutive.
  apply lstrip_chars_no_lead.
Qed.

Lemma strip_chars_trail l : no_lead_space (rev (strip_chars l)).
Proof. unfold strip_chars. rewrite rev_involutive. apply lstrip_chars_no_lead. Qed.

Lemma strip_chars_fixed l :
  no_lead_space l → no_lead_space (rev l) → strip_chars l = l.
Proof.
  intros H1 H2. unfold strip_chars.
  rewrite (lstrip_chars_fixed l H1), (lstrip_chars_fixed _ H2).
  apply rev_involutive.
Qed.

Lemma strip_chars_idemp l : strip_chars (strip_chars l) = strip_chars l.
Proof. apply strip_chars_fixed; [apply strip_chars_lead | apply strip_chars_trail]. Qed.

Lemma strip_idemp s : strip (strip s) = strip s.
Proof.
  unfold strip. rewrite list_ascii_of_string_of_list_ascii.
  by rewrite strip_chars_idemp.
Qed.

Lemma lstrip_chars_blank l : forallb is_space l = true → lstrip_chars l = [].
Proof.
  induction l as [|c l IH]; simpl; [done|].
  intros [-> H]%andb_prop. auto.
Qed.

Lemma strip_blank s :
  forallb is_space (list_ascii_of_string s) = true → strip s = "".
Proof.
  intros H. unfold strip, strip_chars.
  by rewrite (lstrip_chars_blank _ H).
Qed.

(** ** Exceptions *)

Lemma bind_Ok {A B} (m : result A) (f : A → result B) b :
  m ≫= f = Ok b → ∃ a, m = Ok a ∧ f a = Ok b.
Proof. destruct m as [a|e]; [|done]. intros H. by exists a. Qed.

Ltac bind_inv H :=
  let a := fresh "v" in
  let E := fresh "E" in
  apply bind_Ok in H as (a & E & H).

(** ** Record extraction *)

Lemma record_hostname_clean record d :
  record_hostname record = Ok (Some d) → clean d.
Proof.
  unfold record_hostname. intros H. bind_inv H.
  destruct (truthy v); [|done].
  destruct v as [| | |s| |]; try done.
  destruct (String.eqb (strip s) "") eqn:Es; [done|].
  injection H as <-. split.
  - by apply String.eqb_neq.
  - apply strip_idemp.
Qed.

Lemma append_hostnames_clean records : ∀ acc out,
  append_hostnames records acc = Ok out → Forall clean acc → Forall clean out.
Proof.
  induction records as [|r records IH]; simpl; intros acc out H Hacc.
  - by injection H as <-.
  - bind_inv H. apply (IH _ _ H).
    destruct v as [d|]; [|done].
    apply Forall_app. split; [done|].
    apply Forall_singleton. by apply (record_hostname_clean r).
Qed.

Lemma extract_branch_clean bdata out :
  extract_branch bdata = Ok out → Forall clean out.
Proof.
  unfold extract_branch. intros H. bind_inv H.
  destruct v.
  - bind_inv H. bind_inv H. by apply (append_hostnames_clean _ _ _ H).
  - by injection H as <-.
Qed.

Lemma extract_domains_clean data out :
  extract_domains_from_data data = Ok out → Forall clean out.
Proof.
  unfold extract_domains_from_data. intros H.
  destruct (negb (truthy data)); [by injection H as <-|].
  bind_inv H. destruct (negb v); [by injection H as <-|].
  bind_inv H. bind_inv H. destruct v1.
  - bind_inv H. by apply (extract_branch_clean v1).
  - bind_inv H. destruct v1.
    + bind_inv H. by apply (extract_branch_clean v1).
    + by injection H as <-.
Qed.

Lemma record_hostname_blank record :
  blank_hostname record = true → record_hostname record = Ok None.
Proof.
  destruct record as [| | | | |fields]; try done. simpl.
  unfold record_hostname. simpl.
  destruct (assoc "hostname" fields) as [[| | |s| |]|]; try done. simpl.
  intros H. rewrite (strip_blank s H). simpl.
  by destruct (negb (String.eqb s "")).
Qed.

Lemma append_hostnames_drop r1 r r2 : ∀ acc,
  record_hostname r = Ok None →
  append_hostnames (r1 ++ r :: r2) acc = append_hostnames (r1 ++ r2) acc.
Proof.
  induction r1 as [|x r1 IH]; simpl; intros acc Hr.
  - by rewrite Hr.
  - destruct (record_hostname x) as [h|e]; simpl; [|done]. by apply IH.
Qed.

Lemma assoc_Some_truthy k fields v : assoc k fields = Some v → truthy (JObj fields) = true.
Proof. by destruct fields. Qed.

(** With an [apexDomainData] that has a [data] key, the answer is that
    of the records of this branch. *)
Lemma extract_apex_path top pp apex :
  assoc "pageProps" top = Some (JObj pp) →
  assoc "apexDomainData" pp = Some apex →
  py_in "data" apex = Ok true →
  extract_domains_from_data (JObj top)
  = (bdata ← py_getitem apex "data"; extract_branch bdata).
Proof.
  intros Htop Hpp Hdata. unfold extract_domains_from_data.
  rewrite (assoc_Some_truthy _ _ _ Htop). simpl. rewrite Htop. simpl.
  unfold has_branch_data, branch_data. simpl. rewrite Hpp. simpl.
  rewrite Hdata. simpl. done.
Qed.

Lemma extract_page_response name records meta :
  name = "apexDomainData" ∨ name = "serverResponse" →
  extract_domains_from_data (page_response name records meta)
  = append_hostnames records [].
Proof. by intros [-> | ->]. Qed.

(** C10. Record extraction returns only hostnames that are not empty
    and are stripped of white space; a record whose hostname is missing,
    empty or white space only is dropped without an error; and when the
    response has an apexDomainData branch (the key, holding a [data] key)
    the answer is read from that branch alone, whatever serverResponse
    holds. *)
Theorem extract_domains_from_data_trimmed_apex_first :
  (∀ data domains d,
     extract_domains_from_data data = Ok domains → d ∈ domains →
     d ≠ "" ∧ strip d = d)
  ∧ (∀ name before record after meta,
       name = "apexDomainData" ∨ name = "serverResponse" →
       blank_hostname record = true →
       extract_domains_from_data (page_response name (before ++ record :: after) meta)
       = extract_domains_from_data (page_response name (before ++ after) meta))
  ∧ (∀ top1 top2 pp1 pp2 apex,
       assoc "pageProps" top1 = Some (JObj pp1) →
       assoc "pageProps" top2 = Some (JObj pp2) →
       assoc "apexDomainData" pp1 = Some apex →
       assoc "apexDomainData" pp2 = Some apex →
       py_in "data" apex = Ok true →
       extract_domains_from_data (JObj top1) = extract_domains_from_data (JObj top2)).
Proof.
  split; [|split].
  - intros data domains d H Hd.
    apply extract_domains_clean in H.
    by apply (proj1 (Forall_forall _ _) H).
  - intros name before record after meta Hname Hblank.
    apply record_hostname_blank in Hblank.
    rewrite !extract_page_response by done.
    by apply append_hostnames_drop.
  - intros top1 top2 pp1 pp2 apex H1 H2 A1 A2 Hdata.
    rewrite (extract_apex_path top1 pp1 apex), (extract_apex_path top2 pp2 apex); done.
Qed.

Lemma extract_domains_from_data_trimmed_apex_first_witness :
  let data := page_response "apexDomainData"
                [JObj [("hostname", JStr " a.com ")]; JObj []] JNull in
  extract_domains_from_data data = Ok ["a.com"]
  ∧ ("a.com" ≠ "" ∧ strip "a.com" = "a.com").
Proof.
  split; [reflexivity|].
  apply (proj1 extract_domains_from_data_trimmed_apex_first
           (page_response "apexDomainData"
              [JObj [("hostname", JStr " a.com ")]; JObj []] JNull)
           ["a.com"] "a.com").
  - reflexivity.
  - apply list_elem_of_here.
Defined.

(** ** Distribution of the work items *)

Lemma slice_from_sublist {A} W k (items : list A) : ∀ start,
  slice_from W k start items `sublist_of` items.
Proof.
  induction items as [|x rest IH]; simpl; intros start.
  - constructor.
  - case_decide; [apply sublist_skip | apply sublist_cons]; apply IH.
Qed.

Lemma slice_from_elem {A} W (items : list A) : ∀ start i x,
  items !! i = Some x → x ∈ slice_from W ((start + i) `mod` W) start items.
Proof.
  induction items as [|y rest IH]; intros start i x Hi; [done|].
  destruct i as [|i]; simpl in *.
  - injection Hi as ->. rewrite Nat.add_0_r.
    rewrite decide_True by done. apply list_elem_of_here.
  - replace (start + S i) with (S start + i) by lia.
    case_decide; [apply list_elem_of_further|]; by apply IH.
Qed.

Lemma concat_alter_snoc {A} (x : A) (l : list (list A)) : ∀ i,
  i < length l →
  concat (alter (λ t, t ++ [x]) i l) ≡ₚ concat l ++ [x].
Proof.
  induction l as [|t l IH]; intros i Hi; simpl in *; [lia|].
  destruct i as [|i]; simpl.
  - rewrite <- !app_assoc. apply Permutation_app_head, Permutation_app_comm.
  - change (list_alter ?f i l) with (alter f i l).
    rewrite IH by lia. by rewrite app_assoc.
Qed.

Lemma concat_replicate_nil {A} n : concat (replicate n (@nil A)) = [].
Proof. induction n; simpl; done. Qed.

Lemma py_index_mod (W : nat) (start : nat) :
  0 < W →
  py_index W (Z.of_nat start `mod` Z.of_nat W)%Z = Ok (start `mod` W).
Proof.
  intros HW. unfold py_index.
  rewrite <- Nat2Z.inj_mod.
  assert (start `mod` W < W) by (apply Nat.mod_upper_bound; lia).
  rewrite (proj2 (Z.leb_le _ _)) by lia.
  rewrite (proj2 (Z.ltb_lt _ _)) by lia.
  simpl. by rewrite Nat2Z.id.
Qed.

(** The loop of [distribute_resources_to_workers], started at any
    point: every slice gets, behind what it holds, its tasks among the
    ones that are left. *)
Lemma assign_items_spec (W : nat) (rest : list work_item) :
  0 < W → ∀ start tasks,
  length tasks = W →
  ∃ out,
    assign_items (Z.of_nat W)
      (zip (map Z.of_nat (seq start (length rest))) rest) tasks = Ok out
    ∧ length out = W
    ∧ (∀ k t, tasks !! k = Some t →
              out !! k = Some (t ++ slice_from W k start rest))
    ∧ concat out ≡ₚ concat tasks ++ rest.
Proof.
  intros HW. induction rest as [|x rest IH]; intros start tasks Hlen; simpl.
  - exists tasks. split; [done|]. split; [done|]. split.
    + intros k t Hk. by rewrite app_nil_r.
    + by rewrite app_nil_r.
  - unfold assign_item. simpl.
    rewrite (proj2 (Z.eqb_neq _ _)) by lia.
    rewrite Hlen, (py_index_mod W start HW). simpl.
    set (slot := start `mod` W).
    assert (slot < W) as Hslot by (apply Nat.mod_upper_bound; lia).
    destruct (IH (S start) (alter (λ t, t ++ [x]) slot tasks)) as
      (out & Hout & Hlen' & Hslices & Hperm).
    { by rewrite length_alter. }
    exists out. split; [done|]. split; [done|]. split.
    + intros k t Hk. destruct (decide (slot = k)) as [<-|Hne].
      * rewrite (Hslices slot (t ++ [x])).
        -- by rewrite <- app_assoc.
        -- rewrite list_lookup_alter_eq, Hk. done.
      * apply Hslices. by rewrite list_lookup_alter_ne.
    + rewrite Hperm, concat_alter_snoc by lia.
      by rewrite <- app_assoc.
Qed.

Lemma enumerate_unfold {A} (items : list A) :
  enumerate items = zip (map Z.of_nat (seq 0 (length items))) items.
Proof. done. Qed.

Lemma make_work_items_nonempty resources search_terms :
  resources ≠ [] → make_work_items resources search_terms ≠ [].
Proof.
  destruct resources as [|r rs]; [done|]. intros _.
  destruct search_terms as [|t ts]; simpl; done.
Qed.

(** C2, amended. For a resource list that is not empty and a worker
    count [W] of at least one, the scheduler returns [W] slices; slice [k]
    holds, in their original order, the tasks whose index is [k] modulo
    [W], so the task at index [i] is in slice [i mod W]; every slice is a
    subsequence of the task list; and the slices together hold every task
    once (they are disjoint and cover the list). The slices are a function
    of the task list and [W]. *)
Theorem distribute_resources_to_workers_round_robin
    (resources search_terms : list string) (worker_count : Z) :
  resources ≠ [] → (1 ≤ worker_count)%Z →
  let items := make_work_items resources search_terms in
  let W := Z.to_nat worker_count in
  ∃ slices,
    distribute_resources_to_workers resources search_terms worker_count = Ok slices
    ∧ slices = round_robin W items
    ∧ length slices = W
    ∧ (∀ i item, items !! i = Some item →
         ∃ slice, slices !! (i `mod` W) = Some slice ∧ item ∈ slice)
    ∧ (∀ slice, slice ∈ slices → slice `sublist_of` items)
    ∧ concat slices ≡ₚ items.
Proof.
  intros Hres HW items W.
  assert (0 < W) as HW' by (unfold W; lia).
  destruct (assign_items_spec W items HW' 0 (replicate W [])) as
    (out & Hout & Hlen & Hslices & Hperm).
  { apply length_replicate. }
  assert (out = round_robin W items) as Hrr.
  { apply list_eq. intros k. unfold round_robin.
    rewrite list_lookup_fmap.
    destruct (decide (k < W)) as [Hk|Hk].
    - rewrite (Hslices k []) by (by apply lookup_replicate_2).
      by rewrite lookup_seq_lt.
    - rewrite lookup_ge_None_2 by lia.
      by rewrite lookup_seq_ge by lia. }
  exists out. split.
  { unfold distribute_resources_to_workers.
    destruct resources as [|r rs]; [done|].
    fold items. rewrite enumerate_unfold.
    replace worker_count with (Z.of_nat W) by (unfold W; lia).
    rewrite Nat2Z.id. exact Hout. }
  split; [done|]. split; [done|]. split; [|split].
  - intros i item Hi.
    assert (i `mod` W < W) as Hlt by (apply Nat.mod_upper_bound; lia).
    exists (slice_from W (i `mod` W) 0 items). split.
    + rewrite (Hslices (i `mod` W) []) by (by apply lookup_replicate_2). done.
    + by apply (slice_from_elem W items 0 i item).
  - intros slice Hin. rewrite Hrr in Hin. unfold round_robin in Hin.
    apply list_elem_of_fmap in Hin as (k & -> & _).
    apply slice_from_sublist.
  - by rewrite Hperm, concat_replicate_nil.
Qed.

Lemma distribute_resources_to_workers_round_robin_witness :
  let resources := ["a.com"; "b.com"; "c.com"] in
  let items := make_work_items resources [] in
  ∃ slices,
    distribute_resources_to_workers resources [] 2 = Ok slices
    ∧ slices = round_robin 2 items
    ∧ length slices = 2
    ∧ (∀ i item, items !! i = Some item →
         ∃ slice, slices !! (i `mod` 2) = Some slice ∧ item ∈ slice)
    ∧ (∀ slice, slice ∈ slices → slice `sublist_of` items)
    ∧ concat slices ≡ₚ items.
Proof.
  apply (distribute_resources_to_workers_round_robin
           ["a.com"; "b.com"; "c.com"] [] 2); [discriminate | lia].
Defined.

(** C2 as stated fails for an empty resource list: the guard at the
    head of the function returns no slice at all, not [W] empty ones. *)
Lemma distribute_resources_to_workers_empty_counterexample :
  ¬ ∃ slices,
      distribute_resources_to_workers [] ["admin"] 3 = Ok slices
      ∧ length slices = 3.
Proof. intros (slices & H & Hlen). injection H as <-. discriminate. Qed.

(** ** The result sets and the output file *)



Lemma fold_perform_invariant (P : results → Prop) :
  (∀ st a, P st → P (perform st a)) →
  ∀ actions st, P st → P (fold_left perform actions st).
Proof.
  intros Hstep actions. induction actions as [|a actions IH]; simpl; [done|].
  intros st Hst. apply IH, Hstep, Hst.
Qed.

Lemma perform_current st a : current_domains st ⊆ current_domains (perform st a).
Proof.
  destruct a as [data|io]; simpl.
  - destruct (extract_domains_from_data data) as [domains|]; [|done].
    case_decide; [done|]. simpl. set_solver.
  - unfold save_current_results. repeat case_decide; try done.
    by destruct io.
Qed.

Lemma perform_saved st a : saved_domains st ⊆ saved_domains (perform st a).
Proof.
  destruct a as [data|io]; simpl.
  - destruct (extract_domains_from_data data) as [domains|]; [|done].
    by case_decide.
  - unfold save_current_results. repeat case_decide; try done.
    destruct io; simpl; set_solver.
Qed.

(** What a step adds to [saved_domains] comes from [current_domains]. *)
Lemma perform_saved_from_current st a :
  saved_domains (perform st a) ⊆ saved_domains st ∪ current_domains st.
Proof.
  destruct a as [data|io]; simpl.
  - destruct (extract_domains_from_data data) as [domains|]; [|set_solver].
    case_decide; set_solver.
  - unfold save_current_results. repeat case_decide; try set_solver.
    destruct io; simpl; unfold new_domains; set_solver.
Qed.

Lemma perform_within (S : gset string) st a :
  saved_domains st ⊆ current_domains st ∪ S →
  saved_domains (perform st a) ⊆ current_domains (perform st a) ∪ S.
Proof.
  intros H.
  pose proof (perform_saved_from_current st a).
  pose proof (perform_current st a).
  set_solver.
Qed.

(** C5, amended. At every point of a run a record of [saved_domains] is
    in [current_domains] or was read from the existing output file at
    start-up. Every absorb and every flush keeps [saved_domains] inside
    [current_domains] where it was inside before, and the inclusion holds
    all along a run whose start-up reconciliation reads no record. *)
Theorem saved_domains_within_collected_or_startup
    (file : option string) (io : read_outcome) (actions : list action) :
  let st0 := initialize_saved_domains io (fresh_results file) in
  let st := run file io actions in
  saved_domains st ⊆ current_domains st ∪ saved_domains st0
  ∧ (saved_domains st0 = ∅ → saved_domains st ⊆ current_domains st)
  ∧ (∀ st1 a, saved_domains st1 ⊆ current_domains st1 →
       saved_domains (perform st1 a) ⊆ current_domains (perform st1 a)).
Proof.
  intros st0 st.
  assert (saved_domains st ⊆ current_domains st ∪ saved_domains st0) as Hrun.
  { unfold st, run. fold st0.
    apply (fold_perform_invariant
             (λ s, saved_domains s ⊆ current_domains s ∪ saved_domains st0)).
    - intros s a. apply perform_within.
    - set_solver. }
  split; [done|]. split.
  - intros Hempty. rewrite Hempty in Hrun. set_solver.
  - intros st1 a H.
    pose proof (perform_within ∅ st1 a). set_solver.
Qed.

Lemma saved_domains_within_collected_or_startup_witness :
  let actions :=
    [Absorb (page_response "serverResponse" [JObj [("hostname", JStr "a.com")]] JNull);
     Flush WriteOk] in
  saved_domains (run None ReadOk actions) ⊆ current_domains (run None ReadOk actions).
Proof.
  intros actions.
  apply (proj1 (proj2 (saved_domains_within_collected_or_startup
                         None ReadOk actions))).
  reflexivity.
Defined.

(** C5 as stated fails at start-up: against a file that holds a record,
    reconciliation fills [saved_domains] while [current_domains] is still
    empty. *)
Lemma initialize_saved_domains_counterexample :
  let st := run (Some ("a.com" +:+ newline)) ReadOk [] in
  ¬ saved_domains st ⊆ current_domains st.
Proof.
  intros st H.
  assert ("a.com" ∈ saved_domains st) as Hin.
  { change (saved_domains st)
      with (list_to_set (C := gset string) (stripped_lines ("a.com" +:+ newline))).
    apply elem_of_list_to_set.
    change (stripped_lines ("a.com" +:+ newline)) with ["a.com"].
    apply list_elem_of_here. }
  apply H in Hin.
  change (current_domains st) with (∅ : gset string) in Hin.
  by apply not_elem_of_empty in Hin.
Qed.

Lemma perform_clean st a :
  (∀ d, d ∈ current_domains st → clean d) →
  ∀ d, d ∈ current_domains (perform st a) → clean d.
Proof.
  intros Hst. destruct a as [data|io]; simpl.
  - destruct (extract_domains_from_data data) as [domains|] eqn:E; [|done].
    case_decide; [done|]. simpl. intros d [Hd|Hd]%elem_of_union; [by apply Hst|].
    apply elem_of_list_to_set in Hd.
    apply extract_domains_clean in E.
    by apply (proj1 (Forall_forall _ _) E).
  - unfold save_current_results. repeat case_decide; try done.
    by destruct io.
Qed.

Lemma string_app_cons (x : ascii) (a b : string) :
  String x a +:+ b = String x (a +:+ b).
Proof. reflexivity. Qed.

Lemma string_app_assoc (a b c : string) : (a +:+ b) +:+ c = a +:+ (b +:+ c).
Proof.
  induction a as [|x a IH]; [done|].
  by rewrite !string_app_cons, IH.
Qed.

Lemma string_app_nil_r (a : string) : a +:+ "" = a.
Proof.
  induction a as [|x a IH]; [done|].
  by rewrite string_app_cons, IH.
Qed.

Lemma perform_appends (text : string) st a :
  (∃ appended, output_file st = Some (text +:+ appended)) →
  ∃ appended, output_file (perform st a) = Some (text +:+ appended).
Proof.
  intros [appended Hfile]. destruct a as [data|io]; simpl.
  - destruct (extract_domains_from_data data) as [domains|]; [|by exists appended].
    case_decide; by exists appended.
  - unfold save_current_results. repeat case_decide; try by exists appended.
    destruct io; simpl; rewrite ?Hfile; unfold append_text; simpl.
    + eexists. by rewrite string_app_assoc.
    + by exists appended.
    + eexists. by rewrite string_app_assoc.
Qed.

Lemma stripped_lines_elem text d :
  d ∈ stripped_lines text ↔ d ≠ "" ∧ ∃ line, line ∈ split_lines text ∧ d = strip line.
Proof.
  unfold stripped_lines. rewrite list_elem_of_filter, list_elem_of_fmap.
  split.
  - intros [Hne (line & -> & Hin)]. split; [done|]. by exists line.
  - intros [Hne (line & Hin & ->)]. split; [done|]. by exists line.
Qed.

(** ** The world: what each function leaves in place *)

Lemma M_bind_unfold {A B} (m : M A) (f : A → M B) w :
  (m ≫= f) w = match m w with
               | (Ok a, w') => f a w'
               | (Raise e, w') => (Raise e, w')
               end.
Proof. reflexivity. Qed.

Lemma extends_refl w : extends w w [].
Proof. unfold extends. by rewrite app_nil_r. Qed.

Lemma extends_trans w1 w2 w3 e1 e2 :
  extends w1 w2 e1 → extends w2 w3 e2 → extends w1 w3 (e1 ++ e2).
Proof.
  intros (N1 & C1 & T1) (N2 & C2 & T2). unfold extends.
  rewrite N2, N1, C2, C1, T2, T1. by rewrite app_assoc.
Qed.

Lemma same_session_refl w : same_session w w.
Proof. done. Qed.

Lemma same_session_trans w1 w2 w3 :
  same_session w1 w2 → same_session w2 w3 → same_session w1 w3.
Proof. intros [A1 B1] [A2 B2]. unfold same_session. by rewrite A2, B2. Qed.

Lemma sleep_run seconds w :
  ∃ w', sleep seconds w = (Ok (), w') ∧ extends w w' [EvSleep seconds]
        ∧ same_session w w' ∧ requests_made w' = requests_made w.
Proof. eexists. split; [reflexivity|]. by repeat split. Qed.

Lemma emit_run e w :
  ∃ w', emit e w = (Ok (), w') ∧ extends w w' [e]
        ∧ same_session w w' ∧ requests_made w' = requests_made w.
Proof. eexists. split; [reflexivity|]. by repeat split. Qed.

Lemma http_get_run r w :
  ∃ w', http_get r w = (Ok (network w (requests_made w) r), w')
        ∧ extends w w' [EvRequest r] ∧ same_session w w'
        ∧ requests_made w' = S (requests_made w).
Proof. eexists. split; [reflexivity|]. by repeat split. Qed.

Lemma validate_session_run c w :
  ∃ w', validate_session c w
        = (Ok (session_valid (network w (requests_made w) (ValidateRequest c))), w')
        ∧ extends w w' [EvRequest (ValidateRequest c)] ∧ same_session w w'.
Proof. eexists. split; [reflexivity|]. by repeat split. Qed.

Lemma load_attempts_run max_retries attempts : ∀ w,
  ∃ r w' evs, load_attempts max_retries attempts w = (Ok r, w')
    ∧ extends w w' evs ∧ same_session w w'
    ∧ requests_made w' = requests_made w
    ∧ Forall (λ e, is_plain e = true) evs ∧ page_requests evs = [].
Proof.
  induction attempts as [|attempt rest IH]; intros w; simpl.
  - exists None, w, []. split; [done|]. split; [apply extends_refl|]. done.
  - rewrite M_bind_unfold. unfold read_cookie_file at 1. simpl.
    set (w1 := {| network := network w; requests_made := requests_made w;
                  cookie_file := cookie_file w; cookie_reads := S (cookie_reads w);
                  now := now w; current_cookies := current_cookies w;
                  last_cookie_reload_time := last_cookie_reload_time w;
                  trace := trace w |}).
    assert (extends w w1 []) as Hw1
      by (unfold extends; simpl; by rewrite app_nil_r).
    destruct (cookie_file w (cookie_reads w)) as [value| |].
    + exists (Some value), w1, []. done.
    + exists None, w1, []. done.
    + destruct (attempt <? max_retries - 1)%nat.
      * rewrite M_bind_unfold.
        destruct (sleep_run 2 w1) as (w2 & -> & H2 & S2 & R2).
        destruct (IH w2) as (r & w3 & evs & -> & H3 & S3 & R3 & P3 & Q3).
        exists r, w3, ([EvSleep 2%Z] ++ evs).
        split; [done|]. split.
        { apply (extends_trans w w2 w3); [|done].
          change [EvSleep 2%Z] with ([] ++ [EvSleep 2%Z]).
          by apply (extends_trans w w1 w2). }
        split; [apply (same_session_trans w w2 w3); [|done];
                by apply (same_session_trans w w1 w2)|].
        split; [by rewrite R3, R2|].
        split; [by constructor|done].
      * exists None, w1, []. done.
Qed.

(** What [reload_cookies] does: it never raises; it makes no page
    request; where it returns nothing, the session globals are as they
    were; where it returns cookies, they are installed, and the request that
    validated them was answered as valid. *)
Lemma reload_cookies_run w :
  ∃ r w' evs, reload_cookies w = (Ok r, w')
    ∧ extends w w' evs
    ∧ Forall (λ e, is_plain e = true) evs ∧ page_requests evs = []
    ∧ match r with
      | None => same_session w w'
      | Some c =>
          current_cookies w' = Some c
          ∧ ∃ n, session_valid (network w n (ValidateRequest c)) = true
      end.
Proof.
  unfold reload_cookies, load_securitytrails_cookie. rewrite M_bind_unfold.
  destruct (load_attempts_run 3 (seq 0 3) w) as
    (r & w1 & evs & -> & H1 & S1 & R1 & P1 & Q1).
  destruct r as [c|].
  - rewrite M_bind_unfold.
    destruct (validate_session_run c w1) as (w2 & -> & H2 & S2).
    destruct H1 as (N1 & C1 & T1).
    destruct (session_valid _) eqn:Hvalid.
    + eexists (Some c), _, (evs ++ [EvRequest (ValidateRequest c)]).
      split; [reflexivity|]. split.
      { destruct H2 as (N2 & C2 & T2). unfold extends. simpl.
        rewrite N2, N1, C2, C1, T2, T1. by rewrite app_assoc. }
      split; [apply Forall_app; split; [done|by constructor]|].
      split; [unfold page_requests in *; rewrite omap_app, Q1; done|].
      split; [done|]. exists (requests_made w1). by rewrite <- N1.
    + exists None, w2, (evs ++ [EvRequest (ValidateRequest c)]).
      split; [done|]. split; [by apply (extends_trans w w1 w2)|].
      split; [apply Forall_app; split; [done|by constructor]|].
      split; [unfold page_requests in *; rewrite omap_app, Q1; done|].
      by apply (same_session_trans w w1 w2).
  - exists None, w1, evs. done.
Qed.

(** ** Reloading the cookie *)

(** C8. When the cookie read from the file fails validation,
    [reload_cookies] returns nothing and leaves [current_cookies] and
    [last_cookie_reload_time] as they were. In every case the reload either
    leaves [current_cookies] as it was, or installs the cookies it returns,
    and those are cookies the validation request was answered as valid
    for. *)
Theorem reload_cookies_keeps_session_on_failed_validation
    (w : world) (c : cookies) (w1 w2 : world) :
  load_securitytrails_cookie w = (Ok (Some c), w1) →
  validate_session c w1 = (Ok false, w2) →
  reload_cookies w = (Ok None, w2)
  ∧ current_cookies w2 = current_cookies w
  ∧ last_cookie_reload_time w2 = last_cookie_reload_time w
  ∧ (∀ w0, ∃ r w',
       reload_cookies w0 = (Ok r, w')
       ∧ match r with
         | None => current_cookies w' = current_cookies w0
         | Some c' =>
             current_cookies w' = Some c'
             ∧ ∃ n, session_valid (network w0 n (ValidateRequest c')) = true
         end).
Proof.
  intros Hload Hvalid.
  assert (reload_cookies w = (Ok None, w2)) as Hreload.
  { unfold reload_cookies. rewrite M_bind_unfold, Hload.
    by rewrite M_bind_unfold, Hvalid. }
  split; [done|].
  assert (same_session w w2) as [Hc Ht].
  { destruct (reload_cookies_run w) as (r & w' & evs & H & _ & _ & _ & Hr).
    rewrite Hreload in H. injection H as <- <-. exact Hr. }
  split; [done|]. split; [done|].
  intros w0.
  destruct (reload_cookies_run w0) as (r & w' & evs & H & _ & _ & _ & Hr).
  exists r, w'. split; [done|].
  destruct r as [c'|]; [done|]. by destruct Hr.
Qed.

Lemma reload_cookies_keeps_session_on_failed_validation_witness :
  let w := example_world (λ _ _, Response 401 None) (λ _, CookieFound "fresh") in
  (reload_cookies w).1 = Ok None
  ∧ current_cookies (reload_cookies w).2 = Some "stale".
Proof.
  intros w.
  destruct (reload_cookies_keeps_session_on_failed_validation
              w "fresh"
              (load_securitytrails_cookie w).2
              (validate_session "fresh" (load_securitytrails_cookie w).2).2
              eq_refl eq_refl) as (H & Hc & _).
  rewrite H. split; [reflexivity | exact Hc].
Defined.

(** ** Fetching a page *)

Section fetch_facts.
Variables (resource_type resource_value : string) (page : Z).
Variables (search_term : option string) (max_retries : nat).

Let fetch := fetch_attempts resource_type resource_value page search_term max_retries.
Let page_request (c : cookies) : request :=
  PageRequest resource_type resource_value page (search_param search_term) c.

(** On an authorization failure the turn ends in [reload_then] on the
    turns that are left. *)
Lemma fetch_attempts_authorization_failure attempt rest c w w1 :
  http_get (page_request c) w = (Ok (network w (requests_made w) (page_request c)), w1) →
  authorization_failure (network w (requests_made w) (page_request c)) →
  fetch (attempt :: rest) c w = reload_then (fetch rest) w1.
Proof.
  intros Hget Hauth. unfold fetch. simpl. rewrite M_bind_unfold.
  fold (page_request c). rewrite Hget.
  destruct (network w (requests_made w) (page_request c))
    as [| |status body]; [done|done|].
  destruct Hauth as [->|(Hstatus & data & -> & Hexp)]; [done|].
  destruct (status =? 401)%Z eqn:E401; [done|].
  destruct ((400 <=? status)%Z && (status <? 600)%Z) eqn:Erange.
  { apply andb_prop in Erange as [?%Z.leb_le ?%Z.ltb_lt]. lia. }
  by rewrite Hexp.
Qed.

(** A fetch never raises; it makes at most one page request for each
    turn it is given, each for the same page, and nothing else than
    requests and sleeps. *)
Lemma fetch_attempts_run attempts : ∀ c w,
  ∃ data w' evs, fetch attempts c w = (Ok data, w')
    ∧ extends w w' evs
    ∧ Forall (λ e, is_plain e = true) evs
    ∧ (length (page_requests evs) ≤ length attempts)%nat
    ∧ Forall (λ r, ∃ c', r = page_request c') (page_requests evs).
Proof.
  induction attempts as [|attempt rest IH]; intros c w.
  { exists JNull, w, []. split; [done|]. split; [apply extends_refl|]. done. }
  destruct (http_get_run (page_request c) w) as (w1 & Hget & H1 & _ & _).
  (* the two ways the turn can go on *)
  assert (∀ data w1' w' evs0 evs,
            fetch (attempt :: rest) c w = (Ok data, w') →
            extends w1 w1' evs0 → Forall (λ e, is_plain e = true) evs0 →
            page_requests evs0 = [] →
            extends w1' w' evs → Forall (λ e, is_plain e = true) evs →
            (length (page_requests evs) ≤ length rest)%nat →
            Forall (λ r, ∃ c', r = page_request c') (page_requests evs) →
            ∃ data w' evs, fetch (attempt :: rest) c w = (Ok data, w')
              ∧ extends w w' evs
              ∧ Forall (λ e, is_plain e = true) evs
              ∧ (length (page_requests evs) ≤ length (attempt :: rest))%nat
              ∧ Forall (λ r, ∃ c', r = page_request c') (page_requests evs))
    as Hgo.
  { intros data w1' w' evs0 evs Hrun E0 P0 Q0 E P Hlen Hreq.
    exists data, w', ([EvRequest (page_request c)] ++ evs0 ++ evs).
    split; [done|]. split.
    { apply (extends_trans w w1 w'); [done|]. by apply (extends_trans w1 w1' w'). }
    split.
    { apply Forall_app. split; [by constructor|]. by apply Forall_app. }
    unfold page_requests in *. rewrite !omap_app, Q0. simpl. split; [lia|].
    constructor; [by exists c|done]. }
  assert (∀ data, fetch (attempt :: rest) c w = (Ok data, w1) →
            ∃ data w' evs, fetch (attempt :: rest) c w = (Ok data, w')
              ∧ extends w w' evs
              ∧ Forall (λ e, is_plain e = true) evs
              ∧ (length (page_requests evs) ≤ length (attempt :: rest))%nat
              ∧ Forall (λ r, ∃ c', r = page_request c') (page_requests evs))
    as Hstop.
  { intros data Hrun.
    apply (Hgo data w1 w1 [] []); try done; try apply extends_refl. simpl. lia. }
  assert (reload_then (fetch rest) w1 = fetch (attempt :: rest) c w →
            ∃ data w' evs, fetch (attempt :: rest) c w = (Ok data, w')
              ∧ extends w w' evs
              ∧ Forall (λ e, is_plain e = true) evs
              ∧ (length (page_requests evs) ≤ length (attempt :: rest))%nat
              ∧ Forall (λ r, ∃ c', r = page_request c') (page_requests evs))
    as Hreload.
  { intros Heq. unfold reload_then in Heq. rewrite M_bind_unfold in Heq.
    destruct (reload_cookies_run w1) as (r & w2 & evs0 & Hr & E0 & P0 & Q0 & _).
    rewrite Hr in Heq. destruct r as [c'|].
    - destruct (IH c' w2) as (data & w' & evs & Hrun & E & P & Hlen & Hreq).
      rewrite Hrun in Heq. symmetry in Heq.
      by apply (Hgo data w2 w' evs0 evs).
    - symmetry in Heq.
      apply (Hgo JNull w2 w2 evs0 []); try done; try apply extends_refl.
      simpl. lia. }
  unfold fetch in *. simpl in *. rewrite M_bind_unfold in *.
  fold (page_request c) in *. rewrite Hget in *.
  destruct (network w (requests_made w) (page_request c)) as [| |status body].
  - destruct (attempt <? max_retries - 1)%nat; [|by apply Hstop with JNull].
    rewrite M_bind_unfold in *.
    destruct (sleep_run 2 w1) as (w2 & Hs & E2 & _ & _). rewrite Hs in *.
    destruct (IH c w2) as (data & w' & evs & Hrun & E & P & Hlen & Hreq).
    rewrite Hrun in *.
    apply (Hgo data w2 w' [EvSleep 2%Z] evs); try done. by repeat constructor.
  - by apply Hstop with JNull.
  - destruct (status =? 401)%Z; [by apply Hreload|].
    destruct ((400 <=? status)%Z && (status <? 600)%Z); [by apply Hstop with JNull|].
    destruct body as [data|]; [|by apply Hstop with JNull].
    destruct (is_session_expired data) as [[|]|];
      [by apply Hreload | by apply Hstop with data | by apply Hstop with JNull].
Qed.

End fetch_facts.

(** ** Expiry of the session *)

Lemma py_in_obj_Some k fields v :
  assoc k fields = Some v → py_in k (JObj fields) = Ok true.
Proof. intros H. simpl. rewrite H. by rewrite bool_decide_true. Qed.

Lemma py_in_obj_None k fields :
  assoc k fields = None → py_in k (JObj fields) = Ok false.
Proof.
  intros H. simpl. rewrite H. rewrite bool_decide_false; [done|].
  by intros [? ?].
Qed.

Lemma py_getitem_obj k fields v :
  assoc k fields = Some v → py_getitem (JObj fields) k = Ok v.
Proof. intros H. simpl. by rewrite H. Qed.

Lemma branch_expired_marker name pp d :
  assoc name pp = Some d → branch_expired name (JObj pp) = has_expiry_marker d.
Proof.
  intros H. unfold branch_expired.
  by rewrite (py_in_obj_Some _ _ _ H), (py_getitem_obj _ _ _ H).
Qed.

Lemma branch_expired_absent name pp :
  assoc name pp = None → branch_expired name (JObj pp) = Ok false.
Proof. intros H. unfold branch_expired. by rewrite (py_in_obj_None _ _ H). Qed.

Lemma is_session_expired_page_props top pp :
  assoc "pageProps" top = Some (JObj pp) →
  is_session_expired (JObj top) =
    (apex ← branch_expired "apexDomainData" (JObj pp);
     if apex : bool then Ok true else
     dns ← branch_expired "dnsData" (JObj pp);
     if dns : bool then Ok true else Ok false).
Proof.
  intros H. unfold is_session_expired.
  rewrite (assoc_Some_truthy _ _ _ H). cbn [negb].
  by rewrite (py_in_obj_Some _ _ _ H), (py_getitem_obj _ _ _ H).
Qed.

Lemma has_expiry_marker_iff d :
  has_expiry_marker (JObj d) = Ok true ↔
  (∃ status, assoc "status" d = Some status ∧ py_eq_int status 401 = true)
  ∨ assoc "error" d = Some (JStr "session_expired").
Proof.
  unfold has_expiry_marker. simpl.
  destruct (assoc "status" d) as [status|] eqn:Es; simpl.
  - destruct (py_eq_int status 401) eqn:E401.
    + split; [|done]. intros _. left. by exists status.
    + destruct (assoc "error" d) as [[| | |s| |]|]; simpl;
        try (split; [done|intros [(? & [= <-] & ?)|?]; congruence]).
      split.
      * intros [= H%String.eqb_eq]. right. by rewrite H.
      * intros [(? & [= <-] & ?)|[= ->]]; [congruence|].
        by rewrite String.eqb_refl.
  - destruct (assoc "error" d) as [[| | |s| |]|]; simpl;
      try (split; [done|intros [(? & ? & ?)|?]; congruence]).
    split.
    + intros [= H%String.eqb_eq]. right. by rewrite H.
    + intros [(? & ? & ?)|[= ->]]; [congruence|].
      by rewrite String.eqb_refl.
Qed.

(** ** Discovery of the page count *)

Lemma attempts_of_plain evs :
  Forall (λ e, is_plain e = true) evs → attempts_of evs = [].
Proof.
  induction 1 as [|e evs He _ IH]; [done|].
  destruct e; try done; exact IH.
Qed.


Lemma backoff_follows_plain evs rest :
  Forall (λ e, is_plain e = true) evs →
  backoff_follows (evs ++ rest) = backoff_follows rest.
Proof.
  induction 1 as [|e evs He _ IH]; [done|]. simpl. by destruct e.
Qed.


Section discovery_facts.
Variables (resource_type resource_value : string).
Variables (search_term : option string) (max_retries : nat).

Let discover :=
  first_page_attempts resource_type resource_value search_term max_retries.




Lemma extends_as w w' evs evs' : extends w w' evs → evs = evs' → extends w w' evs'.
Proof. by intros H <-. Qed.



End discovery_facts.

Lemma py_and_true a b : py_and a b = Ok true → a = Ok true ∧ b = Ok true.
Proof.
  unfold py_and. destruct a as [[|]|]; simpl; [|done|done].
  by intros ->.
Qed.

(** ** The model on small inputs *)

Example extract_domains_from_data_example :
  extract_domains_from_data
    (page_response "apexDomainData"
       [JObj [("hostname", JStr " a.com ")]; JObj [("hostname", JStr "  ")];
        JObj []; JObj [("hostname", JStr "b.org")]] JNull)
  = Ok ["a.com"; "b.org"].
Proof. reflexivity. Qed.

Example distribute_resources_to_workers_example :
  distribute_resources_to_workers ["a"; "b"; "c"; "d"; "e"] [] 2
  = Ok [[("a", None); ("c", None); ("e", None)]; [("b", None); ("d", None)]].
Proof. reflexivity. Qed.

Example is_legitimate_100_pages_example :
  get_total_pages_from_data (page_response "serverResponse" [] (JObj [])) = Ok (JNum 100)
  ∧ is_legitimate_100_pages (page_response "serverResponse" [] (JObj [])) = Ok false
  ∧ is_legitimate_100_pages
      (page_response "serverResponse" []
         (JObj [("total_pages", JNum 100); ("limit_reached", JBool true)]))
    = Ok true.
Proof. repeat split; reflexivity. Qed.

(** The provider answers the first attempt with the ceiling, no signal
    and no record, and the second with three pages and a record: the first
    attempt is archived and followed by two seconds of sleep, the second is
    accepted with its count. *)
Example get_first_page_with_retry_example :
  let doubtful := page_response "serverResponse" []
                    (JObj [("total_pages", JNum 100)]) in
  let good := page_response "serverResponse" [JObj [("hostname", JStr "a.com")]]
                (JObj [("total_pages", JNum 3)]) in
  let w := example_world
             (λ n r, match r with
                     | ValidateRequest _ => Response 200 None
                     | _ => if (n <? 2)%nat then Response 200 (Some doubtful)
                            else Response 200 (Some good)
                     end)
             (λ _, CookieAbsent) in
  let run := get_first_page_with_retry "subdomain" "example.com" None 10 "stale" w in
  run.1 = Ok (good, JNum 3)
  ∧ attempts_of (trace run.2) = [1; 2]%nat
  ∧ archived_attempts (trace run.2) = [1]%nat
  ∧ backoff_follows (trace run.2) = true.
Proof. vm_compute. repeat split; reflexivity. Qed.

(** ** More on the result sets: order, failure, and the way back from disk *)

Lemma perform_current_absorbed st a :
  current_domains (perform st a) = current_domains st ∪ absorbed a.
Proof.
  destruct a as [data|io]; simpl.
  - destruct (extract_domains_from_data data) as [domains|]; [|set_solver].
    case_decide as Hd; [subst; set_solver|done].
  - unfold save_current_results. repeat case_decide; try set_solver.
    destruct io; set_solver.
Qed.

Lemma fold_perform_current actions : ∀ st,
  current_domains (fold_left perform actions st)
  = current_domains st ∪ ⋃ (absorbed <$> actions).
Proof.
  induction actions as [|a actions IH]; intros st; simpl; [set_solver|].
  rewrite IH, perform_current_absorbed. set_solver.
Qed.

Lemma union_list_absorbed_perm (l1 l2 : list action) :
  l1 ≡ₚ l2 → ⋃ (absorbed <$> l1) = ⋃ (absorbed <$> l2).
Proof.
  intros Hperm. apply set_eq. intros x. rewrite !elem_of_union_list.
  split; intros (X & HX & Hx); exists X; split; try done.
  - by rewrite <- Hperm.
  - by rewrite Hperm.
Qed.

(** The records collected by a run are the union of the batches its
    responses gave, with the flushes in between changing nothing of it; so
    the order in which threads hand in their batches does not matter. *)
Theorem current_domains_is_union_of_batches
    (file : option string) (io : read_outcome) (actions actions' : list action) :
  actions ≡ₚ actions' →
  current_domains (run file io actions) = ⋃ (absorbed <$> actions)
  ∧ current_domains (run file io actions') = current_domains (run file io actions).
Proof.
  intros Hperm.
  assert (∀ l, current_domains (run file io l) = ⋃ (absorbed <$> l)) as Hrun.
  { intros l. unfold run. rewrite fold_perform_current.
    destruct file as [text|]; [destruct io|]; simpl; set_solver. }
  split; [apply Hrun|].
  rewrite !Hrun. symmetry. by apply union_list_absorbed_perm.
Qed.

Lemma current_domains_is_union_of_batches_witness :
  let a := Absorb (page_response "serverResponse"
                     [JObj [("hostname", JStr "a.com")]] JNull) in
  let b := Absorb (page_response "apexDomainData"
                     [JObj [("hostname", JStr "b.org")]] JNull) in
  current_domains (run None ReadOk [b; Flush OpenError; a])
  = current_domains (run None ReadOk [a; b; Flush OpenError]).
Proof.
  intros a b.
  apply (current_domains_is_union_of_batches None ReadOk
           [a; b; Flush OpenError] [b; Flush OpenError; a]).
  change [b; Flush OpenError; a] with ([b; Flush OpenError] ++ [a]).
  apply (Permutation_cons_append [b; Flush OpenError] a).
Defined.

Lemma saved_after_write st :
  saved_domains (save_current_results WriteOk st)
  = saved_domains st ∪ current_domains st.
Proof.
  unfold save_current_results.
  destruct (decide (current_domains st = ∅)) as [He|He]; [set_solver|].
  destruct (decide (new_domains st = ∅)) as [Hn|Hn].
  - apply set_eq. intros d. unfold new_domains in Hn.
    destruct (decide (d ∈ saved_domains st)); set_solver.
  - simpl. unfold new_domains. apply set_eq. intros d.
    destruct (decide (d ∈ saved_domains st)); set_solver.
Qed.

(** A flush that cannot open the file, or whose write stops after [n]
    characters, changes neither set: the records stay pending, and the next
    flush that succeeds writes all of them (those of the part that reached
    the file a second time) and marks everything collected as saved. *)
Theorem failed_flush_is_retried (st : results) (io : write_outcome) :
  io ≠ WriteOk →
  let st1 := save_current_results io st in
  let st2 := save_current_results WriteOk st1 in
  let text := lines_text (elements (new_domains st)) in
  current_domains st1 = current_domains st
  ∧ saved_domains st1 = saved_domains st
  ∧ saved_domains st2 = saved_domains st ∪ current_domains st
  ∧ current_domains st2 = current_domains st
  ∧ (new_domains st ≠ ∅ →
     output_file st2 =
       Some (default "" (output_file st)
             +:+ (match io with
                  | WriteError n => String.substring 0 n text
                  | _ => ""
                  end)
             +:+ text)).
Proof.
  intros Hio st1 st2 text.
  assert (current_domains st1 = current_domains st
          ∧ saved_domains st1 = saved_domains st) as [Hc Hs].
  { unfold st1, save_current_results. repeat case_decide; try done.
    by destruct io. }
  split; [done|]. split; [done|]. split.
  { unfold st2. by rewrite saved_after_write, Hc, Hs. }
  split.
  { unfold st2, save_current_results. repeat case_decide; done. }
  intros Hnew.
  assert (current_domains st ≠ ∅) as Hcur
    by (unfold new_domains in Hnew; set_solver).
  assert (new_domains st1 = new_domains st) as Hn1
    by (unfold new_domains; by rewrite Hc, Hs).
  unfold st2, save_current_results at 1.
  rewrite Hc, Hn1, !decide_False by done.
  simpl. fold text. unfold st1, save_current_results.
  rewrite !decide_False by done. fold text.
  destruct io as [| |n]; [done| |]; simpl; unfold append_text; simpl.
  - done.
  - by rewrite string_app_assoc.
Qed.

Lemma failed_flush_is_retried_witness :
  let st := absorb ["a.com"] (fresh_results None) in
  output_file (save_current_results WriteOk
                 (save_current_results (WriteError 3) st))
  = Some ("a.c" +:+ "a.com" +:+ newline).
Proof.
  intros st.
  assert (new_domains st ≠ ∅) as Hnew.
  { intros H. assert ("a.com" ∈ new_domains st) as Hin
      by (unfold new_domains, st; simpl; set_solver).
    rewrite H in Hin. by apply not_elem_of_empty in Hin. }
  pose proof (failed_flush_is_retried st (WriteError 3)) as H.
  destruct H as (_ & _ & _ & _ & Hfile); [discriminate|].
  rewrite (Hfile Hnew). vm_compute. reflexivity.
Defined.

(** Whatever happened to the flushes before it, a last flush that
    succeeds leaves every collected record saved: the saved set is then
    the records found on disk at start-up together with everything
    collected. *)
Theorem final_flush_persists_everything
    (file : option string) (io : read_outcome) (actions : list action) :
  let st0 := initialize_saved_domains io (fresh_results file) in
  let st := run file io (actions ++ [Flush WriteOk]) in
  current_domains st ⊆ saved_domains st
  ∧ saved_domains st = saved_domains st0 ∪ current_domains st.
Proof.
  intros st0 st.
  set (before := run file io actions).
  assert (st = save_current_results WriteOk before) as Hst.
  { unfold st, run. by rewrite fold_left_app. }
  assert (saved_domains before ⊆ current_domains before ∪ saved_domains st0)
    as Hwithin.
  { unfold before, run. fold st0.
    apply (fold_perform_invariant
             (λ s, saved_domains s ⊆ current_domains s ∪ saved_domains st0)).
    - intros s a. apply perform_within.
    - set_solver. }
  assert (saved_domains st0 ⊆ saved_domains before) as Hmono.
  { unfold before, run. fold st0.
    apply (fold_perform_invariant (λ s, saved_domains st0 ⊆ saved_domains s)).
    - intros s a Hs. pose proof (perform_saved s a). set_solver.
    - done. }
  assert (current_domains st = current_domains before) as Hcur.
  { rewrite Hst. unfold save_current_results. repeat case_decide; done. }
  rewrite Hcur, Hst, saved_after_write. set_solver.
Qed.

Lemma split_lines_single text : split_lines text = [""] → text = "".
Proof.
  destruct text as [|c rest]; [done|]. simpl.
  destruct (is_line_break c).
  - destruct rest; simpl; [done|]. by destruct (is_line_break _), (split_lines _).
  - by destruct (split_lines rest).
Qed.

(** A text that ends in a line break closes its last line: what is
    written behind it starts a line of its own. *)
Lemma split_lines_app_closed a :
  a ≠ "" → ends_with_break a = true →
  ∃ ls, split_lines a = ls ++ [""]
        ∧ ∀ b, split_lines (a +:+ b) = ls ++ split_lines b.
Proof.
  induction a as [|c rest IH]; [done|]. intros _ Hend.
  destruct rest as [|c' rest'].
  - simpl in Hend. exists [""]. split; [simpl; by rewrite Hend|].
    intros b. rewrite string_app_cons. simpl. by rewrite Hend.
  - destruct IH as (ls & Hls & Happ); [done|done|].
    destruct (is_line_break c) eqn:Ec.
    + exists ("" :: ls). split.
      * change (split_lines (String c (String c' rest')))
          with (if is_line_break c then "" :: split_lines (String c' rest')
                else match split_lines (String c' rest') with
                     | [] => [String c ""]
                     | line :: lines => String c line :: lines
                     end).
        by rewrite Ec, Hls.
      * intros b. rewrite string_app_cons.
        change (split_lines (String c (String c' rest' +:+ b)))
          with (if is_line_break c
                then "" :: split_lines (String c' rest' +:+ b)
                else match split_lines (String c' rest' +:+ b) with
                     | [] => [String c ""]
                     | line :: lines => String c line :: lines
                     end).
        by rewrite Ec, Happ.
    + destruct ls as [|l ls].
      { apply split_lines_single in Hls. done. }
      exists (String c l :: ls). split.
      * change (split_lines (String c (String c' rest')))
          with (if is_line_break c then "" :: split_lines (String c' rest')
                else match split_lines (String c' rest') with
                     | [] => [String c ""]
                     | line :: lines => String c line :: lines
                     end).
        by rewrite Ec, Hls.
      * intros b. rewrite string_app_cons.
        change (split_lines (String c (String c' rest' +:+ b)))
          with (if is_line_break c
                then "" :: split_lines (String c' rest' +:+ b)
                else match split_lines (String c' rest' +:+ b) with
                     | [] => [String c ""]
                     | line :: lines => String c line :: lines
                     end).
        by rewrite Ec, Happ.
Qed.

Lemma stripped_lines_app_closed a b :
  ends_with_break a = true →
  stripped_lines (a +:+ b) = stripped_lines a ++ stripped_lines b.
Proof.
  intros Hend. destruct (decide (a = "")) as [->|Hne]; [done|].
  destruct (split_lines_app_closed a Hne Hend) as (ls & Hls & Happ).
  unfold stripped_lines. rewrite Happ, Hls.
  rewrite !fmap_app, !filter_app. simpl.
  change (filter (λ l, l ≠ "") [strip ""]) with (@nil string).
  by rewrite app_nil_r.
Qed.

Lemma split_lines_record_then d text :
  no_line_break d = true →
  split_lines (d +:+ newline +:+ text) = d :: split_lines text.
Proof.
  unfold no_line_break. induction d as [|c d IH]; [done|]. simpl.
  intros [Hc Hd]%andb_prop. apply negb_true_iff in Hc. rewrite Hc.
  by rewrite (IH Hd).
Qed.

Lemma stripped_lines_lines_text ds :
  Forall (λ d, clean d ∧ no_line_break d = true) ds →
  stripped_lines (lines_text ds) = ds.
Proof.
  induction 1 as [|d ds [[Hne Hstrip] Hbreak] _ IH]; [done|].
  simpl. unfold stripped_lines in *.
  rewrite (split_lines_record_then d _ Hbreak). simpl.
  rewrite Hstrip, filter_cons_True by done. by rewrite IH.
Qed.

Lemma ends_with_break_app a b :
  ends_with_break a = true → ends_with_break b = true →
  ends_with_break (a +:+ b) = true.
Proof.
  intros Ha Hb. induction a as [|c rest IH]; [done|].
  rewrite string_app_cons. destruct rest as [|c' rest'].
  - destruct b; [done|]. done.
  - rewrite string_app_cons in *. apply IH. done.
Qed.

Lemma ends_with_break_lines_text ds : ends_with_break (lines_text ds) = true.
Proof.
  induction ds as [|d ds IH]; [done|]. simpl.
  induction d as [|c d IHd].
  - change ("" +:+ newline +:+ lines_text ds)
      with (String (ascii_of_nat 10) (lines_text ds)).
    destruct (lines_text ds); done.
  - rewrite string_app_cons.
    destruct (d +:+ newline +:+ lines_text ds) eqn:E; [|done].
    by destruct d.
Qed.

(** Writing then reading is a round trip. Behind a text that is empty or
    ends in a line break, the lines written for a list of records that are
    not empty, have no white space at their ends and no line break inside
    are read back as those records, in their order, after the records of
    the text. *)
Theorem written_records_read_back (text : string) (ds : list string) :
  ends_with_break text = true →
  Forall (λ d, clean d ∧ no_line_break d = true) ds →
  stripped_lines (text +:+ lines_text ds) = stripped_lines text ++ ds
  ∧ ends_with_break (text +:+ lines_text ds) = true.
Proof.
  intros Hend Hds. split.
  - by rewrite stripped_lines_app_closed, stripped_lines_lines_text.
  - apply ends_with_break_app; [done|apply ends_with_break_lines_text].
Qed.

Lemma written_records_read_back_witness :
  stripped_lines (("a.com" +:+ newline) +:+ lines_text ["b.org"; "c.net"])
  = stripped_lines ("a.com" +:+ newline) ++ ["b.org"; "c.net"].
Proof.
  apply (written_records_read_back ("a.com" +:+ newline) ["b.org"; "c.net"]).
  - reflexivity.
  - repeat constructor; try reflexivity; discriminate.
Defined.

Lemma disk_records_initialize file :
  saved_domains (initialize_saved_domains ReadOk (fresh_results file))
  = disk_records file.
Proof. destruct file as [text|]; [done|]. unfold disk_records. simpl. done. Qed.

Lemma perform_tidy_reflects st a :
  tidy a →
  disk_records (output_file st) = saved_domains st
  ∧ ends_with_break (default "" (output_file st)) = true
  ∧ (∀ d, d ∈ current_domains st → clean d ∧ no_line_break d = true) →
  disk_records (output_file (perform st a)) = saved_domains (perform st a)
  ∧ ends_with_break (default "" (output_file (perform st a))) = true
  ∧ (∀ d, d ∈ current_domains (perform st a) → clean d ∧ no_line_break d = true).
Proof.
  intros Htidy (Hdisk & Hend & Hrec). destruct a as [data|io]; simpl in *.
  - destruct (extract_domains_from_data data) as [domains|] eqn:E; [|done].
    case_decide; [done|]. simpl. split; [done|]. split; [done|].
    intros d [Hd|Hd]%elem_of_union; [by apply Hrec|].
    apply elem_of_list_to_set in Hd. split.
    + apply extract_domains_clean in E.
      by apply (proj1 (Forall_forall _ _) E).
    + by apply (proj1 (Forall_forall _ _) (Htidy domains eq_refl)).
  - unfold save_current_results. repeat case_decide; try done.
    destruct io as [| |n]; [|done|by destruct (Htidy n)].
    simpl. unfold append_text.
    assert (Forall (λ d, clean d ∧ no_line_break d = true)
                   (elements (new_domains st))) as Hnew.
    { apply Forall_forall. intros d Hd%elem_of_elements.
      apply Hrec. unfold new_domains in Hd. set_solver. }
    split; [|split; [|done]].
    + unfold disk_records in *. simpl.
      rewrite stripped_lines_app_closed, stripped_lines_lines_text by done.
      rewrite list_to_set_app_L, Hdisk. f_equal.
      apply set_eq. intros d. by rewrite elem_of_list_to_set, elem_of_elements.
    + simpl. apply ends_with_break_app; [done|apply ends_with_break_lines_text].
Qed.

(** The file on disk reflects the saved set. In a run started on a file
    that is absent, empty or ends in a line break and is read at start-up,
    whose records have no line break inside and whose writes do not stop
    half-way, the records a reading finds in the output file are at every
    point the saved set, and the file still ends in a line break: a restart
    at that point starts from the very set the run had saved. *)
Theorem output_file_reflects_saved_domains
    (file : option string) (actions : list action) :
  ends_with_break (default "" file) = true →
  Forall tidy actions →
  let st := run file ReadOk actions in
  disk_records (output_file st) = saved_domains st
  ∧ ends_with_break (default "" (output_file st)) = true
  ∧ saved_domains (initialize_saved_domains ReadOk
                     (fresh_results (output_file st)))
    = saved_domains st.
Proof.
  intros Hend Htidy st.
  assert (disk_records (output_file st) = saved_domains st
          ∧ ends_with_break (default "" (output_file st)) = true
          ∧ (∀ d, d ∈ current_domains st → clean d ∧ no_line_break d = true))
    as (Hdisk & Hend' & _).
  { unfold st, run.
    assert (disk_records (output_file
                            (initialize_saved_domains ReadOk (fresh_results file)))
            = saved_domains (initialize_saved_domains ReadOk (fresh_results file))
            ∧ ends_with_break
                (default "" (output_file
                               (initialize_saved_domains ReadOk (fresh_results file))))
              = true
            ∧ (∀ d, d ∈ current_domains
                          (initialize_saved_domains ReadOk (fresh_results file)) →
                    clean d ∧ no_line_break d = true)) as Hinit.
    { rewrite disk_records_initialize.
      destruct file as [text|]; simpl; (split; [done|]); (split; [done|]);
        intros d Hd; by apply not_elem_of_empty in Hd. }
    revert Hinit. generalize (initialize_saved_domains ReadOk (fresh_results file)).
    induction Htidy as [|a actions Ha _ IH]; intros s Hs; [done|].
    simpl. apply IH. by apply perform_tidy_reflects. }
  split; [done|]. split; [done|].
  by rewrite disk_records_initialize.
Qed.

Lemma output_file_reflects_saved_domains_witness :
  let actions :=
    [Absorb (page_response "serverResponse" [JObj [("hostname", JStr "b.org")]] JNull);
     Flush OpenError; Flush WriteOk] in
  let st := run (Some ("a.com" +:+ newline)) ReadOk actions in
  disk_records (output_file st) = saved_domains st.
Proof.
  intros actions st.
  apply (output_file_reflects_saved_domains (Some ("a.com" +:+ newline)) actions).
  - reflexivity.
  - repeat constructor.
    + intros domains [= <-]. repeat constructor.
    + discriminate.
    + discriminate.
Defined.

(** ** More on the distribution: layout, balance, count and bad counts *)

Lemma slots_below_S W k s :
  (k < W)%nat →
  slots_below W k (S s)
  = (slots_below W k s + if decide (s `mod` W = k) then 1 else 0)%nat.
Proof.
  intros Hk. unfold slots_below.
  pose proof (Nat.div_mod_eq s W) as Hs.
  assert (s `mod` W < W)%nat as Hr by (apply Nat.mod_upper_bound; lia).
  set (q := (s `div` W)%nat) in *. set (r := (s `mod` W)%nat) in *.
  destruct (decide (r = k)) as [Heq|Hne].
  - rewrite <- (Nat.div_unique (S s + W - 1 - k) W (q + 1) 0) by lia.
    rewrite <- (Nat.div_unique (s + W - 1 - k) W q (W - 1)) by lia. lia.
  - destruct (decide (r < k)%nat).
    + rewrite <- (Nat.div_unique (S s + W - 1 - k) W q (r + W - k)) by lia.
      rewrite <- (Nat.div_unique (s + W - 1 - k) W q (r + W - 1 - k)) by lia. lia.
    + rewrite <- (Nat.div_unique (S s + W - 1 - k) W (q + 1) (r - k)) by lia.
      rewrite <- (Nat.div_unique (s + W - 1 - k) W (q + 1) (r - k - 1)) by lia. lia.
Qed.

Lemma slots_below_mono W k s p :
  (k < W)%nat → (slots_below W k s ≤ slots_below W k (s + p))%nat.
Proof.
  intros Hk. induction p as [|p IH]; [by rewrite Nat.add_0_r|].
  rewrite Nat.add_succ_r, slots_below_S by done. lia.
Qed.

Lemma slots_below_0 W k : (k < W)%nat → slots_below W k 0 = 0%nat.
Proof. intros Hk. unfold slots_below. apply Nat.div_small. lia. Qed.

Lemma slots_below_own W i :
  (0 < W)%nat → slots_below W (i `mod` W) i = (i `div` W)%nat.
Proof.
  intros HW. unfold slots_below.
  pose proof (Nat.div_mod_eq i W) as Hi.
  assert (i `mod` W < W)%nat as Hr by (apply Nat.mod_upper_bound; lia).
  symmetry. apply (Nat.div_unique _ W _ (W - 1)); lia.
Qed.

Lemma slice_from_length {A} W k (items : list A) : ∀ s,
  (k < W)%nat →
  (length (slice_from W k s items) + slots_below W k s)%nat
  = slots_below W k (s + length items).
Proof.
  induction items as [|x rest IH]; intros s Hk; simpl.
  - by rewrite Nat.add_0_r.
  - rewrite Nat.add_succ_r, <- Nat.add_succ_l, <- (IH (S s) Hk).
    rewrite slots_below_S by done. case_decide; simpl; lia.
Qed.

Lemma slice_from_lookup {A} W (items : list A) : ∀ s p x,
  (0 < W)%nat →
  items !! p = Some x →
  slice_from W ((s + p) `mod` W) s items
    !! (slots_below W ((s + p) `mod` W) (s + p)
        - slots_below W ((s + p) `mod` W) s)%nat = Some x.
Proof.
  induction items as [|y rest IH]; intros s p x HW Hp; [done|].
  assert ((s + p) `mod` W < W)%nat as Hk by (apply Nat.mod_upper_bound; lia).
  destruct p as [|p]; simpl in *.
  - injection Hp as ->. rewrite Nat.add_0_r in *.
    rewrite decide_True by done. by rewrite Nat.sub_diag.
  - specialize (IH (S s) p x HW Hp).
    replace (S s + p)%nat with (s + S p)%nat in IH by lia.
    pose proof (slots_below_S W ((s + S p) `mod` W) s Hk) as Hstep.
    pose proof (slots_below_mono W ((s + S p) `mod` W) (S s) p Hk) as Hmono.
    replace (S s + p)%nat with (s + S p)%nat in Hmono by lia.
    case_decide as Hd.
    + replace (slots_below W ((s + S p) `mod` W) (s + S p)
               - slots_below W ((s + S p) `mod` W) s)%nat
        with (S (slots_below W ((s + S p) `mod` W) (s + S p)
                 - slots_below W ((s + S p) `mod` W) (S s)))%nat by lia.
      exact IH.
    + replace (slots_below W ((s + S p) `mod` W) s)
        with (slots_below W ((s + S p) `mod` W) (S s)) by lia.
      exact IH.
Qed.

Lemma distribute_round_robin resources search_terms (W : nat) :
  resources ≠ [] → (0 < W)%nat →
  distribute_resources_to_workers resources search_terms (Z.of_nat W)
  = Ok (round_robin W (make_work_items resources search_terms)).
Proof.
  intros Hres HW.
  set (items := make_work_items resources search_terms).
  destruct (assign_items_spec W items HW 0 (replicate W [])) as
    (out & Hout & Hlen & Hslices & _).
  { apply length_replicate. }
  assert (out = round_robin W items) as <-.
  { apply list_eq. intros k. unfold round_robin.
    rewrite list_lookup_fmap.
    destruct (decide (k < W)%nat) as [Hk|Hk].
    - rewrite (Hslices k []) by (by apply lookup_replicate_2).
      by rewrite lookup_seq_lt.
    - rewrite lookup_ge_None_2 by lia.
      by rewrite lookup_seq_ge by lia. }
  unfold distribute_resources_to_workers.
  destruct resources as [|r rs]; [done|].
  fold items. rewrite enumerate_unfold, Nat2Z.id. exact Hout.
Qed.

Lemma round_robin_lookup {A} W (items : list A) k :
  (k < W)%nat → round_robin W items !! k = Some (slice_from W k 0 items).
Proof.
  intros Hk. unfold round_robin. rewrite list_lookup_fmap.
  by rewrite lookup_seq_lt.
Qed.

(** The layout of the slices. With resources and a worker count [W] of
    at least one, the task at index [i] of the task list is the task at
    position [i / W] of slice [i mod W]. *)
Theorem distribute_resources_to_workers_layout
    (resources search_terms : list string) (worker_count : Z)
    (i : nat) (item : work_item) :
  resources ≠ [] → (1 ≤ worker_count)%Z →
  make_work_items resources search_terms !! i = Some item →
  ∃ slices slice,
    distribute_resources_to_workers resources search_terms worker_count = Ok slices
    ∧ slices !! (i `mod` Z.to_nat worker_count)%nat = Some slice
    ∧ slice !! (i `div` Z.to_nat worker_count)%nat = Some item.
Proof.
  intros Hres HW Hi. set (W := Z.to_nat worker_count).
  assert (0 < W)%nat as HW' by (unfold W; lia).
  assert (i `mod` W < W)%nat as Hk by (apply Nat.mod_upper_bound; lia).
  exists (round_robin W (make_work_items resources search_terms)),
         (slice_from W (i `mod` W) 0 (make_work_items resources search_terms)).
  split; [|split].
  - replace worker_count with (Z.of_nat W) by (unfold W; lia).
    by apply distribute_round_robin.
  - by apply round_robin_lookup.
  - pose proof (slice_from_lookup W _ 0 i item HW' Hi) as H.
    simpl in H. by rewrite slots_below_own, slots_below_0, Nat.sub_0_r in H.
Qed.

Lemma distribute_resources_to_workers_layout_witness :
  ∃ slices slice,
    distribute_resources_to_workers ["a"; "b"; "c"; "d"; "e"] [] 2 = Ok slices
    ∧ slices !! (3 `mod` Z.to_nat 2)%nat = Some slice
    ∧ slice !! (3 `div` Z.to_nat 2)%nat = Some ("d", None).
Proof.
  apply (distribute_resources_to_workers_layout
           ["a"; "b"; "c"; "d"; "e"] [] 2 3 ("d", None));
    [discriminate | lia | reflexivity].
Defined.

(** The slices are balanced. With [n] tasks, slice [k] holds
    [(n + W - 1 - k) / W] of them: as many as there are indices below [n]
    that are [k] modulo [W]; so every slice has [n / W] tasks or one more,
    and an earlier slice never has fewer than a later one. *)
Theorem distribute_resources_to_workers_balanced
    (resources search_terms : list string) (worker_count : Z) :
  resources ≠ [] → (1 ≤ worker_count)%Z →
  let n := length (make_work_items resources search_terms) in
  let W := Z.to_nat worker_count in
  ∃ slices,
    distribute_resources_to_workers resources search_terms worker_count = Ok slices
    ∧ (∀ k slice, slices !! k = Some slice →
         length slice = ((n + W - 1 - k) `div` W)%nat
         ∧ (n `div` W ≤ length slice ≤ n `div` W + 1)%nat)
    ∧ (∀ k1 k2 slice1 slice2,
         (k1 ≤ k2)%nat → slices !! k1 = Some slice1 → slices !! k2 = Some slice2 →
         (length slice2 ≤ length slice1)%nat).
Proof.
  intros Hres HW n W.
  assert (0 < W)%nat as HW' by (unfold W; lia).
  exists (round_robin W (make_work_items resources search_terms)).
  split.
  { replace worker_count with (Z.of_nat W) by (unfold W; lia).
    by apply distribute_round_robin. }
  assert (∀ k slice,
            round_robin W (make_work_items resources search_terms) !! k
            = Some slice →
            (k < W)%nat ∧ length slice = ((n + W - 1 - k) `div` W)%nat) as Hlen.
  { intros k slice Hk.
    assert (k < W)%nat as Hlt.
    { apply lookup_lt_Some in Hk. unfold round_robin in Hk.
      by rewrite length_map, length_seq in Hk. }
    split; [done|]. rewrite round_robin_lookup in Hk by done.
    injection Hk as <-.
    pose proof (slice_from_length W k (make_work_items resources search_terms)
                  0 Hlt) as H.
    rewrite slots_below_0 in H by done. simpl in H. fold n in H.
    unfold slots_below in H. lia. }
  split.
  - intros k slice Hk. destruct (Hlen k slice Hk) as [Hlt ->].
    split; [done|]. split.
    + apply Nat.Div0.div_le_mono; lia.
    + replace (n `div` W + 1)%nat with ((n + 1 * W) `div` W)%nat
        by (rewrite Nat.div_add by lia; lia).
      apply Nat.Div0.div_le_mono; lia.
  - intros k1 k2 slice1 slice2 Hle H1 H2.
    destruct (Hlen k1 slice1 H1) as [_ ->].
    destruct (Hlen k2 slice2 H2) as [_ ->].
    apply Nat.Div0.div_le_mono; lia.
Qed.

Lemma distribute_resources_to_workers_balanced_witness :
  ∃ slices,
    distribute_resources_to_workers ["a"; "b"; "c"] ["x"; "y"] 4 = Ok slices
    ∧ (∀ k slice, slices !! k = Some slice →
         length slice = ((6 + 4 - 1 - k) `div` 4)%nat
         ∧ (6 `div` 4 ≤ length slice ≤ 6 `div` 4 + 1)%nat)
    ∧ (∀ k1 k2 slice1 slice2,
         (k1 ≤ k2)%nat → slices !! k1 = Some slice1 → slices !! k2 = Some slice2 →
         (length slice2 ≤ length slice1)%nat).
Proof.
  apply (distribute_resources_to_workers_balanced ["a"; "b"; "c"] ["x"; "y"] 4);
    [discriminate | lia].
Defined.

Lemma distribute_raises resources search_terms worker_count :
  resources ≠ [] → (worker_count ≤ 0)%Z →
  distribute_resources_to_workers resources search_terms worker_count
  = Raise (if (worker_count =? 0)%Z then ZeroDivisionError else IndexError).
Proof.
  intros Hres HW. unfold distribute_resources_to_workers.
  destruct resources as [|r rs]; [done|].
  pose proof (make_work_items_nonempty (r :: rs) search_terms Hres) as Hitems.
  destruct (make_work_items (r :: rs) search_terms) as [|x items]; [done|].
  rewrite enumerate_unfold. simpl. unfold assign_item. simpl.
  destruct (worker_count =? 0)%Z eqn:E0; [done|].
  apply Z.eqb_neq in E0.
  replace (Z.to_nat worker_count) with 0%nat by lia. simpl.
  done.
Qed.

(** A worker count that is not positive, with resources to distribute,
    makes the distribution raise on the first task: a division by zero for
    the count 0, an index out of range for a negative count (the list of
    slices is then empty). *)
Theorem distribute_resources_to_workers_bad_count
    (resources search_terms : list string) (worker_count : Z) :
  resources ≠ [] → (worker_count ≤ 0)%Z →
  distribute_resources_to_workers resources search_terms worker_count
  = Raise (if (worker_count =? 0)%Z then ZeroDivisionError else IndexError)
  ∧ ∀ slices,
      distribute_resources_to_workers resources search_terms worker_count
      ≠ Ok slices.
Proof.
  intros Hres HW. rewrite (distribute_raises _ _ _ Hres HW). done.
Qed.

Lemma distribute_resources_to_workers_bad_count_witness :
  distribute_resources_to_workers ["example.com"] ["admin"] (-3) = Raise IndexError.
Proof.
  apply (distribute_resources_to_workers_bad_count ["example.com"] ["admin"] (-3));
    [discriminate | lia].
Defined.

Lemma length_flat_map_const {A B} (f : A → list B) (n : nat) (l : list A) :
  (∀ x, length (f x) = n) → length (flat_map f l) = (length l * n)%nat.
Proof.
  intros Hf. induction l as [|x l IH]; [done|].
  simpl. by rewrite length_app, Hf, IH.
Qed.

Lemma elem_of_flat_map {A B} (f : A → list B) (l : list A) (y : B) :
  y ∈ flat_map f l ↔ ∃ x, x ∈ l ∧ y ∈ f x.
Proof.
  induction l as [|x l IH]; simpl.
  - split; [by intros ?%elem_of_nil|]. by intros (? & ?%elem_of_nil & _).
  - rewrite elem_of_app, IH. split.
    + intros [H|(x' & Hx' & H)].
      * exists x. split; [apply list_elem_of_here|done].
      * exists x'. split; [by apply list_elem_of_further|done].
    + intros (x' & [->|Hx']%elem_of_cons & H); [by left|].
      right. by exists x'.
Qed.

Lemma make_work_items_length resources search_terms :
  length (make_work_items resources search_terms)
  = (length resources * match search_terms with
                        | [] => 1
                        | _ => length search_terms
                        end)%nat.
Proof.
  unfold make_work_items. destruct search_terms as [|t ts].
  - rewrite length_map. lia.
  - apply length_flat_map_const. intros r. apply length_map.
Qed.

(** The tasks are the resources when there is no search term, and else
    every pair of a resource and a search term, so their number is the
    product of the two; and whenever the distribution returns, its slices
    hold that many tasks in all. *)
Theorem distribute_resources_to_workers_task_count
    (resources search_terms : list string) :
  let items := make_work_items resources search_terms in
  length items
  = (length resources * match search_terms with
                        | [] => 1
                        | _ => length search_terms
                        end)%nat
  ∧ (∀ r t, (r, Some t) ∈ items ↔ r ∈ resources ∧ t ∈ search_terms)
  ∧ (∀ r, (r, None) ∈ items ↔ r ∈ resources ∧ search_terms = [])
  ∧ (∀ worker_count slices,
       distribute_resources_to_workers resources search_terms worker_count
       = Ok slices →
       length (concat slices) = length items).
Proof.
  intros items. split; [apply make_work_items_length|]. split; [|split].
  - intros r t. unfold items, make_work_items.
    destruct search_terms as [|t0 ts].
    + rewrite list_elem_of_fmap. split.
      * intros (? & [=] & _).
      * intros [_ Ht]. by apply elem_of_nil in Ht.
    + cbv beta iota. rewrite elem_of_flat_map. split.
      * intros (r' & Hr' & Hin).
        apply list_elem_of_fmap in Hin as (t' & [= -> ->] & Ht'). done.
      * intros [Hr Ht]. exists r. split; [done|].
        apply list_elem_of_fmap. by exists t.
  - intros r. unfold items, make_work_items.
    destruct search_terms as [|t0 ts].
    + rewrite list_elem_of_fmap. split.
      * intros (r' & [= ->] & Hr'). done.
      * intros [Hr _]. by exists r.
    + cbv beta iota. rewrite elem_of_flat_map. split.
      * intros (r' & _ & Hin).
        apply list_elem_of_fmap in Hin as (t' & [=] & _).
      * intros [_ [=]].
  - intros worker_count slices Hrun.
    destruct resources as [|r rs].
    { injection Hrun as <-. unfold items, make_work_items.
      by destruct search_terms. }
    destruct (decide (worker_count ≤ 0)%Z) as [Hbad|Hgood].
    { by rewrite distribute_raises in Hrun. }
    set (W := Z.to_nat worker_count).
    assert (0 < W)%nat as HW by (unfold W; lia).
    destruct (assign_items_spec W items HW 0 (replicate W [])) as
      (out & Hout & _ & _ & Hperm).
    { apply length_replicate. }
    unfold distribute_resources_to_workers in Hrun. fold items in Hrun.
    rewrite enumerate_unfold in Hrun.
    replace worker_count with (Z.of_nat W) in Hrun by (unfold W; lia).
    rewrite Nat2Z.id, Hout in Hrun. injection Hrun as <-.
    by rewrite Hperm, concat_replicate_nil.
Qed.

(** ** More on record extraction: order, bad records, missing branches *)

Lemma record_hostname_string record h :
  has_hostname record h →
  record_hostname record
  = Ok (if decide (strip h = "") then None else Some (strip h)).
Proof.
  intros (fields & -> & Hh). unfold record_hostname. simpl. rewrite Hh. simpl.
  destruct (decide (strip h = "")) as [Hs|Hs].
  - rewrite Hs. simpl. by destruct (negb (String.eqb h "")).
  - apply String.eqb_neq in Hs as Hs'. rewrite Hs'.
    destruct (String.eqb h "") eqn:Eh; [|done].
    apply String.eqb_eq in Eh. subst h. done.
Qed.

Lemma append_hostnames_strings records hostnames : ∀ acc,
  Forall2 has_hostname records hostnames →
  append_hostnames records acc
  = Ok (acc ++ filter (λ d, d ≠ "") (strip <$> hostnames)).
Proof.
  intros acc H. revert acc.
  induction H as [|r h records hostnames Hr _ IH]; intros acc; simpl.
  - by rewrite app_nil_r.
  - rewrite (record_hostname_string r h Hr). simpl. rewrite IH.
    destruct (decide (strip h = "")) as [Hs|Hs].
    + by rewrite filter_cons_False by (intros Hn; by apply Hn).
    + rewrite filter_cons_True by done. by rewrite <- app_assoc.
Qed.

(** For a response whose records each carry a hostname string, the
    extraction returns the stripped hostnames that are not blank, in the
    order of the records and with their repetitions: nothing is sorted or
    deduplicated at this point, and there are at most as many hostnames as
    records. *)
Theorem extract_domains_from_data_in_order
    (name : string) (records : list json) (hostnames : list string) (meta : json) :
  name = "apexDomainData" ∨ name = "serverResponse" →
  Forall2 has_hostname records hostnames →
  extract_domains_from_data (page_response name records meta)
  = Ok (filter (λ d, d ≠ "") (strip <$> hostnames))
  ∧ (length (filter (λ d, d ≠ "") (strip <$> hostnames)) ≤ length records)%nat.
Proof.
  intros Hname Hrec. split.
  - rewrite extract_page_response by done.
    by rewrite (append_hostnames_strings records hostnames []).
  - rewrite (Forall2_length _ _ _ Hrec), <- (length_fmap strip hostnames).
    apply length_filter.
Qed.

Lemma extract_domains_from_data_in_order_witness :
  extract_domains_from_data
    (page_response "serverResponse"
       [JObj [("hostname", JStr "b.org ")]; JObj [("hostname", JStr "a.com")];
        JObj [("hostname", JStr " ")]; JObj [("hostname", JStr "b.org")]] JNull)
  = Ok (filter (λ d, d ≠ "") (strip <$> ["b.org "; "a.com"; " "; "b.org"])).
Proof.
  apply (extract_domains_from_data_in_order "serverResponse" _
           ["b.org "; "a.com"; " "; "b.org"] JNull).
  - by right.
  - repeat constructor; eexists; (split; [reflexivity|reflexivity]).
Defined.

Lemma record_hostname_bad record :
  bad_record record = true ↔ record_hostname record = Raise AttributeError.
Proof.
  unfold record_hostname.
  destruct record as [| | | | |fields]; simpl; try done.
  destruct (assoc "hostname" fields) as [[|b|n|s|items|fs]|]; simpl.
  - done.
  - destruct b; done.
  - destruct (n =? 0)%Z; done.
  - destruct (negb (String.eqb s "")); [|done].
    destruct (String.eqb (strip s) ""); done.
  - destruct items; done.
  - destruct fs; done.
  - done.
Qed.

Lemma record_hostname_raises record e :
  record_hostname record = Raise e → e = AttributeError.
Proof.
  unfold record_hostname.
  destruct record as [| | | | |fields]; simpl; try (by intros [= <-]).
  destruct (assoc "hostname" fields) as [[|b|n|s|items|fs]|]; simpl;
    try done.
  - destruct b; [by intros [= <-]|done].
  - destruct (n =? 0)%Z; [done|by intros [= <-]].
  - destruct (negb (String.eqb s "")); [|done].
    destruct (String.eqb (strip s) ""); done.
  - destruct items; [done|by intros [= <-]].
  - destruct fs; [done|by intros [= <-]].
Qed.

Lemma append_hostnames_bad records : ∀ acc,
  Exists (λ r, bad_record r = true) records →
  append_hostnames records acc = Raise AttributeError.
Proof.
  induction records as [|r records IH]; intros acc Hex.
  { by apply Exists_nil in Hex. }
  simpl. destruct (record_hostname r) as [h|e] eqn:Er.
  - simpl. apply IH. apply Exists_cons in Hex as [Hbad|Hex]; [|done].
    apply record_hostname_bad in Hbad. congruence.
  - simpl. by rewrite (record_hostname_raises r e Er).
Qed.

(** One bad record loses the page. When a record of the response is not
    a dict, or has a hostname that is a number, [true], a list or a dict
    with something in it, the extraction raises [AttributeError] and
    returns none of the hostnames of the other records; the thread that
    asked for the page absorbs nothing. *)
Theorem extract_domains_from_data_bad_record
    (name : string) (records : list json) (meta : json) (st : results) :
  name = "apexDomainData" ∨ name = "serverResponse" →
  Exists (λ r, bad_record r = true) records →
  extract_domains_from_data (page_response name records meta)
  = Raise AttributeError
  ∧ perform st (Absorb (page_response name records meta)) = st.
Proof.
  intros Hname Hbad.
  assert (extract_domains_from_data (page_response name records meta)
          = Raise AttributeError) as H.
  { rewrite extract_page_response by done. by apply append_hostnames_bad. }
  split; [done|]. simpl. by rewrite H.
Qed.

Lemma extract_domains_from_data_bad_record_witness :
  extract_domains_from_data
    (page_response "apexDomainData"
       [JObj [("hostname", JStr "a.com")]; JObj [("hostname", JNum 7)]] JNull)
  = Raise AttributeError.
Proof.
  apply (extract_domains_from_data_bad_record "apexDomainData"
           [JObj [("hostname", JStr "a.com")]; JObj [("hostname", JNum 7)]]
           JNull (fresh_results None)).
  - by left.
  - apply Exists_cons_tl, Exists_cons_hd. reflexivity.
Defined.

(** What the extraction does where a part of the response is missing:
    nothing to read gives the empty list, an apexDomainData without a
    [data] key hands over to serverResponse, and a [pageProps] that is
    [null] raises. *)
Theorem extract_domains_from_data_missing_parts :
  (∀ data, truthy data = false → extract_domains_from_data data = Ok [])
  ∧ (∀ top, assoc "pageProps" top = None →
            extract_domains_from_data (JObj top) = Ok [])
  ∧ (∀ top pp,
       assoc "pageProps" top = Some (JObj pp) →
       assoc "apexDomainData" pp = None → assoc "serverResponse" pp = None →
       extract_domains_from_data (JObj top) = Ok [])
  ∧ (∀ top pp apex server bdata,
       assoc "pageProps" top = Some (JObj pp) →
       assoc "apexDomainData" pp = Some (JObj apex) → assoc "data" apex = None →
       assoc "serverResponse" pp = Some (JObj server) →
       assoc "data" server = Some bdata →
       extract_domains_from_data (JObj top) = extract_branch bdata)
  ∧ (∀ name bdata,
       name = "apexDomainData" ∨ name = "serverResponse" →
       assoc "records" bdata = None →
       extract_domains_from_data
         (JObj [("pageProps", JObj [(name, JObj [("data", JObj bdata)])])])
       = Ok [])
  ∧ (∀ top, assoc "pageProps" top = Some JNull →
            extract_domains_from_data (JObj top) = Raise TypeError).
Proof.
  split; [|split; [|split; [|split; [|split]]]].
  - intros data H. unfold extract_domains_from_data. by rewrite H.
  - intros top H. unfold extract_domains_from_data.
    destruct (truthy (JObj top)); [|done]. simpl. by rewrite H.
  - intros top pp Htop Hapex Hserver. unfold extract_domains_from_data.
    rewrite (assoc_Some_truthy _ _ _ Htop). simpl. rewrite Htop. simpl.
    unfold has_branch_data. simpl. by rewrite Hapex, Hserver.
  - intros top pp apex server bdata Htop Hapex Hdata Hserver Hsdata.
    unfold extract_domains_from_data.
    rewrite (assoc_Some_truthy _ _ _ Htop). simpl. rewrite Htop. simpl.
    unfold has_branch_data, branch_data. simpl.
    rewrite Hapex. simpl. rewrite Hdata. simpl.
    rewrite Hserver. simpl. by rewrite Hsdata.
  - intros name bdata [-> | ->] Hrec; unfold extract_domains_from_data; simpl;
      unfold extract_branch; simpl; by rewrite Hrec.
  - intros top Htop. unfold extract_domains_from_data.
    rewrite (assoc_Some_truthy _ _ _ Htop). simpl. by rewrite Htop.
Qed.

Lemma extract_domains_from_data_missing_parts_witness :
  extract_domains_from_data
    (JObj [("pageProps",
            JObj [("apexDomainData", JObj [("status", JNum 404)]);
                  ("serverResponse",
                   JObj [("data",
                          JObj [("records",
                                 JArr [JObj [("hostname", JStr "a.com")]])])])])])
  = extract_branch (JObj [("records", JArr [JObj [("hostname", JStr "a.com")]])]).
Proof.
  apply (proj1 (proj2 (proj2 (proj2 extract_domains_from_data_missing_parts)))
           _ [("apexDomainData", JObj [("status", JNum 404)]);
              ("serverResponse",
               JObj [("data",
                      JObj [("records",
                             JArr [JObj [("hostname", JStr "a.com")]])])])]
           [("status", JNum 404)]
           [("data", JObj [("records", JArr [JObj [("hostname", JStr "a.com")]])])]);
    reflexivity.
Defined.

(** ** More on the page count *)

Lemma branch_total_pages_found name pp branch bdata meta total_pages :
  assoc name pp = Some (JObj branch) →
  assoc "data" branch = Some (JObj bdata) →
  assoc "meta" bdata = Some (JObj meta) →
  assoc "total_pages" meta = Some total_pages →
  branch_total_pages name (JObj pp) = Ok (Some total_pages).
Proof.
  intros Hb Hd Hm Ht. unfold branch_total_pages, has_branch_data, branch_data.
  simpl. rewrite Hb. simpl. rewrite Hd. simpl. rewrite Hm. simpl.
  rewrite Ht. simpl. unfold flag_set. simpl.
  by destruct (assoc "limit_reached" meta).
Qed.

Lemma branch_total_pages_no_meta name pp branch bdata :
  assoc name pp = Some (JObj branch) →
  assoc "data" branch = Some (JObj bdata) →
  assoc "meta" bdata = None →
  branch_total_pages name (JObj pp) = Ok None.
Proof.
  intros Hb Hd Hm. unfold branch_total_pages, has_branch_data, branch_data.
  simpl. rewrite Hb. simpl. rewrite Hd. simpl. by rewrite Hm.
Qed.

Lemma get_total_pages_page_props top pp :
  assoc "pageProps" top = Some (JObj pp) →
  get_total_pages_from_data (JObj top) =
    (apex ← branch_total_pages "apexDomainData" (JObj pp);
     match apex with
     | Some total_pages => Ok total_pages
     | None =>
         server ← branch_total_pages "serverResponse" (JObj pp);
         match server with
         | Some total_pages => Ok total_pages
         | None => Ok (JNum default_total_pages)
         end
     end).
Proof.
  intros Htop. unfold get_total_pages_from_data, lacks_page_props.
  rewrite (assoc_Some_truthy _ _ _ Htop). simpl. by rewrite Htop.
Qed.

(** Where the page count is read. A count in the meta data of
    apexDomainData is returned whatever serverResponse says. When
    apexDomainData has data but no meta data, the count of serverResponse
    is used, while the records are still read from apexDomainData: count
    and records then come from different branches. Without [pageProps] the
    count is the default 100. *)
Theorem get_total_pages_from_data_branches :
  (∀ top pp branch bdata meta total_pages,
     assoc "pageProps" top = Some (JObj pp) →
     assoc "apexDomainData" pp = Some (JObj branch) →
     assoc "data" branch = Some (JObj bdata) →
     assoc "meta" bdata = Some (JObj meta) →
     assoc "total_pages" meta = Some total_pages →
     get_total_pages_from_data (JObj top) = Ok total_pages)
  ∧ (∀ top pp apex adata server sdata meta total_pages,
       assoc "pageProps" top = Some (JObj pp) →
       assoc "apexDomainData" pp = Some (JObj apex) →
       assoc "data" apex = Some (JObj adata) →
       assoc "meta" adata = None →
       assoc "serverResponse" pp = Some (JObj server) →
       assoc "data" server = Some (JObj sdata) →
       assoc "meta" sdata = Some (JObj meta) →
       assoc "total_pages" meta = Some total_pages →
       get_total_pages_from_data (JObj top) = Ok total_pages
       ∧ extract_domains_from_data (JObj top) = extract_branch (JObj adata))
  ∧ (∀ data, truthy data = false →
             get_total_pages_from_data data = Ok (JNum 100))
  ∧ (∀ top, assoc "pageProps" top = None →
            get_total_pages_from_data (JObj top) = Ok (JNum 100)).
Proof.
  split; [|split; [|split]].
  - intros top pp branch bdata meta total_pages Htop Hb Hd Hm Ht.
    rewrite (get_total_pages_page_props _ _ Htop).
    by rewrite (branch_total_pages_found _ _ _ _ _ _ Hb Hd Hm Ht).
  - intros top pp apex adata server sdata meta total_pages
      Htop Ha Had Ham Hs Hsd Hsm Ht. split.
    + rewrite (get_total_pages_page_props _ _ Htop).
      rewrite (branch_total_pages_no_meta _ _ _ _ Ha Had Ham). simpl.
      by rewrite (branch_total_pages_found _ _ _ _ _ _ Hs Hsd Hsm Ht).
    + rewrite (extract_apex_path top pp (JObj apex) Htop Ha).
      * simpl. by rewrite Had.
      * by apply py_in_obj_Some with (JObj adata).
  - intros data H. unfold get_total_pages_from_data, lacks_page_props.
    by rewrite H.
  - intros top H. unfold get_total_pages_from_data, lacks_page_props.
    destruct (truthy (JObj top)); [|done]. simpl. by rewrite H.
Qed.

Lemma get_total_pages_from_data_branches_witness :
  let top :=
    [("pageProps",
      JObj [("apexDomainData",
             JObj [("data", JObj [("records", JArr [JObj [("hostname", JStr "a.com")]])])]);
            ("serverResponse",
             JObj [("data", JObj [("meta", JObj [("total_pages", JNum 7)])])])])] in
  get_total_pages_from_data (JObj top) = Ok (JNum 7)
  ∧ extract_domains_from_data (JObj top)
    = extract_branch (JObj [("records", JArr [JObj [("hostname", JStr "a.com")]])]).
Proof.
  intros top.
  eapply (proj1 (proj2 get_total_pages_from_data_branches)); reflexivity.
Defined.

(** ** More on the legitimacy of the ceiling *)

(** When the ceiling is accepted. For a response with one branch, a list
    of records and a dict of meta data, the ceiling is legitimate exactly
    when [limit_reached] is there with a true value or there is at least one
    record: a record is enough, whatever [limit_reached] says. Without
    meta data the records do not count, and the ceiling is not legitimate. *)
Theorem is_legitimate_100_pages_when
    (name : string) (records : list json) (meta : list (string * json)) :
  name = "apexDomainData" ∨ name = "serverResponse" →
  is_legitimate_100_pages (page_response name records (JObj meta))
  = Ok (truthy (default JNull (assoc "limit_reached" meta))
        || bool_decide (records ≠ []))
  ∧ is_legitimate_100_pages
      (JObj [("pageProps",
              JObj [(name, JObj [("data", JObj [("records", JArr records)])])])])
    = Ok false.
Proof.
  intros [-> | ->]; (split; [|reflexivity]);
    unfold is_legitimate_100_pages, page_response; simpl;
    unfold branch_legitimate, has_branch_data, branch_data, flag_set, has_some;
    simpl.
  - destruct (assoc "limit_reached" meta) as [v|]; simpl.
    + destruct (truthy v); simpl; [done|]. by destruct records.
    + by destruct records.
  - destruct (assoc "limit_reached" meta) as [v|]; simpl.
    + destruct (truthy v); simpl; [done|]. by destruct records.
    + by destruct records.
Qed.

Lemma is_legitimate_100_pages_when_witness :
  is_legitimate_100_pages
    (page_response "serverResponse" [JObj [("hostname", JStr "a.com")]]
       (JObj [("total_pages", JNum 100); ("limit_reached", JBool false)]))
  = Ok (truthy (default JNull
                  (assoc "limit_reached"
                     [("total_pages", JNum 100); ("limit_reached", JBool false)]))
        || bool_decide ([JObj [("hostname", JStr "a.com")]] ≠ [])).
Proof.
  apply (is_legitimate_100_pages_when "serverResponse"
           [JObj [("hostname", JStr "a.com")]]
           [("total_pages", JNum 100); ("limit_reached", JBool false)]).
  by right.
Defined.

(** ** More on the expiry markers *)

Lemma py_eq_int_401 status : py_eq_int status 401 = true → status = JNum 401.
Proof.
  destruct status as [|b|n| | |]; simpl; try done.
  - by destruct b.
  - by intros ->%Z.eqb_eq.
Qed.

Lemma branch_expired_true name page_props :
  branch_expired name page_props = Ok true →
  ∃ pp d, page_props = JObj pp ∧ assoc name pp = Some (JObj d)
          ∧ (assoc "status" d = Some (JNum 401)
             ∨ assoc "error" d = Some (JStr "session_expired")).
Proof.
  unfold branch_expired. intros H. bind_inv H. destruct v; [|done].
  bind_inv H. rename v into d.
  destruct page_props as [| | | | |pp]; try done.
  simpl in E0. destruct (assoc name pp) as [d'|] eqn:Ed; [|done].
  injection E0 as ->.
  destruct d as [| | | | |df]; try done.
  exists pp, df. split; [done|]. split; [done|].
  apply has_expiry_marker_iff in H as [(status & Hs & H401)|He]; [|by right].
  left. by rewrite Hs, (py_eq_int_401 _ H401).
Qed.

(** No expiry without a marker. [is_session_expired] answers yes only
    for a dict whose [pageProps] is a dict in which apexDomainData or
    dnsData is a dict with the status 401 or the error [session_expired];
    it never answers yes for anything else a body may hold. *)
Theorem is_session_expired_only_on_marker (data : json) :
  is_session_expired data = Ok true →
  ∃ top pp name d,
    data = JObj top
    ∧ assoc "pageProps" top = Some (JObj pp)
    ∧ (name = "apexDomainData" ∨ name = "dnsData")
    ∧ assoc name pp = Some (JObj d)
    ∧ (assoc "status" d = Some (JNum 401)
       ∨ assoc "error" d = Some (JStr "session_expired")).
Proof.
  unfold is_session_expired. intros H.
  destruct (negb (truthy data)); [done|].
  bind_inv H. destruct v; [|done].
  bind_inv H. rename v into page_props.
  destruct data as [| | | | |top]; try done.
  simpl in E0. destruct (assoc "pageProps" top) as [pp'|] eqn:Etop; [|done].
  injection E0 as ->.
  bind_inv H. destruct v.
  - destruct (branch_expired_true _ _ E0) as (pp & d & -> & Hd & Hm).
    exists top, pp, "apexDomainData", d. split; [done|]. split; [done|].
    split; [by left|done].
  - bind_inv H. destruct v; [|done].
    destruct (branch_expired_true _ _ E1) as (pp & d & -> & Hd & Hm).
    exists top, pp, "dnsData", d. split; [done|]. split; [done|].
    split; [by right|done].
Qed.

Lemma is_session_expired_only_on_marker_witness :
  ∃ top pp name d,
    JObj [("pageProps", JObj [("dnsData", JObj [("status", JNum 401)])])] = JObj top
    ∧ assoc "pageProps" top = Some (JObj pp)
    ∧ (name = "apexDomainData" ∨ name = "dnsData")
    ∧ assoc name pp = Some (JObj d)
    ∧ (assoc "status" d = Some (JNum 401)
       ∨ assoc "error" d = Some (JStr "session_expired")).
Proof.
  apply (is_session_expired_only_on_marker
           (JObj [("pageProps", JObj [("dnsData", JObj [("status", JNum 401)])])])).
  reflexivity.
Defined.

(** ** More on the cookie file and the validation of a session *)

(** [load_securitytrails_cookie] reads the cookie file at most three
    times: it goes on to the next reading, after two seconds of sleep,
    only on an exception that is not about a missing file or bad JSON, and
    gives up after the third. It returns the cookie of its last reading, if
    that found one; it makes no request and leaves the session alone. *)
Theorem load_securitytrails_cookie_reads (w : world) :
  ∃ k r w',
    (1 ≤ k ≤ 3)%nat
    ∧ load_securitytrails_cookie w = (Ok r, w')
    ∧ cookie_reads w' = (cookie_reads w + k)%nat
    ∧ trace w' = trace w ++ replicate (k - 1) (EvSleep 2)
    ∧ (∀ j, (j < k - 1)%nat →
            cookie_file w (cookie_reads w + j) = CookieError)
    ∧ r = match cookie_file w (cookie_reads w + (k - 1)) with
          | CookieFound value => Some value
          | _ => None
          end
    ∧ ((k < 3)%nat → cookie_file w (cookie_reads w + (k - 1)) ≠ CookieError)
    ∧ requests_made w' = requests_made w
    ∧ current_cookies w' = current_cookies w.
Proof.
  unfold load_securitytrails_cookie. simpl.
  rewrite M_bind_unfold. unfold read_cookie_file at 1. simpl.
  destruct (cookie_file w (cookie_reads w)) as [v0| |] eqn:E0.
  { exists 1%nat. eexists _, _. split; [lia|]. split; [reflexivity|]. simpl.
    rewrite Nat.add_0_r, E0, app_nil_r. repeat split; try done; try lia.
    all: intros j Hj; lia. }
  { exists 1%nat. eexists _, _. split; [lia|]. split; [reflexivity|]. simpl.
    rewrite Nat.add_0_r, E0, app_nil_r. repeat split; try done; try lia.
    all: intros j Hj; lia. }
  rewrite M_bind_unfold. unfold sleep at 1. simpl.
  rewrite M_bind_unfold. unfold read_cookie_file at 1. simpl.
  destruct (cookie_file w (S (cookie_reads w))) as [v1| |] eqn:E1.
  { exists 2%nat. eexists _, _. split; [lia|]. split; [reflexivity|]. simpl.
    rewrite Nat.add_1_r, E1. repeat split; try done; try lia.
    all: intros j Hj; replace j with 0%nat by lia; by rewrite Nat.add_0_r. }
  { exists 2%nat. eexists _, _. split; [lia|]. split; [reflexivity|]. simpl.
    rewrite Nat.add_1_r, E1. repeat split; try done; try lia.
    all: intros j Hj; replace j with 0%nat by lia; by rewrite Nat.add_0_r. }
  rewrite M_bind_unfold. unfold sleep at 1. simpl.
  rewrite M_bind_unfold. unfold read_cookie_file at 1. simpl.
  exists 3%nat.
  destruct (cookie_file w (S (S (cookie_reads w)))) as [v2| |] eqn:E2;
    eexists _, _; (split; [lia|]); (split; [reflexivity|]); simpl;
    replace (cookie_reads w + 2)%nat with (S (S (cookie_reads w))) by lia;
    rewrite E2, <- app_assoc; repeat split; try done; try lia;
    try (intros j Hj; (destruct j as [|[|j]]; [by rewrite Nat.add_0_r
                                               |by rewrite Nat.add_1_r|lia])).
Qed.

(** A session counts as valid exactly when the validation request is
    answered with status 200 and the body shows no expiry marker; a body
    that does not parse, or on which the check raises, shows none. The
    validation makes this one request, never raises and leaves the session
    alone. *)
Theorem validate_session_when (c : cookies) (w : world) :
  ∃ valid w',
    validate_session c w = (Ok valid, w')
    ∧ trace w' = trace w ++ [EvRequest (ValidateRequest c)]
    ∧ current_cookies w' = current_cookies w
    ∧ (valid = true ↔
       ∃ body, network w (requests_made w) (ValidateRequest c) = Response 200 body
               ∧ ∀ data, body = Some data → is_session_expired data ≠ Ok true).
Proof.
  eexists _, _. split; [reflexivity|]. split; [done|]. split; [done|].
  simpl. destruct (network w (requests_made w) (ValidateRequest c))
    as [| |status body]; simpl.
  - split; [done|]. by intros (? & ? & _).
  - split; [done|]. by intros (? & ? & _).
  - destruct (status =? 401)%Z eqn:E401.
    { apply Z.eqb_eq in E401 as ->. split; [done|]. by intros (? & [=] & _). }
    destruct body as [data|].
    + destruct (is_session_expired data) as [[|]|e] eqn:Eexp.
      * split; [done|]. intros (body & [= -> <-] & H). by destruct (H data).
      * split.
        -- intros ->%Z.eqb_eq. exists (Some data). split; [done|].
           intros ? [= <-]. congruence.
        -- intros (body & [= -> <-] & _). done.
      * split.
        -- intros ->%Z.eqb_eq. exists (Some data). split; [done|].
           intros ? [= <-]. congruence.
        -- intros (body & [= -> <-] & _). done.
    + split.
      * intros ->%Z.eqb_eq. exists None. split; [done|]. done.
      * intros (body & [= -> <-] & _). done.
Qed.

(** ** More on the fetch: transport failures, answers it gives up on *)

Section fetch_more.
Variables (resource_type resource_value : string) (page : Z).
Variables (search_term : option string) (max_retries : nat).

Let fetch := fetch_attempts resource_type resource_value page search_term max_retries.
Let page_request (c : cookies) : request :=
  PageRequest resource_type resource_value page (search_param search_term) c.

Lemma fetch_attempts_transport n : ∀ start c w,
  (start + n)%nat = max_retries →
  (∀ j, network w (requests_made w + j) (page_request c) = ConnectionError) →
  ∃ w', fetch (seq start n) c w = (Ok JNull, w')
        ∧ trace w' = trace w ++ transport_trace (page_request c) n
        ∧ requests_made w' = (requests_made w + n)%nat
        ∧ same_session w w'.
Proof.
  induction n as [|n IH]; intros start c w Hmax Hnet.
  { exists w. split; [done|]. split; [by rewrite app_nil_r|]. split; [lia|done]. }
  unfold fetch. simpl. rewrite M_bind_unfold.
  fold (page_request c).
  destruct (http_get_run (page_request c) w) as (w1 & -> & E1 & S1 & R1).
  pose proof (Hnet 0%nat) as H0. rewrite Nat.add_0_r in H0. rewrite H0.
  destruct n as [|n].
  - replace (start <? max_retries - 1)%nat with false
      by (symmetry; apply Nat.ltb_ge; lia).
    exists w1. split; [done|]. split; [apply E1|]. split; [lia|done].
  - replace (start <? max_retries - 1)%nat with true
      by (symmetry; apply Nat.ltb_lt; lia).
    rewrite M_bind_unfold.
    destruct (sleep_run 2 w1) as (w2 & -> & E2 & S2 & R2).
    destruct (IH (S start) c w2) as (w' & Hrun & Htrace & Hreq & Hsess).
    { lia. }
    { intros j. destruct E1 as (N1 & _ & _), E2 as (N2 & _ & _).
      rewrite N2, N1, R2, R1.
      replace (S (requests_made w) + j)%nat with (requests_made w + S j)%nat by lia.
      apply Hnet. }
    fold fetch. rewrite Hrun. exists w'. split; [done|]. split.
    { destruct E1 as (_ & _ & T1), E2 as (_ & _ & T2).
      rewrite Htrace, T2, T1, <- !app_assoc. done. }
    split; [lia|].
    apply (same_session_trans w w2 w'); [|done].
    by apply (same_session_trans w w1 w2).
Qed.

Lemma page_requests_transport_trace rt rv p s c n :
  page_requests (transport_trace (PageRequest rt rv p s c) n)
  = replicate n (PageRequest rt rv p s c).
Proof.
  induction n as [|n IH]; [done|].
  destruct n as [|n]; [done|].
  change (transport_trace (PageRequest rt rv p s c) (S (S n)))
    with (EvRequest (PageRequest rt rv p s c) :: EvSleep 2
            :: transport_trace (PageRequest rt rv p s c) (S n)).
  unfold page_requests in *. cbn [omap list_omap]. simpl in *.
  by rewrite IH.
Qed.

End fetch_more.

(** Failures in transport stop after exactly the configured number of
    attempts. While every request ends in a connection error or a read
    timeout, the fetch of a page makes [max_retries] requests for it, all
    with the same cookies, sleeps two seconds between one and the next, and
    returns [None]; it never reloads the cookies. *)
Theorem get_securitytrails_data_transport_failures
    (resource_type resource_value : string) (page : Z)
    (search_term : option string) (max_retries : nat) (c : cookies) (w : world) :
  let req := PageRequest resource_type resource_value page
                         (search_param search_term) c in
  resource_type ∈ resource_types →
  (∀ j, network w (requests_made w + j) req = ConnectionError) →
  ∃ w',
    get_securitytrails_data resource_type resource_value page search_term
                            max_retries c w = (Ok JNull, w')
    ∧ trace w' = trace w ++ transport_trace req max_retries
    ∧ page_requests (transport_trace req max_retries) = replicate max_retries req
    ∧ requests_made w' = (requests_made w + max_retries)%nat
    ∧ current_cookies w' = current_cookies w.
Proof.
  intros req Htype Hnet. unfold get_securitytrails_data.
  rewrite bool_decide_true by done.
  destruct (fetch_attempts_transport resource_type resource_value page
              search_term max_retries max_retries 0 c w)
    as (w' & Hrun & Htrace & Hreq & Hsess); [lia|done|].
  exists w'. split; [done|]. split; [done|].
  split; [apply page_requests_transport_trace|]. split; [done|apply Hsess].
Qed.

Lemma get_securitytrails_data_transport_failures_witness :
  let w := example_world (λ _ _, ConnectionError) (λ _, CookieAbsent) in
  let req := PageRequest "reverse_ip" "192.0.2.1" 4 None "stale" in
  ∃ w',
    get_securitytrails_data "reverse_ip" "192.0.2.1" 4 None 3 "stale" w
    = (Ok JNull, w')
    ∧ trace w' = trace w ++ transport_trace req 3
    ∧ page_requests (transport_trace req 3) = replicate 3 req
    ∧ requests_made w' = (requests_made w + 3)%nat
    ∧ current_cookies w' = current_cookies w.
Proof.
  intros w req.
  apply (get_securitytrails_data_transport_failures
           "reverse_ip" "192.0.2.1" 4 None 3 "stale" w).
  - unfold resource_types. set_solver.
  - intros j. reflexivity.
Defined.

(** What is not retried. On an answer the fetch gives up on (an HTTP
    error other than 401, a body that is no JSON, another exception) it
    returns [None] after that one request, without sleep and without
    reloading the cookies; and for a resource type it does not know it
    returns [None] without any request. *)
Theorem get_securitytrails_data_gives_up
    (resource_type resource_value : string) (page : Z)
    (search_term : option string) (max_retries : nat) (c : cookies) (w : world) :
  let req := PageRequest resource_type resource_value page
                         (search_param search_term) c in
  (resource_type ∈ resource_types → (0 < max_retries)%nat →
   gives_up (network w (requests_made w) req) →
   ∃ w',
     get_securitytrails_data resource_type resource_value page search_term
                             max_retries c w = (Ok JNull, w')
     ∧ trace w' = trace w ++ [EvRequest req]
     ∧ current_cookies w' = current_cookies w
     ∧ cookie_reads w' = cookie_reads w)
  ∧ (resource_type ∉ resource_types →
     get_securitytrails_data resource_type resource_value page search_term
                             max_retries c w = (Ok JNull, w)).
Proof.
  intros req. split.
  - intros Htype Hmax Hgive. unfold get_securitytrails_data.
    rewrite bool_decide_true by done.
    destruct max_retries as [|n]; [lia|]. simpl. rewrite M_bind_unfold.
    fold req. unfold http_get at 1.
    destruct (network w (requests_made w) req) as [| |status body]; [done| |].
    + eexists. split; [reflexivity|]. done.
    + destruct Hgive as [H401 Hwhy].
      rewrite (proj2 (Z.eqb_neq _ _) H401).
      destruct ((400 <=? status)%Z && (status <? 600)%Z) eqn:Erange.
      { eexists. split; [reflexivity|]. done. }
      destruct Hwhy as [Hrange|[->|(data & e & -> & Hexp)]].
      * apply andb_false_iff in Erange as [?%Z.leb_gt|?%Z.ltb_ge]; lia.
      * eexists. split; [reflexivity|]. done.
      * rewrite Hexp. eexists. split; [reflexivity|]. done.
  - intros Htype. unfold get_securitytrails_data.
    by rewrite bool_decide_false.
Qed.

Lemma get_securitytrails_data_gives_up_witness :
  let w := example_world (λ _ _, Response 503 None) (λ _, CookieAbsent) in
  ∃ w',
    get_securitytrails_data "keyword" "shop" 2 (Some "") 5 "stale" w
    = (Ok JNull, w')
    ∧ trace w' = trace w ++ [EvRequest (PageRequest "keyword" "shop" 2 None "stale")]
    ∧ current_cookies w' = current_cookies w
    ∧ cookie_reads w' = cookie_reads w.
Proof.
  intros w.
  apply (proj1 (get_securitytrails_data_gives_up
                  "keyword" "shop" 2 (Some "") 5 "stale" w)).
  - unfold resource_types. set_solver.
  - lia.
  - simpl. split; [lia|]. left. lia.
Defined.

(** ** More on the fetch: what it returns, and the session after it *)

Lemma session_kept_or_valid_refl w : session_kept_or_valid w w.
Proof. by left. Qed.

Lemma session_kept_or_valid_same w w' :
  same_session w w' → session_kept_or_valid w w'.
Proof. intros [H _]. by left. Qed.

Lemma session_kept_or_valid_trans w1 w2 w3 :
  network w2 = network w1 →
  session_kept_or_valid w1 w2 → session_kept_or_valid w2 w3 →
  session_kept_or_valid w1 w3.
Proof.
  intros Hnet H12 [H23|(c & n & Hc & Hv)].
  - destruct H12 as [H12|(c & n & Hc & Hv)].
    + left. by rewrite H23.
    + right. exists c, n. by rewrite H23.
  - right. exists c, n. by rewrite <- Hnet.
Qed.

Lemma reload_cookies_facts w :
  ∃ r w',
    reload_cookies w = (Ok r, w')
    ∧ network w' = network w
    ∧ session_kept_or_valid w w'
    ∧ (requests_made w ≤ requests_made w' ≤ requests_made w + 1)%nat.
Proof.
  destruct (reload_cookies_run w) as (r & w' & evs & Hrun & E & _ & _ & Hr).
  exists r, w'. split; [done|]. split; [apply E|]. split.
  { destruct r as [c|]; [|by apply session_kept_or_valid_same].
    destruct Hr as [Hc [n Hv]]. right. by exists c, n. }
  revert Hrun. unfold reload_cookies, load_securitytrails_cookie.
  rewrite M_bind_unfold.
  destruct (load_attempts_run 3 (seq 0 3) w) as
    (r1 & w1 & evs1 & -> & _ & _ & R1 & _).
  destruct r1 as [c|]; [|intros [= _ <-]; lia].
  rewrite M_bind_unfold. unfold validate_session. rewrite M_bind_unfold.
  unfold http_get at 1. simpl.
  destruct (session_valid _); simpl; intros [= _ <-]; simpl; lia.
Qed.

Section fetch_checked.
Variables (resource_type resource_value : string) (page : Z).
Variables (search_term : option string) (max_retries : nat).

Let fetch := fetch_attempts resource_type resource_value page search_term max_retries.
Let page_request (c : cookies) : request :=
  PageRequest resource_type resource_value page (search_param search_term) c.

Lemma fetch_attempts_checked attempts : ∀ c w,
  ∃ data w',
    fetch attempts c w = (Ok data, w')
    ∧ network w' = network w
    ∧ session_kept_or_valid w w'
    ∧ (requests_made w ≤ requests_made w'
       ≤ requests_made w + 2 * length attempts)%nat
    ∧ (data ≠ JNull → checked_body page_request w (requests_made w) (requests_made w') data).
Proof.
  induction attempts as [|attempt rest IH]; intros c w.
  { exists JNull, w. split; [done|]. split; [done|].
    split; [apply session_kept_or_valid_refl|]. split; [simpl; lia|done]. }
  destruct (http_get_run (page_request c) w) as (w1 & Hget & E1 & S1 & R1).
  assert (network w1 = network w) as N1 by apply E1.
  (* the fetch stops in [w1] *)
  assert (∀ data,
            (data ≠ JNull →
             checked_body page_request w (requests_made w) (requests_made w1) data) →
            ∃ data' w',
              (Ok data, w1) = (Ok data', w')
              ∧ network w' = network w
              ∧ session_kept_or_valid w w'
              ∧ (requests_made w ≤ requests_made w'
                 ≤ requests_made w + 2 * length (attempt :: rest))%nat
              ∧ (data' ≠ JNull →
                 checked_body page_request w (requests_made w) (requests_made w') data'))
    as Hstop.
  { intros data Hdata. exists data, w1. split; [done|]. split; [done|].
    split; [by apply session_kept_or_valid_same|]. split; [simpl; lia|done]. }
  (* the fetch goes on from [w2] on the turns that are left *)
  assert (∀ c' w2,
            network w2 = network w → session_kept_or_valid w w2 →
            (requests_made w1 ≤ requests_made w2 ≤ requests_made w1 + 1)%nat →
            ∃ data w',
              fetch rest c' w2 = (Ok data, w')
              ∧ network w' = network w
              ∧ session_kept_or_valid w w'
              ∧ (requests_made w ≤ requests_made w'
                 ≤ requests_made w + 2 * length (attempt :: rest))%nat
              ∧ (data ≠ JNull →
                 checked_body page_request w (requests_made w) (requests_made w') data))
    as Hgo.
  { intros c' w2 N2 S2 R2.
    destruct (IH c' w2) as (data & w' & Hrun & N & S & R & Hdata).
    exists data, w'. split; [done|]. split; [by rewrite N|].
    split; [by apply (session_kept_or_valid_trans w w2 w')|].
    split; [simpl; lia|].
    intros Hne. destruct (Hdata Hne) as (n & c0 & status & Hn & Hresp & Hrest).
    exists n, c0, status. split; [lia|]. split; [by rewrite <- N2|done]. }
  (* the cookies are reloaded in [w1] *)
  assert (∃ data w',
            reload_then (fetch rest) w1 = (Ok data, w')
            ∧ network w' = network w
            ∧ session_kept_or_valid w w'
            ∧ (requests_made w ≤ requests_made w'
               ≤ requests_made w + 2 * length (attempt :: rest))%nat
            ∧ (data ≠ JNull →
               checked_body page_request w (requests_made w) (requests_made w') data))
    as Hreload.
  { unfold reload_then. rewrite M_bind_unfold.
    destruct (reload_cookies_facts w1) as (r & w2 & -> & N2 & S2 & R2).
    assert (session_kept_or_valid w w2) as S02.
    { apply (session_kept_or_valid_trans w w1 w2); [done| |done].
      by apply session_kept_or_valid_same. }
    destruct r as [c'|].
    - apply Hgo; [by rewrite N2|done|lia].
    - exists JNull, w2. split; [done|]. split; [by rewrite N2|].
      split; [done|]. split; [simpl; lia|done]. }
  unfold fetch in *. unfold reload_then in Hreload. simpl.
  rewrite M_bind_unfold. fold (page_request c). rewrite Hget.
  destruct (network w (requests_made w) (page_request c))
    as [| |status body] eqn:Hanswer.
  - destruct (attempt <? max_retries - 1)%nat; [|by apply Hstop].
    rewrite M_bind_unfold.
    destruct (sleep_run 2 w1) as (w2 & -> & E2 & S2 & R2).
    apply Hgo.
    + destruct E2 as (N2 & _). by rewrite N2.
    + apply session_kept_or_valid_same.
      by apply (same_session_trans w w1 w2).
    + lia.
  - by apply Hstop.
  - destruct (status =? 401)%Z eqn:E401; [exact Hreload|].
    destruct ((400 <=? status)%Z && (status <? 600)%Z) eqn:Erange;
      [by apply Hstop|].
    destruct body as [data|]; [|by apply Hstop].
    destruct (is_session_expired data) as [[|]|] eqn:Eexp;
      [exact Hreload| |by apply Hstop].
    apply Hstop. intros _. exists (requests_made w), c, status.
    split; [lia|]. split; [done|].
    split; [by apply Z.eqb_neq|]. split; [|done].
    apply andb_false_iff in Erange as [?%Z.leb_gt|?%Z.ltb_ge]; lia.
Qed.

End fetch_checked.

(** Whatever the network answers, the fetch of a page never raises. When
    it returns data, they are the body of a response to one of its own
    requests for this page, with a status that is neither 401 nor an HTTP
    error, on which the expiry check answered no. After it the session is
    what it was, or cookies that were validated. *)
Theorem get_securitytrails_data_returns_checked_body
    (resource_type resource_value : string) (page : Z)
    (search_term : option string) (max_retries : nat) (c : cookies) (w : world) :
  ∃ data w',
    get_securitytrails_data resource_type resource_value page search_term
                            max_retries c w = (Ok data, w')
    ∧ session_kept_or_valid w w'
    ∧ (requests_made w' ≤ requests_made w + 2 * max_retries)%nat
    ∧ (data ≠ JNull →
       ∃ n c' status,
         (requests_made w ≤ n < requests_made w')%nat
         ∧ network w n (PageRequest resource_type resource_value page
                                    (search_param search_term) c')
           = Response status (Some data)
         ∧ status ≠ 401%Z ∧ ¬ (400 ≤ status < 600)%Z
         ∧ is_session_expired data = Ok false).
Proof.
  unfold get_securitytrails_data. case_bool_decide.
  - destruct (fetch_attempts_checked resource_type resource_value page
                search_term max_retries (seq 0 max_retries) c w)
      as (data & w' & Hrun & _ & S & R & Hdata).
    rewrite length_seq in R.
    exists data, w'. split; [done|]. split; [done|]. split; [lia|done].
  - exists JNull, w. split; [done|].
    split; [apply session_kept_or_valid_refl|]. split; [lia|done].
Qed.

(** ** More on the discovery: how many requests it makes *)

Lemma get_securitytrails_data_facts rt rv page search max_retries c w :
  ∃ data w' evs,
    get_securitytrails_data rt rv page search max_retries c w = (Ok data, w')
    ∧ extends w w' evs
    ∧ session_kept_or_valid w w'
    ∧ (requests_made w ≤ requests_made w' ≤ requests_made w + 2 * max_retries)%nat
    ∧ (length (page_requests evs) ≤ max_retries)%nat
    ∧ Forall (λ r, ∃ c', r = PageRequest rt rv page (search_param search) c')
             (page_requests evs).
Proof.
  unfold get_securitytrails_data. case_bool_decide.
  - destruct (fetch_attempts_run rt rv page search max_retries
                (seq 0 max_retries) c w)
      as (data & w' & evs & Hrun & E & _ & Hlen & Hreq).
    destruct (fetch_attempts_checked rt rv page search max_retries
                (seq 0 max_retries) c w)
      as (data' & w'' & Hrun' & _ & S & R & _).
    rewrite Hrun in Hrun'. injection Hrun' as <- <-.
    rewrite length_seq in *.
    exists data, w', evs. done.
  - exists JNull, w, []. split; [done|]. split; [apply extends_refl|].
    split; [apply session_kept_or_valid_refl|]. split; [lia|].
    split; [simpl; lia|done].
Qed.

Lemma session_for_turn_facts (valid : bool) c w :
  ∃ new w' evs,
    (if valid then mret (Some c) else reload_cookies) w = (Ok new, w')
    ∧ extends w w' evs ∧ page_requests evs = []
    ∧ session_kept_or_valid w w'
    ∧ (requests_made w ≤ requests_made w' ≤ requests_made w + 1)%nat.
Proof.
  destruct valid.
  - exists (Some c), w, []. split; [done|]. split; [apply extends_refl|].
    split; [done|]. split; [apply session_kept_or_valid_refl|lia].
  - destruct (reload_cookies_run w) as (r & w' & evs & Hrun & E & _ & Q & _).
    destruct (reload_cookies_facts w) as (r' & w'' & Hrun' & _ & S & R).
    rewrite Hrun in Hrun'. injection Hrun' as <- <-.
    by exists r, w', evs.
Qed.

Section discovery_bounds_facts.
Variables (resource_type resource_value : string).
Variables (search_term : option string) (max_retries : nat).

Let discover :=
  first_page_attempts resource_type resource_value search_term max_retries.
Let bounds := discovery_bounds resource_type resource_value search_term.

Lemma discovery_bounds_turn n w w4 w' evs_a evs_b :
  extends w w4 evs_a → session_kept_or_valid w w4 →
  (requests_made w ≤ requests_made w4 ≤ requests_made w + 12)%nat →
  (length (page_requests evs_a) ≤ 5)%nat →
  Forall (λ r, ∃ c, r = PageRequest resource_type resource_value 1
                                    (search_param search_term) c)
         (page_requests evs_a) →
  bounds n w4 w' evs_b →
  bounds (S n) w w' (evs_a ++ evs_b).
Proof.
  intros Ea Sa Ra La Pa (Eb & Sb & Rb & Lb & Pb).
  split; [by apply (extends_trans w w4 w')|].
  split.
  { apply (session_kept_or_valid_trans w w4 w'); [apply Ea|done|done]. }
  split; [lia|].
  unfold page_requests in *. rewrite omap_app, length_app.
  split; [lia|]. by apply Forall_app.
Qed.

Lemma discovery_bounds_refl n w : bounds n w w [].
Proof.
  split; [apply extends_refl|]. split; [apply session_kept_or_valid_refl|].
  split; [lia|]. split; [simpl; lia|done].
Qed.

Lemma first_page_attempts_bounds n : ∀ start c w,
  ∃ r w' evs, discover (seq start n) c w = (r, w') ∧ bounds n w w' evs.
Proof.
  induction n as [|n IH]; intros start c w.
  { exists (Ok (JNull, JNum default_total_pages)), w, [].
    split; [done|apply discovery_bounds_refl]. }
  unfold discover. simpl. rewrite M_bind_unfold.
  destruct (emit_run (EvAttempt (start + 1) max_retries) w)
    as (w1 & -> & E1 & S1 & R1).
  rewrite M_bind_unfold. unfold validate_session at 1. rewrite M_bind_unfold.
  destruct (http_get_run (ValidateRequest c) w1) as (w2 & -> & E2 & S2 & R2).
  cbn [mret M_ret]. set (valid := session_valid _).
  rewrite M_bind_unfold.
  destruct (session_for_turn_facts valid c w2)
    as (new & w3 & evs3 & -> & E3 & Q3 & S3 & R3).
  set (head := [EvAttempt (start + 1) max_retries]
                 ++ [EvRequest (ValidateRequest c)] ++ evs3).
  assert (extends w w3 head) as E03.
  { apply (extends_trans w w1 w3); [done|]. by apply (extends_trans w1 w2 w3). }
  assert (session_kept_or_valid w w3) as S03.
  { apply (session_kept_or_valid_trans w w2 w3); [|by apply session_kept_or_valid_same,
      (same_session_trans w w1 w2)|done].
    destruct E1 as (N1 & _), E2 as (N2 & _). by rewrite N2. }
  assert (page_requests head = []) as Q03
    by (unfold head, page_requests in *; by rewrite !omap_app, Q3).
  destruct new as [c'|].
  2: { destruct (IH (S start) c w3) as (r & w' & rest & Hrun & Hb).
       fold discover. rewrite Hrun. exists r, w', (head ++ rest).
       split; [done|].
       apply (discovery_bounds_turn n w w3 w' head rest); try done.
       - lia.
       - rewrite Q03. simpl. lia.
       - by rewrite Q03. }
  rewrite M_bind_unfold.
  destruct (get_securitytrails_data_facts resource_type resource_value 1
              search_term 5 c' w3)
    as (data & w4 & evs4 & -> & E4 & S4 & R4 & L4 & P4).
  assert (extends w w4 (head ++ evs4)) as E04
    by (by apply (extends_trans w w3 w4)).
  assert (session_kept_or_valid w w4) as S04.
  { apply (session_kept_or_valid_trans w w3 w4); [apply E03|done|done]. }
  assert (length (page_requests (head ++ evs4)) ≤ 5)%nat as L04.
  { unfold page_requests in *. rewrite omap_app, length_app, Q03. simpl. lia. }
  assert (Forall (λ r, ∃ c0, r = PageRequest resource_type resource_value 1
                                            (search_param search_term) c0)
                 (page_requests (head ++ evs4))) as P04.
  { unfold page_requests in *. rewrite omap_app, Q03. done. }
  (* the run ends in [w4] *)
  assert (∀ r : result (json * json),
            ∃ r' w' evs, (r, w4) = (r', w') ∧ bounds (S n) w w' evs) as Hend.
  { intros r. exists r, w4, ((head ++ evs4) ++ []). split; [done|].
    apply (discovery_bounds_turn n w w4 w4); try done; [lia|].
    apply discovery_bounds_refl. }
  (* the turn failed: archive, sleep, go on *)
  assert (∀ data' error,
            ∃ r w' evs,
              (save_failed_response resource_type resource_value (start + 1)
                                    data' error
               ≫= λ _, sleep (wait_time start)
               ≫= λ _, discover (seq (S start) n) c') w4 = (r, w')
              ∧ bounds (S n) w w' evs) as Hfail.
  { intros data' error. unfold save_failed_response. rewrite M_bind_unfold.
    match goal with |- context [emit ?e w4] =>
      destruct (emit_run e w4) as (w5 & -> & E5 & S5 & R5);
      set (archive := e) in * end.
    rewrite M_bind_unfold.
    destruct (sleep_run (wait_time start) w5) as (w6 & -> & E6 & S6 & R6).
    destruct (IH (S start) c' w6) as (r & w' & rest & Hrun & Hb).
    rewrite Hrun.
    exists r, w', (((head ++ evs4) ++ [archive] ++ [EvSleep (wait_time start)])
                     ++ rest).
    split; [done|].
    assert (page_requests ([archive] ++ [EvSleep (wait_time start)]) = [])
      as Qa by reflexivity.
    apply (discovery_bounds_turn n w w6 w'); try done.
    - apply (extends_trans w w4 w6); [done|]. by apply (extends_trans w4 w5 w6).
    - apply (session_kept_or_valid_trans w w4 w6); [apply E04|done|].
      by apply session_kept_or_valid_same, (same_session_trans w4 w5 w6).
    - lia.
    - unfold page_requests in *. rewrite omap_app, length_app, Qa.
      cbn [length]. lia.
    - unfold page_requests in *. rewrite omap_app, Qa.
      by rewrite app_nil_r. }
  destruct (truthy data); [|apply Hfail].
  rewrite M_bind_unfold. unfold lift at 1.
  destruct (get_total_pages_from_data data) as [total_pages|e]; [|apply Hend].
  destruct (py_eq_int total_pages default_total_pages); [|apply Hend].
  rewrite M_bind_unfold. unfold lift at 1.
  destruct (is_legitimate_100_pages data) as [[|]|e];
    [apply Hend | apply Hfail | apply Hend].
Qed.

End discovery_bounds_facts.

(** A discovery makes a bounded number of requests: with [max_retries]
    attempts, at most twelve times as many requests in all (a validation, a
    reload and a fetch of up to five turns for each attempt), at most five
    times as many of them for a page, and every one of these is for page 1
    of the resource asked for. After it the session is what it was, or
    cookies that were validated. *)
Theorem get_first_page_with_retry_request_bounds
    (resource_type resource_value : string) (search_term : option string)
    (max_retries : nat) (c : cookies) (w : world) :
  ∃ r w' evs,
    get_first_page_with_retry resource_type resource_value search_term
                              max_retries c w = (r, w')
    ∧ trace w' = trace w ++ evs
    ∧ (requests_made w' ≤ requests_made w + 12 * max_retries)%nat
    ∧ (length (page_requests evs) ≤ 5 * max_retries)%nat
    ∧ Forall (λ r, ∃ c', r = PageRequest resource_type resource_value 1
                                         (search_param search_term) c')
             (page_requests evs)
    ∧ session_kept_or_valid w w'.
Proof.
  unfold get_first_page_with_retry.
  destruct (first_page_attempts_bounds resource_type resource_value search_term
              max_retries max_retries 0 c w)
    as (r & w' & evs & Hrun & E & S & R & L & P).
  exists r, w', evs. split; [done|]. split; [apply E|]. split; [lia|done].
Qed.

(** ** [scrape_page] *)

(** What [scrape_page] hands back. The page number is the one asked
    for; the success flag is set exactly when the list of domains is not
    empty, so a page that was fetched but holds no hostname counts as
    failed, like a page that could not be fetched; the domains are not empty
    and have no white space at their ends; and at most five requests were
    made for the page. *)
Theorem scrape_page_result
    (resource_type resource_value : string) (page : Z) (c : cookies)
    (search_term : option string) (w w' : world)
    (p : Z) (domains : list string) (success : bool) :
  scrape_page resource_type resource_value page c search_term w
  = (Ok (p, domains, success), w') →
  p = page
  ∧ success = bool_decide (domains ≠ [])
  ∧ (∀ d, d ∈ domains → d ≠ "" ∧ strip d = d)
  ∧ ∃ evs, trace w' = trace w ++ evs
           ∧ (length (page_requests evs) ≤ 5)%nat
           ∧ session_kept_or_valid w w'.
Proof.
  unfold scrape_page. rewrite M_bind_unfold.
  destruct (get_securitytrails_data_facts resource_type resource_value page
              search_term 5 c w)
    as (data & w4 & evs & -> & E & S & _ & L & _).
  assert (∃ evs, trace w4 = trace w ++ evs
                 ∧ (length (page_requests evs) ≤ 5)%nat
                 ∧ session_kept_or_valid w w4) as Hworld.
  { exists evs. split; [apply E|done]. }
  destruct (truthy data).
  - rewrite M_bind_unfold. unfold lift at 1.
    destruct (extract_domains_from_data data) as [ds|e] eqn:Ex; [|done].
    apply extract_domains_clean in Ex.
    destruct ds as [|d ds]; intros [= <- <- <- <-].
    + split; [done|]. split; [done|]. split; [|done].
      intros d Hd. by apply elem_of_nil in Hd.
    + split; [done|]. split; [done|]. split; [|done].
      intros d' Hd'. by apply (proj1 (Forall_forall _ _) Ex).
  - intros [= <- <- <- <-].
    split; [done|]. split; [done|]. split; [|done].
    intros d Hd. by apply elem_of_nil in Hd.
Qed.

Lemma scrape_page_result_witness :
  let body := page_response "serverResponse" [JObj [("hostname", JStr "  ")]]
                            (JObj [("total_pages", JNum 3)]) in
  let w := example_world (λ _ _, Response 200 (Some body)) (λ _, CookieAbsent) in
  let run := scrape_page "subdomain" "example.com" 2 "stale" None w in
  2%Z = 2%Z
  ∧ false = bool_decide (@nil string ≠ [])
  ∧ (∀ d, d ∈ @nil string → d ≠ "" ∧ strip d = d)
  ∧ ∃ evs, trace run.2 = trace w ++ evs
           ∧ (length (page_requests evs) ≤ 5)%nat
           ∧ session_kept_or_valid w run.2.
Proof.
  intros body w run.
  apply (scrape_page_result "subdomain" "example.com" 2 "stale" None w run.2
           2 [] false).
  vm_compute. reflexivity.
Defined.


(** ** The command line *)

Lemma stripped_pieces_clean pieces x :
  x ∈ stripped_pieces pieces → clean_item x.
Proof.
  unfold stripped_pieces. rewrite list_elem_of_filter, list_elem_of_fmap.
  intros [Hne [y [-> _]]]. split; [done | apply strip_idemp].
Qed.

Lemma stripped_lines_clean text x : x ∈ stripped_lines text → clean_item x.
Proof.
  rewrite stripped_lines_elem. intros [Hne [line [_ ->]]].
  split; [done | apply strip_idemp].
Qed.

Lemma stripped_pieces_fixed items :
  Forall clean_item items → stripped_pieces items = items.
Proof.
  unfold stripped_pieces. induction 1 as [|x items [Hne Hx] _ IH]; [done|].
  rewrite fmap_cons, Hx, filter_cons_True by done. by rewrite IH.
Qed.

Lemma comma_pieces_single x : comma_free x = true → comma_pieces x = [x].
Proof.
  induction x as [|c x IH]; [done|]. simpl.
  destruct (Ascii.eqb c ","); [done|]. simpl. intros H. by rewrite (IH H).
Qed.

Lemma comma_pieces_then x rest :
  comma_free x = true →
  comma_pieces (x +:+ String "," rest) = x :: comma_pieces rest.
Proof.
  induction x as [|c x IH]; [done|].
  rewrite string_app_cons. simpl.
  destruct (Ascii.eqb c ","); [done|]. simpl. intros H. by rewrite (IH H).
Qed.

Lemma comma_pieces_join x items :
  Forall (λ y, comma_free y = true) (x :: items) →
  comma_pieces (comma_join (x :: items)) = x :: items.
Proof.
  revert x. induction items as [|y items IH]; intros x Hf.
  - apply comma_pieces_single. by inversion Hf.
  - inversion Hf as [|? ? Hx Hrest]; subst.
    change (comma_join (x :: y :: items))
      with (x +:+ String "," (comma_join (y :: items))).
    rewrite comma_pieces_then by done. by rewrite IH.
Qed.

Lemma list_argument_clean read_file file_flag list_flag argv x :
  x ∈ list_argument file_flag list_flag (load_resources_from_file read_file) argv →
  clean_item x.
Proof.
  unfold list_argument, load_resources_from_file.
  repeat case_bool_decide; try by intros ?%elem_of_nil.
  - destruct (arg_after file_flag argv) as [f|]; [|by intros ?%elem_of_nil].
    destruct (read_file f); [apply stripped_lines_clean | by intros ?%elem_of_nil].
  - destruct (arg_after list_flag argv); [apply stripped_pieces_clean|].
    by intros ?%elem_of_nil.
Qed.

Lemma count_argument_bounds py_int flag dflt argv :
  (1 ≤ dflt ≤ 50)%Z → (1 ≤ count_argument py_int flag dflt argv ≤ 50)%Z.
Proof.
  intros Hd. unfold count_argument.
  destruct (arg_after flag argv) as [v|]; [|done].
  destruct (py_int v) as [n|]; [|done].
  destruct (1 <=? n)%Z eqn:E1; [|done]. destruct (n <=? 50)%Z eqn:E2; [|done].
  simpl. lia.
Qed.

(** Whatever the command line holds, [parse_command_line_args] returns
    between 1 and 50 workers and between 1 and 50 threads for each
    worker, and a resource type, if it returns one, that is one of the six
    the program knows: a count that is no integer, or out of range, is
    replaced by its default and never passed on. *)
Theorem parse_command_line_args_bounds py_int read_file argv :
  let a := parse_command_line_args py_int read_file argv in
  (1 ≤ cli_worker_count a ≤ 50)%Z
  ∧ (1 ≤ cli_thread_count a ≤ 50)%Z
  ∧ (∀ t, cli_resource_type a = Some t → t ∈ resource_types).
Proof.
  unfold parse_command_line_args.
  destruct (length argv <? 2)%nat; [by simpl|].
  case_bool_decide; [by simpl|].
  destruct (arg_after "--type" argv) as [t|].
  - case_bool_decide as Ht; [|by simpl]. cbn.
    split; [by apply count_argument_bounds|].
    split; [by apply count_argument_bounds|]. by intros ? [= <-].
  - cbn. split; [by apply count_argument_bounds|].
    split; [by apply count_argument_bounds|]. done.
Qed.

(** The resources and the search terms [parse_command_line_args]
    returns, from a file or from a list between commas, are never empty
    strings and carry no white space at either end. *)
Theorem parse_command_line_args_items_clean py_int read_file argv items :
  cli_resources (parse_command_line_args py_int read_file argv) = Some items
  ∨ cli_search_terms (parse_command_line_args py_int read_file argv) = Some items →
  Forall clean_item items.
Proof.
  unfold parse_command_line_args.
  destruct (length argv <? 2)%nat; [by intros [?|?]|].
  case_bool_decide; [by intros [?|?]|].
  assert (∀ rt,
    cli_resources {|
      cli_resources := Some (list_argument "--resources-file" "--resources"
                               (load_resources_from_file read_file) argv);
      cli_search_terms := Some (list_argument "--search-terms-file" "--search-terms"
                               (load_search_terms_from_file read_file) argv);
      cli_thread_count := count_argument py_int "--threads" 5 argv;
      cli_resource_type := rt;
      cli_output_filename :=
        Some (default "securitytrails_results" (arg_after "--output" argv));
      cli_worker_count := count_argument py_int "--workers" 1 argv |} = Some items
    ∨ cli_search_terms {|
      cli_resources := Some (list_argument "--resources-file" "--resources"
                               (load_resources_from_file read_file) argv);
      cli_search_terms := Some (list_argument "--search-terms-file" "--search-terms"
                               (load_search_terms_from_file read_file) argv);
      cli_thread_count := count_argument py_int "--threads" 5 argv;
      cli_resource_type := rt;
      cli_output_filename :=
        Some (default "securitytrails_results" (arg_after "--output" argv));
      cli_worker_count := count_argument py_int "--workers" 1 argv |} = Some items →
    Forall clean_item items) as Hparsed.
  { intros rt [[= <-]|[= <-]]; apply Forall_forall; intros x Hx;
      by apply list_argument_clean in Hx. }
  destruct (arg_after "--type" argv) as [t|]; [|apply Hparsed].
  case_bool_decide; [apply Hparsed | by intros [?|?]].
Qed.

Lemma parse_command_line_args_items_clean_witness :
  Forall clean_item ["a.com"; "b.org"].
Proof.
  apply (parse_command_line_args_items_clean (λ _, None) (λ _, None)
           ["sx25.py"; "--resources"; " a.com ,, b.org"; "--type"; "subdomain"]).
  left. vm_compute. reflexivity.
Defined.

(** Items that are clean and hold no comma come back as they were given:
    where no resources file is named and the argument of [--resources] is
    the items joined by commas, the resources [parse_command_line_args]
    returns are these items, in their order. *)
Theorem parse_command_line_args_resources_round_trip
    py_int read_file argv items resources :
  Forall clean_item items →
  Forall (λ x, comma_free x = true) items →
  "--resources-file" ∉ argv →
  arg_after "--resources" argv = Some (comma_join items) →
  cli_resources (parse_command_line_args py_int read_file argv) = Some resources →
  resources = items.
Proof.
  intros Hclean Hfree Hfile Harg.
  assert ("--resources" ∈ argv) as Hin.
  { unfold arg_after in Harg.
    destruct (list_index "--resources" argv) as [i|] eqn:Hi; [|done].
    clear Harg. revert i Hi. induction argv as [|y argv IH]; [done|].
    intros i. simpl. destruct (String.eqb y "--resources") eqn:E.
    - apply String.eqb_eq in E as ->. intros _. apply list_elem_of_here.
    - destruct (list_index "--resources" argv) as [j|]; [|done].
      intros _. apply list_elem_of_further, (IH ltac:(set_solver) j eq_refl). }
  assert (list_argument "--resources-file" "--resources"
            (load_resources_from_file read_file) argv = items) as Hl.
  { unfold list_argument. rewrite bool_decide_eq_false_2 by done.
    rewrite bool_decide_eq_true_2 by done. rewrite Harg.
    destruct items as [|x items]; [done|].
    rewrite comma_pieces_join by done. by apply stripped_pieces_fixed. }
  unfold parse_command_line_args. rewrite Hl.
  destruct (length argv <? 2)%nat; [done|].
  case_bool_decide; [done|].
  destruct (arg_after "--type" argv) as [t|]; [|by intros [= <-]].
  case_bool_decide; [by intros [= <-] | done].
Qed.

Lemma parse_command_line_args_resources_round_trip_witness :
  ["a.com"; "b.org"] = ["a.com"; "b.org"].
Proof.
  apply (parse_command_line_args_resources_round_trip (λ _, None) (λ _, None)
           ["sx25.py"; "--type"; "subdomain"; "--resources"; "a.com,b.org"]
           ["a.com"; "b.org"] ["a.com"; "b.org"]).
  - repeat constructor; done.
  - repeat constructor.
  - intros H. by vm_compute in H; repeat (apply elem_of_cons in H as [?|H]; [done|]);
      apply elem_of_nil in H.
  - reflexivity.
  - vm_compute. reflexivity.
Defined.

(** [parse_command_line_args] returns the tuple for no arguments,
    [(None, None, 5, None, None, 1)], in three cases and in no other: no
    argument at all, a first argument asking for help, and a [--type]
    followed by a word that is no resource type. In the last case the
    resources, the output name and the counts given beside it are dropped
    with it. *)
Theorem parse_command_line_args_no_args py_int read_file argv :
  parse_command_line_args py_int read_file argv = no_args ↔ no_usable_args argv.
Proof.
  unfold parse_command_line_args, no_usable_args.
  destruct (length argv <? 2)%nat eqn:El.
  { apply Nat.ltb_lt in El. split; [by left | done]. }
  apply Nat.ltb_ge in El.
  destruct (argv !! 1%nat) as [a|] eqn:Ha; simpl.
  2:{ apply lookup_ge_None in Ha. lia. }
  case_bool_decide as Hh.
  { split; [|done]. intros _. right. left. by exists a. }
  destruct (arg_after "--type" argv) as [t|].
  - case_bool_decide as Ht.
    + split; [done|]. intros [?|[[a' [[= <-] ?]]|[t' [[= <-] ?]]]]; [lia|done|done].
    + split; [|done]. intros _. right. right. by exists t.
  - split; [done|]. intros [?|[[a' [[= <-] ?]]|[t' [? ?]]]]; [lia|done|done].
Qed.


(** ** The directory of a resource's failed responses *)

Lemma safe_char_no_space c : safe_char c = true → is_space c = false.
Proof.
  destruct c as [[] [] [] [] [] [] [] []]; vm_compute; congruence.
Qed.

Lemma rstrip_chars_safe l :
  rstrip_chars (List.filter safe_char l) = List.filter safe_char l.
Proof.
  unfold rstrip_chars. rewrite lstrip_chars_fixed; [apply rev_involutive|].
  destruct (rev (List.filter safe_char l)) as [|c rest] eqn:E; [done|].
  simpl. apply safe_char_no_space.
  assert (In c (List.filter safe_char l)) as Hc.
  { apply in_rev. rewrite E. by left. }
  by apply filter_In in Hc as [_ ?].
Qed.

Lemma safe_resource_chars v :
  list_ascii_of_string (safe_resource v)
  = List.filter safe_char (list_ascii_of_string v).
Proof.
  unfold safe_resource.
  by rewrite rstrip_chars_safe, list_ascii_of_string_of_list_ascii.
Qed.

Lemma filter_safe_char_fixed l :
  List.filter safe_char (List.filter safe_char l) = List.filter safe_char l.
Proof.
  induction l as [|c l IH]; [done|]. simpl.
  destruct (safe_char c) eqn:E; [|done]. simpl. by rewrite E, IH.
Qed.

Lemma filter_sublist (f : ascii → bool) l : List.filter f l `sublist_of` l.
Proof.
  induction l as [|c l IH]; [done|]. simpl.
  destruct (f c); by constructor.
Qed.

Lemma list_ascii_app a b :
  list_ascii_of_string (a +:+ b) = list_ascii_of_string a ++ list_ascii_of_string b.
Proof.
  induction a as [|c a IH]; [done|]. rewrite string_app_cons. simpl. by rewrite IH.
Qed.

(** The directory name [save_failed_response] derives from a resource
    value keeps, in their order, exactly the characters that are
    alphanumeric or one of [-], [.] and [_]: it holds no path separator
    and no white space, so the final [rstrip] changes nothing and the
    directory lies at most one level from the archive's own; cleaning a
    name that is clean already gives it back; and the name is empty
    exactly when the value has no such character. *)
Theorem save_failed_response_directory_name resource_value :
  let name := list_ascii_of_string (safe_resource resource_value) in
  name = List.filter safe_char (list_ascii_of_string resource_value)
  ∧ name `sublist_of` list_ascii_of_string resource_value
  ∧ (∀ c, c ∈ name → safe_char c = true ∧ is_space c = false
                     ∧ c ≠ "/"%char ∧ c ≠ "\"%char ∧ c ≠ ":"%char)
  ∧ safe_resource (safe_resource resource_value) = safe_resource resource_value
  ∧ (safe_resource resource_value = ""
     ↔ ∀ c, c ∈ list_ascii_of_string resource_value → safe_char c = false).
Proof.
  cbv zeta. rewrite safe_resource_chars.
  split; [done|]. split; [apply filter_sublist|]. split; [|split].
  - intros c Hc. apply list_elem_of_In, filter_In in Hc as [_ Hc].
    split; [done|]. split; [by apply safe_char_no_space|].
    repeat split; intros ->; by vm_compute in Hc.
  - unfold safe_resource at 1. rewrite safe_resource_chars, filter_safe_char_fixed.
    by rewrite rstrip_chars_safe, <- safe_resource_chars,
      string_of_list_ascii_of_string.
  - split.
    + intros He c Hc. destruct (safe_char c) eqn:E; [|done].
      assert (In c (list_ascii_of_string (safe_resource resource_value))) as Hin.
      { rewrite safe_resource_chars. apply filter_In.
        split; [by apply list_elem_of_In | done]. }
      rewrite He in Hin. destruct Hin.
    + intros Hall. rewrite <- (string_of_list_ascii_of_string (safe_resource _)).
      rewrite safe_resource_chars.
      induction (list_ascii_of_string resource_value) as [|c l IH]; [done|].
      simpl. rewrite (Hall c) by apply list_elem_of_here.
      apply IH. intros c' Hc'. by apply Hall, list_elem_of_further.
Qed.

(** Resource values that differ only in characters the name leaves out
    share one directory: a character that is neither alphanumeric nor one
    of [-], [.] and [_] can be taken out of the value, anywhere, without a
    change to the directory name. *)
Theorem save_failed_response_directory_shared before c after :
  safe_char c = false →
  safe_resource (before +:+ String c after) = safe_resource (before +:+ after).
Proof.
  intros Hc. unfold safe_resource. rewrite !rstrip_chars_safe.
  rewrite !list_ascii_app. simpl. rewrite !List.filter_app. simpl.
  by rewrite Hc.
Qed.

Lemma save_failed_response_directory_shared_witness :
  safe_resource ("10.0.0.0" +:+ String "/" "24") = safe_resource ("10.0.0.0" +:+ "24").
Proof.
  apply (save_failed_response_directory_shared "10.0.0.0" "/" "24"). reflexivity.
Defined.

(** * The output file: what a flush writes and what a restart finds *)

Lemma lines_text_concat ds :
  lines_text ds = String.concat "" (map (λ d, d +:+ String "010" "") ds).
Proof.
  induction ds as [|d ds IH]; [done|].
  destruct ds as [|d' ds]; [done|].
  change (lines_text (d :: d' :: ds))
    with (d +:+ String "010" "" +:+ lines_text (d' :: ds)).
  rewrite IH.
  change (String.concat "" (map (λ d, d +:+ String "010" "") (d :: d' :: ds)))
    with ((d +:+ String "010" "")
          +:+ String.concat "" (map (λ d, d +:+ String "010" "") (d' :: ds))).
  by rewrite string_app_assoc.
Qed.

Lemma lines_text_app a b : lines_text (a ++ b) = lines_text a +:+ lines_text b.
Proof.
  induction a as [|d a IH]; [done|]. simpl. rewrite IH.
  by rewrite !string_app_assoc.
Qed.

Lemma split_lines_lines_text ds :
  Forall (λ d, no_line_break d = true) ds →
  split_lines (lines_text ds) = ds ++ [""].
Proof.
  induction 1 as [|d ds Hd _ IH]; [done|].
  simpl. by rewrite (split_lines_record_then d _ Hd), IH.
Qed.



(** What a run whose steps are tidy has written: behind the text found
    at start-up the file holds the lines of records [written], pairwise
    distinct and none of them read at start-up; they are what the saved set
    gained. *)
Lemma perform_tidy_written (text : string) (S0 : gset string) st a :
  tidy a →
  (∃ written,
     output_file st = Some (text +:+ lines_text written)
     ∧ NoDup written
     ∧ saved_domains st = S0 ∪ list_to_set written
     ∧ (∀ d, d ∈ written → d ∉ S0 ∧ clean d ∧ no_line_break d = true))
  ∧ (∀ d, d ∈ current_domains st → clean d ∧ no_line_break d = true) →
  (∃ written,
     output_file (perform st a) = Some (text +:+ lines_text written)
     ∧ NoDup written
     ∧ saved_domains (perform st a) = S0 ∪ list_to_set written
     ∧ (∀ d, d ∈ written → d ∉ S0 ∧ clean d ∧ no_line_break d = true))
  ∧ (∀ d, d ∈ current_domains (perform st a) → clean d ∧ no_line_break d = true).
Proof.
  intros Htidy [(written & Hfile & Hnodup & Hsaved & Hwritten) Hrec].
  destruct a as [data|io]; simpl in *.
  - destruct (extract_domains_from_data data) as [domains|] eqn:E;
      [|split; [by exists written|done]].
    case_decide; [split; [by exists written|done]|].
    split; [by exists written|]. simpl.
    intros d [Hd|Hd]%elem_of_union; [by apply Hrec|].
    apply elem_of_list_to_set in Hd. split.
    + apply extract_domains_clean in E.
      by apply (proj1 (Forall_forall _ _) E).
    + by apply (proj1 (Forall_forall _ _) (Htidy domains eq_refl)).
  - unfold save_current_results.
    destruct (decide (current_domains st = ∅)) as [He|He];
      [split; [by exists written|done]|].
    destruct (decide (new_domains st = ∅)) as [Hn|Hn];
      [split; [by exists written|done]|].
    destruct io as [| |n]; [|split; [by exists written|done]|by destruct (Htidy n)].
    split; [|done]. simpl.
    exists (written ++ elements (new_domains st)).
    assert (∀ d, d ∈ elements (new_domains st) →
                 d ∈ current_domains st ∧ d ∉ saved_domains st) as Hnew.
    { intros d Hd%elem_of_elements. unfold new_domains in Hd.
      by apply elem_of_difference in Hd. }
    split.
    { rewrite Hfile. unfold append_text. simpl.
      by rewrite lines_text_app, string_app_assoc. }
    split.
    { apply NoDup_app. split; [done|]. split; [|apply NoDup_elements].
      intros d Hd Hd'. apply Hnew in Hd' as [_ Hd']. apply Hd'.
      rewrite Hsaved. apply elem_of_union_r. by apply elem_of_list_to_set. }
    split.
    { rewrite Hsaved, list_to_set_app_L.
      assert (list_to_set (elements (new_domains st)) = new_domains st) as ->.
      { apply set_eq. intros d. by rewrite elem_of_list_to_set, elem_of_elements. }
      set_solver. }
    intros d [Hd|Hd]%elem_of_app; [by apply Hwritten|].
    apply Hnew in Hd as [Hcur Hnot]. split; [|by apply Hrec].
    intros Hin. apply Hnot. rewrite Hsaved. by apply elem_of_union_l.
Qed.

Lemma fold_perform_tidy_written (text : string) (S0 : gset string) actions :
  Forall tidy actions →
  ∀ st,
    (∃ written,
       output_file st = Some (text +:+ lines_text written)
       ∧ NoDup written
       ∧ saved_domains st = S0 ∪ list_to_set written
       ∧ (∀ d, d ∈ written → d ∉ S0 ∧ clean d ∧ no_line_break d = true))
    ∧ (∀ d, d ∈ current_domains st → clean d ∧ no_line_break d = true) →
    (∃ written,
       output_file (fold_left perform actions st) = Some (text +:+ lines_text written)
       ∧ NoDup written
       ∧ saved_domains (fold_left perform actions st) = S0 ∪ list_to_set written
       ∧ (∀ d, d ∈ written → d ∉ S0 ∧ clean d ∧ no_line_break d = true))
    ∧ (∀ d, d ∈ current_domains (fold_left perform actions st) →
            clean d ∧ no_line_break d = true).
Proof.
  induction 1 as [|a actions Ha _ IH]; intros st Hst; [done|].
  simpl. apply IH. by apply perform_tidy_written.
Qed.

(** C7, amended. A run started against an existing output file that can
    be read. Start-up reconciliation puts every line of the file that is not
    blank, stripped, into [saved_domains], and nothing else, and the records
    stay there. At every point of the run the records a flush would write
    are pairwise distinct, not empty, stripped, not saved and not a line of
    the file found at start-up; a flush appends these records, each followed
    by a line feed (all of them, nothing when the file cannot be opened, the
    first [n] characters when the write stops there), an absorb leaves the
    file alone, and so the file only grows at its end. Where the file found
    ends in a line break, no record absorbed holds a line break and no write
    stops half-way, the lines the run has added to the file are records
    written once each, none of them a line the file held at start-up. A file
    that cannot be read leaves [saved_domains] empty: every record such a
    run saves is one it has written, whatever the file held. *)
Theorem restart_never_rewrites_existing_lines
    (text : string) (actions : list action) :
  let st0 := initialize_saved_domains ReadOk (fresh_results (Some text)) in
  let st := run (Some text) ReadOk actions in
  let pending := elements (new_domains st) in
  let records_text ds := String.concat "" (map (λ d, d +:+ String "010" "") ds) in
  (∀ d, d ∈ saved_domains st0 ↔
        d ≠ "" ∧ ∃ line, line ∈ split_lines text ∧ d = strip line)
  ∧ saved_domains st0 ⊆ saved_domains st
  ∧ NoDup pending
  ∧ (∀ d, d ∈ pending →
          d ≠ "" ∧ strip d = d ∧ d ∈ current_domains st ∧ d ∉ saved_domains st
          ∧ d ∉ split_lines text
          ∧ ∀ line, line ∈ split_lines text → strip line ≠ d)
  ∧ (∀ io, output_file (save_current_results io st) =
           Some (default "" (output_file st)
                 +:+ match io with
                     | WriteOk => records_text pending
                     | OpenError => ""
                     | WriteError n => String.substring 0 n (records_text pending)
                     end))
  ∧ (∀ data, output_file (perform st (Absorb data)) = output_file st)
  ∧ (∃ appended, output_file st = Some (text +:+ appended))
  ∧ (ends_with_break text = true → Forall tidy actions →
     ∃ lines written,
       split_lines text = lines ++ [""]
       ∧ output_file st = Some (text +:+ records_text written)
       ∧ split_lines (text +:+ records_text written) = lines ++ written ++ [""]
       ∧ NoDup written
       ∧ (∀ d, d ∈ written → d ∉ lines ∧ d ∉ saved_domains st0)
       ∧ saved_domains st = saved_domains st0 ∪ list_to_set written)
  ∧ saved_domains (initialize_saved_domains ReadError (fresh_results (Some text))) = ∅
  ∧ (Forall tidy actions →
     ∃ written,
       output_file (run (Some text) ReadError actions)
       = Some (text +:+ records_text written)
       ∧ NoDup written
       ∧ saved_domains (run (Some text) ReadError actions) = list_to_set written).
Proof.
  intros st0 st pending records_text.
  assert (∀ d, d ∈ saved_domains st0 ↔
               d ≠ "" ∧ ∃ line, line ∈ split_lines text ∧ d = strip line) as Hread.
  { intros d. unfold st0. simpl. rewrite elem_of_list_to_set.
    apply stripped_lines_elem. }
  assert (saved_domains st0 ⊆ saved_domains st) as Hmono.
  { unfold st, run. fold st0.
    apply (fold_perform_invariant (λ s, saved_domains st0 ⊆ saved_domains s)).
    - intros s a Hs. pose proof (perform_saved s a). set_solver.
    - done. }
  assert (∀ d, d ∈ current_domains st → clean d) as Hclean.
  { unfold st, run. fold st0.
    apply (fold_perform_invariant (λ s, ∀ d, d ∈ current_domains s → clean d)).
    - intros s a. apply perform_clean.
    - unfold st0. simpl. intros d Hd. by apply not_elem_of_empty in Hd. }
  assert (∃ appended, output_file st = Some (text +:+ appended)) as Hgrow.
  { unfold st, run. fold st0.
    apply (fold_perform_invariant
             (λ s, ∃ appended, output_file s = Some (text +:+ appended))).
    - intros s a. apply perform_appends.
    - exists "". unfold st0. simpl. by rewrite string_app_nil_r. }
  assert (∀ ds, records_text ds = lines_text ds) as Htext
    by (intros ds; symmetry; apply lines_text_concat).
  assert (pending = [] ↔ new_domains st = ∅) as Hnil.
  { unfold pending. split.
    - intros H. by apply elements_empty_inv, leibniz_equiv in H.
    - intros ->. apply elements_empty. }
  split; [done|]. split; [done|]. split; [apply NoDup_elements|]. split.
  { intros d Hd%elem_of_elements.
    apply elem_of_difference in Hd as [Hcur Hnot].
    destruct (Hclean d Hcur) as [Hne Hstrip].
    split; [done|]. split; [done|]. split; [done|]. split; [done|].
    assert (∀ line, line ∈ split_lines text → strip line ≠ d) as Hline.
    { intros line Hin Heq. apply Hnot, Hmono, Hread. split; [done|].
      by exists line. }
    split; [|done]. intros Hin. by apply (Hline d Hin). }
  split.
  { intros io. destruct Hgrow as [appended Hfile].
    unfold save_current_results.
    assert (current_domains st = ∅ → new_domains st = ∅) as Hcur
      by (unfold new_domains; set_solver).
    assert (new_domains st = ∅ →
            Some (default "" (output_file st)
                  +:+ match io with
                      | WriteOk => records_text pending
                      | OpenError => ""
                      | WriteError n => String.substring 0 n (records_text pending)
                      end) = output_file st) as Hnone.
    { intros Hn. rewrite (proj2 Hnil Hn), Hfile. simpl.
      destruct io as [| |[|n]]; simpl; by rewrite string_app_nil_r. }
    destruct (decide (current_domains st = ∅)) as [He|He];
      [by rewrite (Hnone (Hcur He))|].
    destruct (decide (new_domains st = ∅)) as [Hn|Hn]; [by rewrite (Hnone Hn)|].
    fold pending. rewrite Htext.
    destruct io; simpl; [done| |done].
    by rewrite Hfile, string_app_nil_r. }
  split.
  { intros data. simpl.
    destruct (extract_domains_from_data data); [|done]. by case_decide. }
  split; [done|].
  assert (∀ A B C : Prop, A → B → C → A ∧ B ∧ C) as Hthree by tauto.
  apply Hthree; [|done|].
  2: { intros Htidy.
       destruct (fold_perform_tidy_written text ∅ actions Htidy
                   (initialize_saved_domains ReadError (fresh_results (Some text))))
         as [(written & Hfile & Hnodup & Hsaved & _) _].
       { split.
         - exists []. split; [by rewrite string_app_nil_r|]. split; [constructor|].
           split; [set_solver|]. by intros d Hd%elem_of_nil.
         - intros d Hd. by apply not_elem_of_empty in Hd. }
       exists written. rewrite Htext. split; [done|]. split; [done|].
       unfold run. rewrite Hsaved. set_solver. }
  intros Hend Htidy.
  assert ((∃ written,
             output_file st = Some (text +:+ lines_text written)
             ∧ NoDup written
             ∧ saved_domains st = saved_domains st0 ∪ list_to_set written
             ∧ (∀ d, d ∈ written →
                     d ∉ saved_domains st0 ∧ clean d ∧ no_line_break d = true))
          ∧ (∀ d, d ∈ current_domains st → clean d ∧ no_line_break d = true))
    as [(written & Hfile & Hnodup & Hsaved & Hwritten) _].
  { unfold st, run. fold st0.
    apply (fold_perform_tidy_written text (saved_domains st0)); [done|].
    split.
    - exists []. split; [by rewrite string_app_nil_r|]. split; [constructor|].
      split; [set_solver|]. by intros d Hd%elem_of_nil.
    - intros d Hd. by apply not_elem_of_empty in Hd. }
  assert (∃ lines, split_lines text = lines ++ [""]
                   ∧ ∀ b, split_lines (text +:+ b) = lines ++ split_lines b)
    as (lines & Hlines & Happ).
  { destruct (decide (text = "")) as [->|Hne]; [by exists []|].
    by apply split_lines_app_closed. }
  exists lines, written. rewrite Htext.
  split; [done|]. split; [done|]. split.
  { rewrite Happ, split_lines_lines_text; [done|].
    apply Forall_forall. intros d Hd. by apply Hwritten. }
  split; [done|]. split; [|done].
  intros d Hd. destruct (Hwritten d Hd) as (Hnot & [Hne Hstrip] & _).
  split; [|done]. intros Hin. apply Hnot, Hread. split; [done|].
  exists d. split; [|done]. rewrite Hlines. by apply elem_of_app; left.
Qed.

Lemma restart_never_rewrites_existing_lines_witness :
  let page h := page_response "serverResponse" [JObj [("hostname", JStr h)]] JNull in
  let text := "a.com" +:+ String "010" "" in
  let actions := [Absorb (page " a.com"); Absorb (page "b.org "); Flush WriteOk;
                  Absorb (page "b.org"); Flush WriteOk] in
  ∃ lines written,
    split_lines text = lines ++ [""]
    ∧ output_file (run (Some text) ReadOk actions)
      = Some (text +:+ String.concat "" (map (λ d, d +:+ String "010" "") written))
    ∧ NoDup written
    ∧ (∀ d, d ∈ written → d ∉ lines).
Proof.
  intros page text actions.
  destruct (restart_never_rewrites_existing_lines text actions)
    as (_ & _ & _ & _ & _ & _ & _ & H & _).
  destruct H as (lines & written & Hlines & Hfile & _ & Hnodup & Hnew & _).
  - reflexivity.
  - repeat constructor; try discriminate;
      intros domains [= <-]; repeat constructor.
  - exists lines, written. split; [exact Hlines|]. split; [exact Hfile|].
    split; [exact Hnodup|]. intros d Hd. exact (proj1 (Hnew d Hd)).
Defined.

Lemma flush_one_new_record st r :
  new_domains st = {[r]} →
  output_file (save_current_results WriteOk st)
  = Some (default "" (output_file st) +:+ (r +:+ String "010" "")).
Proof.
  intros Hn. unfold save_current_results.
  assert (new_domains st ≠ ∅) as Hne.
  { rewrite Hn. intros H.
    assert (r ∈ (∅ : gset string)) as Hr by (rewrite <- H; set_solver).
    by apply not_elem_of_empty in Hr. }
  rewrite decide_False
    by (intros He; apply Hne; unfold new_domains; rewrite He; set_solver).
  rewrite decide_False by done. cbn [output_file].
  rewrite Hn, elements_singleton. reflexivity.
Qed.

Lemma run_absorb_flush text io data r :
  extract_domains_from_data data = Ok [r] →
  r ∉ saved_domains (initialize_saved_domains io (fresh_results (Some text))) →
  output_file (run (Some text) io [Absorb data; Flush WriteOk])
  = Some (text +:+ (r +:+ String "010" "")).
Proof.
  intros Hdata Hnew.
  set (st0 := initialize_saved_domains io (fresh_results (Some text))) in *.
  assert (current_domains st0 = ∅ ∧ output_file st0 = Some text) as [Hc Hf]
    by (by destruct io).
  change (run (Some text) io [Absorb data; Flush WriteOk])
    with (save_current_results WriteOk (perform st0 (Absorb data))).
  unfold perform. rewrite Hdata, decide_False by done.
  rewrite (flush_one_new_record _ r).
  - cbn [absorb output_file]. by rewrite Hf.
  - unfold new_domains. cbn [absorb current_domains saved_domains].
    rewrite Hc. set_solver.
Qed.

(** C7 as stated fails in two ways. A hostname with a line feed inside
    is one record and two lines: against a file that holds the line
    [a.com], the record made of [x], a line feed and [a.com] is new, and
    writing it puts the line [a.com] into the file a second time. And a file
    that cannot be read at start-up leaves [saved_domains] empty, so that a
    record the file holds is written again. *)
Lemma restart_rewrites_existing_line_counterexample :
  let page h := page_response "serverResponse" [JObj [("hostname", JStr h)]] JNull in
  let text := "a.com" +:+ String "010" "" in
  let inner := run (Some text) ReadOk
                 [Absorb (page ("x" +:+ String "010" "a.com")); Flush WriteOk] in
  let unread := run (Some text) ReadError [Absorb (page "a.com"); Flush WriteOk] in
  output_file inner
  = Some ("a.com" +:+ String "010" ("x" +:+ String "010" ("a.com" +:+ String "010" "")))
  ∧ split_lines (default "" (output_file inner)) = ["a.com"; "x"; "a.com"; ""]
  ∧ saved_domains (initialize_saved_domains ReadError (fresh_results (Some text))) = ∅
  ∧ output_file unread
    = Some ("a.com" +:+ String "010" ("a.com" +:+ String "010" ""))
  ∧ split_lines (default "" (output_file unread)) = ["a.com"; "a.com"; ""].
Proof.
  intros page text inner unread.
  assert (output_file inner
          = Some ("a.com" +:+ String "010"
                    ("x" +:+ String "010" ("a.com" +:+ String "010" "")))) as Hinner.
  { unfold inner.
    rewrite (run_absorb_flush text ReadOk _ ("x" +:+ String "010" "a.com"));
      [reflexivity|reflexivity|].
    change (saved_domains (initialize_saved_domains ReadOk (fresh_results (Some text))))
      with (list_to_set (C := gset string) (stripped_lines text)).
    rewrite elem_of_list_to_set.
    change (stripped_lines text) with ["a.com"].
    intros [H|H%elem_of_nil]%elem_of_cons; [discriminate|done]. }
  assert (output_file unread
          = Some ("a.com" +:+ String "010" ("a.com" +:+ String "010" ""))) as Hunread.
  { unfold unread.
    rewrite (run_absorb_flush text ReadError _ "a.com"); [reflexivity|reflexivity|].
    apply not_elem_of_empty. }
  split; [done|]. split; [by rewrite Hinner|]. split; [done|].
  split; [done|]. by rewrite Hunread.
Qed.

(** * Expiry of the session, on every response *)

Lemma has_expiry_marker_dict fields :
  has_expiry_marker (JObj fields) = Ok true ↔ is_marker (JObj fields).
Proof.
  rewrite has_expiry_marker_iff. unfold is_marker. split.
  - intros [(status & Hs & H401)|He]; exists fields; (split; [done|]).
    + left. by rewrite Hs, (py_eq_int_401 _ H401).
    + by right.
  - intros (fields' & [= <-] & [Hs|He]); [left|by right].
    by exists (JNum 401).
Qed.

Lemma has_expiry_marker_total fields :
  ∃ b : bool, has_expiry_marker (JObj fields) = Ok b.
Proof.
  unfold has_expiry_marker. simpl.
  destruct (py_eq_int _ 401); eexists; reflexivity.
Qed.

Lemma has_expiry_marker_Ok d b :
  has_expiry_marker d = Ok b → ∃ fields, d = JObj fields.
Proof. destruct d; try done. by eexists. Qed.

Lemma is_marker_dict d : is_marker d → ∃ fields, d = JObj fields.
Proof. intros (fields & -> & _). by exists fields. Qed.

Lemma branch_expired_dict name pp :
  branch_expired name (JObj pp) =
    match assoc name pp with
    | Some d => has_expiry_marker d
    | None => Ok false
    end.
Proof.
  destruct (assoc name pp) as [d|] eqn:E.
  - by apply branch_expired_marker.
  - by apply branch_expired_absent.
Qed.

Lemma is_session_expired_marker_found data :
  is_session_expired data = Ok true ↔ marker_found data.
Proof.
  split.
  - unfold is_session_expired. intros H.
    destruct (negb (truthy data)); [done|].
    bind_inv H. destruct v; [|done].
    bind_inv H. rename v into page_props.
    destruct data as [| | | | |top]; try done.
    simpl in E0. destruct (assoc "pageProps" top) as [pp'|] eqn:Etop; [|done].
    injection E0 as ->.
    assert (∃ pp, page_props = JObj pp) as [pp ->].
    { bind_inv H. destruct v.
      - destruct (branch_expired_true _ _ E0) as (pp & _ & -> & _). by exists pp.
      - bind_inv H. destruct v; [|done].
        destruct (branch_expired_true _ _ E1) as (pp & _ & -> & _). by exists pp. }
    exists top, pp. split; [done|]. split; [done|].
    rewrite !branch_expired_dict in H.
    destruct (assoc "apexDomainData" pp) as [apex|].
    + bind_inv H. destruct (has_expiry_marker_Ok _ _ E0) as [fields ->].
      destruct v.
      * left. by apply has_expiry_marker_dict.
      * right. split; [by exists fields|].
        destruct (assoc "dnsData" pp) as [dns|]; [|done].
        bind_inv H. destruct v; [|done].
        destruct (has_expiry_marker_Ok _ _ E1) as [dfields ->].
        exists (JObj dfields). split; [done|]. by apply has_expiry_marker_dict.
    + simpl in H. destruct (assoc "dnsData" pp) as [dns|]; [|done].
      bind_inv H. destruct v; [|done].
      destruct (has_expiry_marker_Ok _ _ E0) as [dfields ->].
      exists (JObj dfields). split; [done|]. by apply has_expiry_marker_dict.
  - intros (top & pp & -> & Htop & Hfound).
    rewrite (is_session_expired_page_props _ _ Htop), !branch_expired_dict.
    destruct (assoc "apexDomainData" pp) as [apex|].
    + destruct Hfound as [Hm|[[fields ->] (dns & Hdns & Hm)]].
      * destruct (is_marker_dict _ Hm) as [fields ->].
        by rewrite (proj2 (has_expiry_marker_dict fields) Hm).
      * destruct (has_expiry_marker_total fields) as [[|] ->]; [done|]. simpl.
        rewrite Hdns. destruct (is_marker_dict _ Hm) as [dfields ->].
        by rewrite (proj2 (has_expiry_marker_dict dfields) Hm).
    + destruct Hfound as (dns & Hdns & Hm). simpl. rewrite Hdns.
      destruct (is_marker_dict _ Hm) as [dfields ->].
      by rewrite (proj2 (has_expiry_marker_dict dfields) Hm).
Qed.

(** C4, amended. Expiry is looked for on both channels, on every
    response. In the body, [is_session_expired] answers yes exactly when a
    marker is there to be found: the status 401 or the error
    [session_expired] in an apexDomainData dict, or, where apexDomainData is
    absent or a dict without the marker, in a dnsData dict; serverResponse
    is not looked at, and a body with neither of the two branches is not
    expired whatever else it holds; on an apexDomainData that is no dict
    the inspection raises before it comes to dnsData. Validation fails on the status 401 and
    on a body with a marker; a body on which the inspection raises is passed
    over, and the session is valid on status 200. The fetch reloads the
    cookies on the status 401 and on a marker in the body of a response that
    is not an HTTP error; it returns the body where the inspection finds
    nothing, and nothing, without a reload, where the inspection raises. *)
Theorem session_expiry_checked_on_both_channels :
  (∀ data, is_session_expired data = Ok true ↔ marker_found data)
  ∧ (∀ top pp,
       assoc "pageProps" top = Some (JObj pp) →
       assoc "apexDomainData" pp = None →
       assoc "dnsData" pp = None →
       is_session_expired (JObj top) = Ok false)
  ∧ (∀ top pp apex,
       assoc "pageProps" top = Some (JObj pp) →
       assoc "apexDomainData" pp = Some apex →
       (∀ fields, apex ≠ JObj fields) →
       is_session_expired (JObj top) = Raise AttributeError)
  ∧ (∀ body, session_valid (Response 401 body) = false)
  ∧ (∀ status data,
       marker_found data → session_valid (Response status (Some data)) = false)
  ∧ (∀ status data e,
       is_session_expired data = Raise e →
       session_valid (Response status (Some data)) = (status =? 200)%Z)
  ∧ (∀ rt rv page search max_retries attempt rest c w status body,
       let req := PageRequest rt rv page (search_param search) c in
       let fetch := fetch_attempts rt rv page search max_retries in
       let w1 := (http_get req w).2 in
       network w (requests_made w) req = Response status body →
       fetch (attempt :: rest) c w =
         if (status =? 401)%Z then reload_then (fetch rest) w1
         else if (400 <=? status)%Z && (status <? 600)%Z then (Ok JNull, w1)
         else match body with
              | None => (Ok JNull, w1)
              | Some data =>
                  match is_session_expired data with
                  | Ok true => reload_then (fetch rest) w1
                  | Ok false => (Ok data, w1)
                  | Raise _ => (Ok JNull, w1)
                  end
              end).
Proof.
  split; [apply is_session_expired_marker_found|]. split.
  { intros top pp Htop Hapex Hdns.
    rewrite (is_session_expired_page_props _ _ Htop).
    by rewrite (branch_expired_absent _ _ Hapex), (branch_expired_absent _ _ Hdns). }
  split.
  { intros top pp apex Htop Hapex Hdict.
    rewrite (is_session_expired_page_props _ _ Htop).
    rewrite (branch_expired_marker _ _ _ Hapex).
    destruct apex; try done. by destruct (Hdict fields). }
  split; [done|]. split.
  { intros status data H%is_session_expired_marker_found. simpl. rewrite H.
    by destruct (status =? 401)%Z. }
  split.
  { intros status data e H. simpl. rewrite H.
    destruct (status =? 401)%Z eqn:E; [|done].
    apply Z.eqb_eq in E as ->. done. }
  intros rt rv page search max_retries attempt rest c w status body req fetch w1 Hnet.
  unfold fetch. simpl. rewrite M_bind_unfold.
  fold req. unfold http_get at 1. rewrite Hnet.
  fold (fetch_attempts rt rv page search max_retries rest).
  destruct (status =? 401)%Z; [done|].
  destruct ((400 <=? status)%Z && (status <? 600)%Z); [done|].
  destruct body as [data|]; [|done].
  by destruct (is_session_expired data) as [[|]|].
Qed.

Lemma session_expiry_checked_on_both_channels_witness :
  let body := JObj [("pageProps",
                     JObj [("apexDomainData", JObj [("data", JObj [])]);
                           ("dnsData", JObj [("error", JStr "session_expired")])])] in
  is_session_expired body = Ok true
  ∧ session_valid (Response 200 (Some body)) = false.
Proof.
  intros body.
  assert (marker_found body) as Hfound.
  { eexists _, _. split; [reflexivity|]. split; [reflexivity|]. simpl.
    right. split; [by eexists|]. eexists. split; [reflexivity|].
    eexists. split; [reflexivity|]. by right. }
  split.
  - by apply (proj1 session_expiry_checked_on_both_channels).
  - by apply (proj1 (proj2 (proj2 (proj2 (proj2
                session_expiry_checked_on_both_channels))))).
Defined.

(** C4 as stated fails for the serverResponse branch: a marker there is
    not seen, the session counts as valid and the fetch returns the body as
    data. It also fails for a body the inspection cannot read: with
    apexDomainData null the marker in dnsData is never reached, the
    inspection raises, the session counts as valid, and the fetch returns
    nothing after its one request, without a reload. *)
Lemma is_session_expired_server_response_counterexample :
  let marker := JObj [("status", JNum 401); ("error", JStr "session_expired")] in
  let body := JObj [("pageProps", JObj [("serverResponse", marker)])] in
  let broken := JObj [("pageProps", JObj [("apexDomainData", JNull);
                                          ("dnsData", marker)])] in
  let w := example_world (λ _ _, Response 200 (Some body)) (λ _, CookieFound "fresh") in
  let w' := example_world (λ _ _, Response 200 (Some broken))
                          (λ _, CookieFound "fresh") in
  let fetch := get_securitytrails_data "subdomain" "example.com" 1 None 5 "stale" in
  is_session_expired body = Ok false
  ∧ session_valid (Response 200 (Some body)) = true
  ∧ (fetch w).1 = Ok body
  ∧ is_session_expired broken = Raise AttributeError
  ∧ session_valid (Response 200 (Some broken)) = true
  ∧ (fetch w').1 = Ok JNull
  ∧ trace (fetch w').2
    = [EvRequest (PageRequest "subdomain" "example.com" 1 None "stale")]
  ∧ cookie_reads (fetch w').2 = 0%nat.
Proof. intros marker body broken w w' fetch. repeat split; reflexivity. Qed.

(** * The fetch, the reload and the caller *)

Lemma load_attempts_no_cookie max_retries attempts : ∀ w,
  no_cookie (cookie_file w) →
  (load_attempts max_retries attempts w).1 = Ok None.
Proof.
  induction attempts as [|attempt rest IH]; intros w Hfile; [done|].
  simpl. rewrite M_bind_unfold. unfold read_cookie_file at 1.
  destruct (cookie_file w (cookie_reads w)) as [v| |] eqn:E.
  - by destruct (Hfile _ _ E).
  - done.
  - destruct (attempt <? max_retries - 1)%nat; [|done].
    rewrite M_bind_unfold. unfold sleep at 1. by apply IH.
Qed.

Lemma reload_cookies_no_cookie w :
  no_cookie (cookie_file w) →
  ∃ w' evs, reload_cookies w = (Ok None, w') ∧ extends w w' evs
    ∧ Forall (λ e, is_plain e = true) evs ∧ page_requests evs = [].
Proof.
  intros Hfile. unfold reload_cookies, load_securitytrails_cookie.
  rewrite M_bind_unfold.
  pose proof (load_attempts_no_cookie 3 (seq 0 3) w Hfile) as Hnone.
  destruct (load_attempts_run 3 (seq 0 3) w)
    as (r & w1 & evs & Hrun & E & _ & _ & P & Q).
  rewrite Hrun in *. simpl in Hnone. injection Hnone as ->.
  by exists w1, evs.
Qed.

Lemma archive_entries_plain evs :
  Forall (λ e, is_plain e = true) evs → archive_entries evs = [].
Proof.
  induction 1 as [|e evs He _ IH]; [done|].
  destruct e; try done; exact IH.
Qed.

Section discovery_unauthorized.
Variables (resource_type resource_value : string).
Variables (search_term : option string) (max_retries : nat).

Let discover :=
  first_page_attempts resource_type resource_value search_term max_retries.
Let req (c : cookies) : request :=
  PageRequest resource_type resource_value 1 (search_param search_term) c.

(** Discovery in a world where the session always validates, every
    request for the page is answered by an authorization failure and the
    cookie file never holds a cookie: every turn fetches once, archives the
    fetch as one that gave no data, and sleeps. *)
Lemma first_page_attempts_unauthorized n : ∀ start c w,
  resource_type ∈ resource_types →
  always_valid (network w) →
  (∀ i c', authorization_failure (network w i (req c'))) →
  no_cookie (cookie_file w) →
  ∃ w' evs,
    discover (seq start n) c w = (Ok (JNull, JNum default_total_pages), w')
    ∧ extends w w' evs
    ∧ attempts_of evs = seq (S start) n
    ∧ page_requests evs = replicate n (req c)
    ∧ archive_entries evs
      = map (no_data_entry resource_type resource_value) (seq (S start) n)
    ∧ backoff_follows evs = true.
Proof.
  induction n as [|n IH]; intros start c w Htype Hvalid Hauth Hfile.
  { exists w, []. split; [done|]. split; [apply extends_refl|]. done. }
  unfold discover. simpl. rewrite M_bind_unfold.
  destruct (emit_run (EvAttempt (start + 1) max_retries) w) as (w1 & -> & E1 & _ & _).
  rewrite M_bind_unfold.
  destruct (validate_session_run c w1) as (w2 & -> & E2 & _).
  assert (network w1 = network w) as N1 by apply E1.
  rewrite N1, Hvalid. rewrite M_bind_unfold.
  change ((mret (Some c) : M (option cookies)) w2) with (Ok (Some c), w2).
  cbv beta iota. rewrite M_bind_unfold.
  unfold get_securitytrails_data. rewrite bool_decide_eq_true_2 by done.
  assert (network w2 = network w) as N2.
  { destruct E2 as (N & _ & _). by rewrite N. }
  assert (cookie_file w2 = cookie_file w) as C2.
  { destruct E1 as (_ & C1 & _), E2 as (_ & C & _). by rewrite C, C1. }
  change (seq 0 5) with (0%nat :: seq 1 4).
  rewrite (fetch_attempts_authorization_failure
             resource_type resource_value 1 search_term 5
             0%nat (seq 1 4) c w2 (http_get (req c) w2).2 eq_refl)
    by (rewrite N2; apply Hauth).
  destruct (http_get_run (req c) w2) as (w3 & Hget & E3 & _ & _).
  rewrite Hget. cbn [snd].
  unfold reload_then. rewrite M_bind_unfold.
  destruct (reload_cookies_no_cookie w3) as (w4 & evs4 & -> & E4 & P4 & Q4).
  { destruct E3 as (_ & C3 & _). by rewrite C3, C2. }
  change ((mret JNull : M json) w4) with (Ok JNull, w4).
  cbn [truthy]. cbv iota. unfold save_failed_response. rewrite M_bind_unfold.
  fold (no_data_entry resource_type resource_value (start + 1)).
  set (entry := no_data_entry resource_type resource_value (start + 1)).
  destruct (emit_run (EvArchive entry) w4) as (w5 & -> & E5 & _ & _).
  rewrite M_bind_unfold.
  destruct (sleep_run (wait_time start) w5) as (w6 & -> & E6 & _ & _).
  set (turn := [EvAttempt (start + 1) max_retries]
               ++ [EvRequest (ValidateRequest c)]
               ++ [EvRequest (req c)] ++ evs4
               ++ [EvArchive entry] ++ [EvSleep (wait_time start)]).
  assert (extends w w6 turn) as E06.
  { apply (extends_trans w w1 w6); [done|].
    apply (extends_trans w1 w2 w6); [done|].
    apply (extends_trans w2 w3 w6); [done|].
    apply (extends_trans w3 w4 w6); [done|].
    by apply (extends_trans w4 w5 w6). }
  destruct (IH (S start) c w6) as (w' & rest & Hrun & E & Hatt & Hreq & Harch & Hback);
    [done| | | |].
  { destruct E06 as (N & _ & _). by rewrite N. }
  { destruct E06 as (N & _ & _). by rewrite N. }
  { destruct E06 as (_ & C & _). by rewrite C. }
  fold discover. rewrite Hrun.
  exists w', (turn ++ rest). split; [done|].
  split; [by apply (extends_trans w w6 w')|].
  assert (Forall (λ e, is_plain e = true)
                 ([EvRequest (ValidateRequest c)] ++ [EvRequest (req c)] ++ evs4))
    as Hplain.
  { apply Forall_app. split; [by constructor|].
    apply Forall_app. split; [by constructor|done]. }
  unfold turn, attempts_of, page_requests, archive_entries.
  rewrite !omap_app.
  fold (attempts_of evs4) (attempts_of rest).
  fold (page_requests evs4) (page_requests rest).
  fold (archive_entries evs4) (archive_entries rest).
  rewrite (attempts_of_plain _ P4), (archive_entries_plain _ P4), Q4.
  rewrite Hatt, Hreq, Harch. simpl.
  split; [by rewrite Nat.add_1_r|]. split; [done|].
  split; [unfold entry; by rewrite Nat.add_1_r|].
  rewrite <- app_assoc, (backoff_follows_plain evs4) by done.
  simpl. unfold wait_time, entry. simpl.
  rewrite (proj2 (Z.eqb_eq _ _)) by (simpl; lia). by rewrite Hback.
Qed.

End discovery_unauthorized.

(** C3, amended. On an authorization failure followed by a successful
    reload the fetch goes on with the same page and the new cookies, on the
    turns of the loop that are left: the retry uses up a turn of the one
    loop that transport failures share, and a fetch makes at most
    [max_retries] page requests in all, every one for the same page. When
    the reload fails the fetch returns [None] at once, as it does for any
    other failure. Its caller in discovery does not give the task up on
    that: where the session always validates, every request for the first
    page is answered by an authorization failure and the cookie file holds
    no cookie, discovery fetches the page once in each of its attempts,
    archives each attempt as one that gave no data, waits, and ends after
    the last attempt in the fallback. *)
Theorem fetch_retry_after_reload_shares_budget
    (resource_type resource_value : string) (page : Z)
    (search_term : option string) (max_retries : nat) (c : cookies) (w : world) :
  let fetch := fetch_attempts resource_type resource_value page search_term
                              max_retries in
  let req c := PageRequest resource_type resource_value page
                           (search_param search_term) c in
  (∀ attempt rest c' w2,
     authorization_failure (network w (requests_made w) (req c)) →
     reload_cookies (http_get (req c) w).2 = (Ok (Some c'), w2) →
     fetch (attempt :: rest) c w = fetch rest c' w2)
  ∧ (∀ attempt rest w2,
       authorization_failure (network w (requests_made w) (req c)) →
       reload_cookies (http_get (req c) w).2 = (Ok None, w2) →
       fetch (attempt :: rest) c w = (Ok JNull, w2))
  ∧ (∃ data w' evs,
       get_securitytrails_data resource_type resource_value page search_term
                               max_retries c w = (Ok data, w')
       ∧ extends w w' evs
       ∧ (length (page_requests evs) ≤ max_retries)%nat
       ∧ Forall (λ r, ∃ c', r = req c') (page_requests evs))
  ∧ (∀ attempts c0 w0,
       resource_type ∈ resource_types →
       always_valid (network w0) →
       (∀ i c', authorization_failure
                  (network w0 i (PageRequest resource_type resource_value 1
                                             (search_param search_term) c'))) →
       no_cookie (cookie_file w0) →
       ∃ w' evs,
         get_first_page_with_retry resource_type resource_value search_term
                                   attempts c0 w0
         = (Ok (JNull, JNum default_total_pages), w')
         ∧ trace w' = trace w0 ++ evs
         ∧ attempts_of evs = seq 1 attempts
         ∧ page_requests evs
           = replicate attempts
               (PageRequest resource_type resource_value 1
                            (search_param search_term) c0)
         ∧ archive_entries evs
           = map (no_data_entry resource_type resource_value) (seq 1 attempts)
         ∧ backoff_follows evs = true).
Proof.
  intros fetch req. split; [|split; [|split]].
  - intros attempt rest c' w2 Hauth Hreload. unfold fetch.
    rewrite (fetch_attempts_authorization_failure _ _ _ _ _ attempt rest c w
               (http_get (req c) w).2 eq_refl Hauth).
    unfold reload_then. by rewrite M_bind_unfold, Hreload.
  - intros attempt rest w2 Hauth Hreload. unfold fetch.
    rewrite (fetch_attempts_authorization_failure _ _ _ _ _ attempt rest c w
               (http_get (req c) w).2 eq_refl Hauth).
    unfold reload_then. by rewrite M_bind_unfold, Hreload.
  - unfold get_securitytrails_data. case_bool_decide.
    + destruct (fetch_attempts_run resource_type resource_value page search_term
                  max_retries (seq 0 max_retries) c w)
        as (data & w' & evs & Hrun & E & _ & Hlen & Hreq).
      exists data, w', evs. rewrite length_seq in Hlen. done.
    + exists JNull, w, []. split; [done|]. split; [apply extends_refl|].
      split; [simpl; lia|done].
  - intros attempts c0 w0 Htype Hvalid Hauth Hfile.
    destruct (first_page_attempts_unauthorized
                resource_type resource_value search_term attempts attempts
                0 c0 w0 Htype Hvalid Hauth Hfile)
      as (w' & evs & Hrun & E & Hatt & Hreq & Harch & Hback).
    exists w', evs. split; [done|]. split; [apply E|]. done.
Qed.

Lemma fetch_retry_after_reload_shares_budget_witness :
  let w := example_world (λ _ r, match r with
                                 | ValidateRequest _ => Response 200 None
                                 | _ => Response 401 None
                                 end)
                         (λ _, CookieAbsent) in
  ∃ w' evs,
    get_first_page_with_retry "subdomain" "example.com" None 3 "stale" w
    = (Ok (JNull, JNum default_total_pages), w')
    ∧ trace w' = trace w ++ evs
    ∧ attempts_of evs = seq 1 3
    ∧ page_requests evs
      = replicate 3 (PageRequest "subdomain" "example.com" 1 None "stale")
    ∧ archive_entries evs = map (no_data_entry "subdomain" "example.com") (seq 1 3)
    ∧ backoff_follows evs = true.
Proof.
  intros w.
  apply (proj2 (proj2 (proj2 (fetch_retry_after_reload_shares_budget
                                "subdomain" "example.com" 1 None 5 "stale" w)))).
  - apply list_elem_of_here.
  - intros n c. reflexivity.
  - intros i c'. left. reflexivity.
  - intros i value. discriminate.
Defined.

(** C3 as stated fails on both counts. The retry after a reload is a
    turn of the loop like any other: with two turns configured, a 401
    answered by a successful reload leaves one turn, so the connection error
    that follows is not retried, and the failure in transport got one
    attempt, not two. And the caller does not abandon the task when the
    reload fails: the fetch of the first attempt ends on a 401 and a reload
    that finds no cookie, discovery archives the attempt, waits, fetches the
    same page again in its second attempt and returns what it got. *)
Lemma fetch_reload_uses_retry_budget_counterexample :
  (let w := example_world
              (λ n _, match n with
                      | 0 => Response 401 None
                      | 1 => Response 200 None
                      | _ => ConnectionError
                      end)
              (λ _, CookieFound "fresh") in
   let run := get_securitytrails_data "subdomain" "example.com" 7 None 2 "stale" w in
   run.1 = Ok JNull
   ∧ trace run.2 =
       [EvRequest (PageRequest "subdomain" "example.com" 7 None "stale");
        EvRequest (ValidateRequest "fresh");
        EvRequest (PageRequest "subdomain" "example.com" 7 None "fresh")])
  ∧ (let good := page_response "apexDomainData" [JObj [("hostname", JStr "a.com")]]
                   (JObj [("total_pages", JNum 3)]) in
     let w := example_world
                (λ n r, match r with
                        | ValidateRequest _ => Response 200 None
                        | _ => if (n <? 2)%nat then Response 401 None
                               else Response 200 (Some good)
                        end)
                (λ _, CookieAbsent) in
     let fetch := get_securitytrails_data "subdomain" "example.com" 1 None 5 "stale" in
     let run := get_first_page_with_retry "subdomain" "example.com" None 10 "stale" w in
     (fetch (validate_session "stale" w).2).1 = Ok JNull
     ∧ run.1 = Ok (good, JNum 3)
     ∧ trace run.2 =
         [EvAttempt 1 10;
          EvRequest (ValidateRequest "stale");
          EvRequest (PageRequest "subdomain" "example.com" 1 None "stale");
          EvArchive (no_data_entry "subdomain" "example.com" 1);
          EvSleep 2;
          EvAttempt 2 10;
          EvRequest (ValidateRequest "stale");
          EvRequest (PageRequest "subdomain" "example.com" 1 None "stale")]).
Proof. split; [split; reflexivity|]. split; [|split]; reflexivity. Qed.

(** * The discovery run, attempt by attempt *)

(** ** Every request is counted *)

Lemma counted_extends w w' evs :
  counted w w' → extends w w' evs →
  requests_made w' = (requests_made w + length (requests_of evs))%nat.
Proof.
  unfold counted. intros H (_ & _ & T). rewrite T in H.
  unfold requests_of in *. rewrite omap_app, length_app in H. lia.
Qed.

Lemma keeps_count_ret {A} (a : A) : keeps_count (mret a).
Proof. intros w. reflexivity. Qed.

Lemma keeps_count_bind {A B} (m : M A) (f : A → M B) :
  keeps_count m → (∀ a, keeps_count (f a)) → keeps_count (m ≫= f).
Proof.
  intros Hm Hf w. rewrite M_bind_unfold. specialize (Hm w).
  destruct (m w) as [[a|e] w1]; [|done].
  specialize (Hf a w1). simpl in Hm. unfold counted in *. lia.
Qed.

Lemma keeps_count_lift {A} (r : result A) : keeps_count (lift r).
Proof. intros w. reflexivity. Qed.

Lemma keeps_count_emit e :
  requests_of [e] = [] → keeps_count (emit e).
Proof.
  intros He w. unfold counted, emit. simpl.
  unfold requests_of in *. rewrite omap_app, length_app, He. simpl. lia.
Qed.

Lemma keeps_count_sleep seconds : keeps_count (sleep seconds).
Proof.
  intros w. unfold counted, sleep. simpl.
  unfold requests_of. rewrite omap_app, length_app. simpl. lia.
Qed.

Lemma keeps_count_http_get r : keeps_count (http_get r).
Proof.
  intros w. unfold counted, http_get. simpl.
  unfold requests_of. rewrite omap_app, length_app. simpl. lia.
Qed.

Lemma keeps_count_read_cookie_file : keeps_count read_cookie_file.
Proof. intros w. reflexivity. Qed.

Lemma keeps_count_install_cookies c : keeps_count (install_cookies c).
Proof. intros w. reflexivity. Qed.

Lemma keeps_count_load_attempts max_retries attempts :
  keeps_count (load_attempts max_retries attempts).
Proof.
  induction attempts as [|attempt rest IH]; [apply keeps_count_ret|].
  simpl. apply keeps_count_bind; [apply keeps_count_read_cookie_file|].
  intros [value| |]; try apply keeps_count_ret.
  destruct (attempt <? max_retries - 1)%nat; [|apply keeps_count_ret].
  apply keeps_count_bind; [apply keeps_count_sleep|]. by intros _.
Qed.

Lemma keeps_count_validate_session c : keeps_count (validate_session c).
Proof.
  apply keeps_count_bind; [apply keeps_count_http_get|].
  intros outcome. apply keeps_count_ret.
Qed.

Lemma keeps_count_reload_cookies : keeps_count reload_cookies.
Proof.
  apply keeps_count_bind; [apply keeps_count_load_attempts|].
  intros [c|]; [|apply keeps_count_ret].
  apply keeps_count_bind; [apply keeps_count_validate_session|].
  intros [|]; [|apply keeps_count_ret].
  apply keeps_count_bind; [apply keeps_count_install_cookies|].
  intros _. apply keeps_count_ret.
Qed.

Lemma keeps_count_fetch_attempts rt rv page search max_retries attempts : ∀ c,
  keeps_count (fetch_attempts rt rv page search max_retries attempts c).
Proof.
  induction attempts as [|attempt rest IH]; intros c; [apply keeps_count_ret|].
  assert (keeps_count
            (reload_cookies ≫= λ new_cookies : option cookies,
               match new_cookies with
               | Some c' => fetch_attempts rt rv page search max_retries rest c'
               | None => mret JNull
               end)) as Hreload.
  { apply keeps_count_bind; [apply keeps_count_reload_cookies|].
    intros [c'|]; [apply IH|apply keeps_count_ret]. }
  simpl. apply keeps_count_bind; [apply keeps_count_http_get|].
  intros [| |status body]; [|apply keeps_count_ret|].
  - destruct (attempt <? max_retries - 1)%nat; [|apply keeps_count_ret].
    apply keeps_count_bind; [apply keeps_count_sleep|]. intros _. apply IH.
  - destruct (status =? 401)%Z; [exact Hreload|].
    destruct ((400 <=? status)%Z && (status <? 600)%Z); [apply keeps_count_ret|].
    destruct body as [data|]; [|apply keeps_count_ret].
    destruct (is_session_expired data) as [[|]|];
      [exact Hreload|apply keeps_count_ret|apply keeps_count_ret].
Qed.

Lemma keeps_count_get_securitytrails_data rt rv page search max_retries c :
  keeps_count (get_securitytrails_data rt rv page search max_retries c).
Proof.
  unfold get_securitytrails_data. case_bool_decide.
  - apply keeps_count_fetch_attempts.
  - apply keeps_count_ret.
Qed.

(** ** The reload, seen from outside *)

Lemma load_attempts_sleeps max_retries attempts : ∀ w,
  ∃ sleeps found w',
    load_attempts max_retries attempts w = (Ok found, w')
    ∧ extends w w' (replicate sleeps (EvSleep 2)).
Proof.
  induction attempts as [|attempt rest IH]; intros w.
  { exists 0%nat, None, w. split; [done|]. apply extends_refl. }
  simpl. rewrite M_bind_unfold. unfold read_cookie_file at 1.
  set (w1 := {| network := network w; requests_made := requests_made w;
                cookie_file := cookie_file w; cookie_reads := S (cookie_reads w);
                now := now w; current_cookies := current_cookies w;
                last_cookie_reload_time := last_cookie_reload_time w;
                trace := trace w |}).
  assert (extends w w1 []) as Hw1
    by (unfold extends; simpl; by rewrite app_nil_r).
  destruct (cookie_file w (cookie_reads w)) as [value| |].
  - by exists 0%nat, (Some value), w1.
  - by exists 0%nat, None, w1.
  - destruct (attempt <? max_retries - 1)%nat; [|by exists 0%nat, None, w1].
    rewrite M_bind_unfold.
    destruct (sleep_run 2 w1) as (w2 & -> & H2 & _ & _).
    destruct (IH w2) as (sleeps & found & w3 & -> & H3).
    exists (S sleeps), found, w3. split; [done|].
    apply (extends_trans w w1 w3 [] (EvSleep 2 :: replicate sleeps (EvSleep 2)));
      [done|].
    by apply (extends_trans w1 w2 w3 [EvSleep 2%Z]).
Qed.

Lemma requests_of_sleeps sleeps : requests_of (replicate sleeps (EvSleep 2)) = [].
Proof. induction sleeps as [|n IH]; [done|]. exact IH. Qed.

Lemma reload_cookies_shape w :
  ∃ sleeps found w',
    reload_cookies w =
      (Ok match found with
          | Some c' =>
              if session_valid (network w (requests_made w) (ValidateRequest c'))
              then Some c' else None
          | None => None
          end, w')
    ∧ extends w w' (replicate sleeps (EvSleep 2)
                    ++ match found with
                       | Some c' => [EvRequest (ValidateRequest c')]
                       | None => []
                       end).
Proof.
  unfold reload_cookies, load_securitytrails_cookie. rewrite M_bind_unfold.
  pose proof (keeps_count_load_attempts 3 (seq 0 3) w) as Hcount.
  destruct (load_attempts_sleeps 3 (seq 0 3) w) as (sleeps & found & w1 & Hrun & E1).
  rewrite Hrun in *. cbn [snd] in Hcount.
  pose proof (counted_extends _ _ _ Hcount E1) as R1.
  rewrite requests_of_sleeps in R1. simpl in R1. rewrite Nat.add_0_r in R1.
  exists sleeps, found. destruct found as [c'|].
  - rewrite M_bind_unfold.
    destruct (validate_session_run c' w1) as (w2 & -> & E2 & _).
    assert (network w1 = network w) as N1 by apply E1.
    rewrite N1, R1.
    destruct (session_valid _).
    + rewrite M_bind_unfold. unfold install_cookies at 1.
      eexists. split; [reflexivity|].
      destruct E1 as (N1' & C1 & T1), E2 as (N2 & C2 & T2).
      unfold extends. simpl. rewrite N2, C2, T2, T1, app_assoc. done.
    + exists w2. split; [done|]. by apply (extends_trans w w1 w2).
  - exists w1. split; [done|]. by rewrite app_nil_r.
Qed.

(** ** The attempts of a discovery *)

Section discovery_trace_facts.
Variable w0 : world.
Variables (resource_type resource_value : string).
Variables (search_term : option string) (max_retries : nat).

Let discover :=
  first_page_attempts resource_type resource_value search_term max_retries.
Let shape :=
  discovery_trace w0 resource_type resource_value search_term max_retries.

Lemma get_securitytrails_data_fetch_events c w :
  network w = network w0 →
  ∃ data w' evs,
    get_securitytrails_data resource_type resource_value 1 search_term 5 c w
    = (Ok data, w')
    ∧ extends w w' evs
    ∧ fetch_events w0 resource_type resource_value search_term
                   (requests_made w) evs data.
Proof.
  intros Hnet.
  pose proof (keeps_count_get_securitytrails_data
                resource_type resource_value 1 search_term 5 c w) as Hcount.
  unfold get_securitytrails_data in *. case_bool_decide.
  - destruct (fetch_attempts_run resource_type resource_value 1 search_term 5
                (seq 0 5) c w) as (data & w' & evs & Hrun & E & P & Hlen & Hreq).
    destruct (fetch_attempts_checked resource_type resource_value 1 search_term 5
                (seq 0 5) c w) as (data' & w'' & Hrun' & _ & _ & _ & Hchk).
    rewrite Hrun in Hrun'. injection Hrun' as <- <-.
    rewrite Hrun in Hcount. cbn [snd] in Hcount.
    exists data, w', evs. split; [done|]. split; [done|].
    split; [done|]. split; [done|]. split; [done|].
    intros Hdata. rewrite <- (counted_extends _ _ _ Hcount E).
    destruct (Hchk Hdata) as (n & c' & status & Hn & Hans & Hrest).
    exists n, c', status. split; [done|]. split; [by rewrite <- Hnet|done].
  - exists JNull, w, []. split; [done|]. split; [apply extends_refl|].
    split; [done|]. split; [simpl; lia|]. split; [done|]. done.
Qed.

(** The session of a turn: the validation and, where it fails, the
    reload. *)
Lemma session_turn c w :
  network w = network w0 →
  ∃ session w' evs,
    (validate_session c ≫= λ valid : bool,
       if valid then mret (Some c) else reload_cookies) w = (Ok session, w')
    ∧ extends w w' evs
    ∧ requests_made w' = (requests_made w + length (requests_of evs))%nat
    ∧ session_events w0 (requests_made w) c evs session.
Proof.
  intros Hnet. rewrite M_bind_unfold.
  pose proof (keeps_count_validate_session c w) as Hcount.
  destruct (validate_session_run c w) as (w1 & Hrun & E1 & _).
  rewrite Hrun in *. cbn [snd] in Hcount.
  pose proof (counted_extends _ _ _ Hcount E1) as R1. simpl in R1.
  unfold session_events. rewrite <- Hnet.
  destruct (session_valid _) eqn:Hvalid.
  - exists (Some c), w1, [EvRequest (ValidateRequest c)].
    split; [done|]. split; [done|]. split; [done|]. done.
  - pose proof (keeps_count_reload_cookies w1) as Hcount'.
    destruct (reload_cookies_shape w1) as (sleeps & found & w2 & Hreload & E2).
    rewrite Hreload in Hcount'. cbn [snd] in Hcount'.
    pose proof (counted_extends _ _ _ Hcount' E2) as R2.
    assert (network w1 = network w) as N1 by apply E1.
    cbv iota. rewrite Hreload, N1, R1, Nat.add_1_r.
    eexists _, w2, _. split; [reflexivity|].
    split; [exact (extends_trans _ _ _ _ _ E1 E2)|].
    split.
    { rewrite R2, R1. unfold requests_of. rewrite !omap_app, !length_app.
      simpl. lia. }
    by exists sleeps, found.
Qed.

Lemma first_page_attempts_trace n : ∀ k c w,
  (k + n)%nat = max_retries → network w = network w0 →
  ∃ r w' evs,
    discover (seq k n) c w = (r, w')
    ∧ extends w w' evs
    ∧ shape (requests_made w) k c evs r.
Proof.
  induction n as [|n IH]; intros k c w Hk Hnet.
  { exists (Ok (JNull, JNum default_total_pages)), w, [].
    split; [done|]. split; [apply extends_refl|].
    replace k with max_retries by lia. constructor. }
  assert (k < max_retries)%nat as Hlt by lia.
  unfold discover. simpl. replace (k + 1)%nat with (S k) by lia.
  rewrite M_bind_unfold.
  destruct (emit_run (EvAttempt (S k) max_retries) w) as (w1 & -> & E1 & _ & R1).
  assert (network w1 = network w0) as N1
    by (destruct E1 as (N & _ & _); by rewrite N).
  (* the session *)
  change (∃ r w' evs,
            ((validate_session c ≫= λ valid : bool,
                if valid then mret (Some c) else reload_cookies)
             ≫= λ new_cookies : option cookies,
                 match new_cookies with
                 | None => discover (seq (S k) n) c
                 | Some c' =>
                     get_securitytrails_data resource_type resource_value 1
                                             search_term 5 c'
                     ≫= λ first_page_data : json,
                       if truthy first_page_data then
                         lift (get_total_pages_from_data first_page_data)
                         ≫= λ total_pages : json,
                           if py_eq_int total_pages default_total_pages then
                             lift (is_legitimate_100_pages first_page_data)
                             ≫= λ legitimate : bool,
                               if legitimate
                               then mret (first_page_data, total_pages)
                               else
                                 save_failed_response resource_type resource_value
                                   (S k) first_page_data
                                   "total_pages_detection_failed"
                                 ≫= λ _ : (), sleep (wait_time k)
                                 ≫= λ _ : (), discover (seq (S k) n) c'
                           else mret (first_page_data, total_pages)
                       else
                         save_failed_response resource_type resource_value (S k)
                           (JObj [("error", JStr "no_data_received")])
                           "no_data_received"
                         ≫= λ _ : (), sleep (wait_time k)
                         ≫= λ _ : (), discover (seq (S k) n) c'
                 end) w1 = (r, w')
            ∧ extends w w' evs
            ∧ shape (requests_made w) k c evs r).
  rewrite M_bind_unfold.
  destruct (session_turn c w1 N1) as (session & w3 & sevs & -> & E3 & R3 & Hsession).
  rewrite R1 in R3, Hsession.
  assert (extends w w3 ([EvAttempt (S k) max_retries] ++ sevs)) as E03
    by exact (extends_trans _ _ _ _ _ E1 E3).
  assert (network w3 = network w0) as N3
    by (destruct E03 as (N & _ & _); by rewrite N).
  destruct session as [c'|].
  2: { (* no session: the attempt is given up *)
    destruct (IH (S k) c w3) as (r & w' & rest & Hrun & E & Hshape); [lia|done|].
    rewrite Hrun. exists r, w', (EvAttempt (S k) max_retries :: sevs ++ rest).
    split; [done|]. split; [exact (extends_trans _ _ _ _ _ E03 E)|].
    apply discovery_skipped; [done|done|]. by rewrite <- R3. }
  (* the fetch *)
  rewrite M_bind_unfold.
  destruct (get_securitytrails_data_fetch_events c' w3 N3)
    as (data & w4 & fevs & Hfetch & E4 & Hfevs).
  pose proof (keeps_count_get_securitytrails_data
                resource_type resource_value 1 search_term 5 c' w3) as Hcount.
  rewrite Hfetch in *. cbn [snd] in Hcount.
  pose proof (counted_extends _ _ _ Hcount E4) as R4.
  rewrite R3 in Hfevs, R4.
  assert (extends w w4 ([EvAttempt (S k) max_retries] ++ sevs ++ fevs)) as E04.
  { apply (extends_as _ _ _ _ (extends_trans _ _ _ _ _ E03 E4)).
    by rewrite <- !app_assoc. }
  assert (wait_time k = (2 * Z.of_nat (S k))%Z) as Hwait
    by (unfold wait_time; lia).
  (* an attempt that fails: archive, sleep, next attempt *)
  assert (∀ error_type saved,
            rejected data error_type saved →
            ∃ r w' evs,
              (save_failed_response resource_type resource_value (S k)
                                    saved error_type
               ≫= λ _ : (), sleep (wait_time k)
               ≫= λ _ : (), discover (seq (S k) n) c') w4 = (r, w')
              ∧ extends w w' evs
              ∧ shape (requests_made w) k c evs r) as Hfail.
  { intros error_type saved Hrej.
    unfold save_failed_response. rewrite M_bind_unfold.
    set (entry := {| fr_resource_type := resource_type;
                     fr_resource_value := resource_value;
                     fr_attempt := S k;
                     fr_error_type := error_type;
                     fr_response_data := saved |}).
    destruct (emit_run (EvArchive entry) w4) as (w5 & -> & E5 & _ & R5).
    rewrite M_bind_unfold.
    destruct (sleep_run (wait_time k) w5) as (w6 & -> & E6 & _ & R6).
    assert (extends w w6 (([EvAttempt (S k) max_retries] ++ sevs ++ fevs)
                            ++ [EvArchive entry] ++ [EvSleep (wait_time k)]))
      as E06.
    { apply (extends_trans w w4 w6); [done|]. by apply (extends_trans w4 w5 w6). }
    destruct (IH (S k) c' w6) as (r & w' & rest & Hrun & E & Hshape); [lia| |].
    { destruct E06 as (N & _ & _). by rewrite N. }
    rewrite Hrun.
    exists r, w',
      (EvAttempt (S k) max_retries :: sevs ++ fevs
         ++ [EvArchive entry; EvSleep (2 * Z.of_nat (S k))] ++ rest).
    split; [done|]. split.
    { apply (extends_as _ _ _ _ (extends_trans _ _ _ _ _ E06 E)).
      rewrite Hwait. simpl. by rewrite <- !app_assoc. }
    apply discovery_failed with (c' := c') (data := data); try done.
    rewrite R6, R5, R4 in Hshape.
    unfold requests_of in *. rewrite omap_app, length_app.
    by rewrite Nat.add_assoc. }
  destruct (truthy data) eqn:Htruthy.
  2: { apply Hfail. left. done. }
  rewrite M_bind_unfold. unfold lift at 1.
  destruct (get_total_pages_from_data data) as [total_pages|e] eqn:Hpages.
  2: { exists (Raise e), w4, (EvAttempt (S k) max_retries :: sevs ++ fevs).
       split; [done|]. split; [done|].
       apply discovery_raised with (c' := c') (data := data); try done.
       split; [done|]. by left. }
  destruct (py_eq_int total_pages default_total_pages) eqn:Hceiling.
  - rewrite M_bind_unfold. unfold lift at 1.
    destruct (is_legitimate_100_pages data) as [[|]|e] eqn:Hlegit.
    + exists (Ok (data, total_pages)), w4,
        (EvAttempt (S k) max_retries :: sevs ++ fevs).
      split; [done|]. split; [done|].
      by apply discovery_returned with (c' := c').
    + apply Hfail. right. split; [done|]. split; [by exists total_pages|done].
    + exists (Raise e), w4, (EvAttempt (S k) max_retries :: sevs ++ fevs).
      split; [done|]. split; [done|].
      apply discovery_raised with (c' := c') (data := data); try done.
      split; [done|]. right. split; [by exists total_pages|done].
  - exists (Ok (data, total_pages)), w4,
      (EvAttempt (S k) max_retries :: sevs ++ fevs).
    split; [done|]. split; [done|].
    apply discovery_returned with (c' := c'); try done.
    split; [done|]. split; [done|]. intros Hc. congruence.
Qed.

End discovery_trace_facts.

(** ** What the count of 100 rests on *)

Lemma py_len_nonempty v n : py_len v = Ok n → (0 < n)%nat → nonempty_value v.
Proof.
  destruct v as [| | |s|items|fields]; try done; simpl; intros [= <-] Hn.
  - right. left. destruct s as [|c s]; [simpl in Hn; lia|]. by exists c, s.
  - left. destruct items as [|item items]; [simpl in Hn; lia|]. by exists item, items.
  - right. right. destruct fields as [|field fields]; [simpl in Hn; lia|].
    by exists field, fields.
Qed.

Lemma branch_legitimate_ceiling_signal name page_props :
  branch_legitimate name page_props = Ok true →
  ∃ bdata meta,
    branch_data name page_props = Ok bdata
    ∧ py_getitem bdata "meta" = Ok meta
    ∧ ((∃ v, py_getitem meta "limit_reached" = Ok v ∧ truthy v = true)
       ∨ (∃ records, py_getitem bdata "records" = Ok records
                     ∧ nonempty_value records)).
Proof.
  unfold branch_legitimate. intros H.
  bind_inv H. destruct v; [|done].
  bind_inv H. rename v into bdata.
  bind_inv H. destruct v; [|done].
  bind_inv H. rename v into meta. exists bdata, meta.
  split; [done|]. split; [done|].
  bind_inv H. destruct v.
  - left. unfold flag_set in E3. apply py_and_true in E3 as [_ Hflag].
    bind_inv Hflag. exists v. split; [done|]. by injection Hflag.
  - right. unfold has_some in H. apply py_and_true in H as [_ Hsome].
    bind_inv Hsome. bind_inv Hsome. exists v. split; [done|].
    injection Hsome as Hlt. apply Nat.ltb_lt in Hlt.
    by apply (py_len_nonempty _ v0).
Qed.

Lemma is_legitimate_100_pages_ceiling_signal data :
  is_legitimate_100_pages data = Ok true → ceiling_signal data.
Proof.
  unfold is_legitimate_100_pages. intros H.
  bind_inv H. destruct v; [done|].
  bind_inv H. rename v into page_props.
  bind_inv H. destruct v.
  - destruct (branch_legitimate_ceiling_signal _ _ E1) as (bdata & meta & Hb & Hm & Hs).
    exists "apexDomainData", page_props, bdata, meta. split; [by left|done].
  - bind_inv H. destruct v; [|done].
    destruct (branch_legitimate_ceiling_signal _ _ E2) as (bdata & meta & Hb & Hm & Hs).
    exists "serverResponse", page_props, bdata, meta. split; [by right|done].
Qed.

Lemma is_legitimate_100_pages_nonempty name records meta_fields :
  name = "apexDomainData" ∨ name = "serverResponse" →
  nonempty_value records →
  is_legitimate_100_pages
    (JObj [("pageProps",
            JObj [(name, JObj [("data", JObj [("records", records);
                                              ("meta", JObj meta_fields)])])])])
  = Ok true.
Proof.
  intros Hname Hne.
  assert (has_some "records" (JObj [("records", records); ("meta", JObj meta_fields)])
          = Ok true) as Hsome.
  { destruct Hne as [(x & l & ->)|[(x & l & ->)|(x & l & ->)]]; reflexivity. }
  assert (∃ b : bool, flag_set "limit_reached" (JObj meta_fields) = Ok b) as [b Hflag].
  { unfold flag_set, py_and.
    destruct (assoc "limit_reached" meta_fields) as [v|] eqn:E.
    - rewrite (py_in_obj_Some _ _ _ E). simpl. rewrite E. by eexists.
    - rewrite (py_in_obj_None _ _ E). by eexists. }
  destruct Hname as [-> | ->].
  - unfold is_legitimate_100_pages. simpl.
    unfold branch_legitimate at 1. simpl. rewrite Hflag. simpl.
    destruct b; [done|]. by rewrite Hsome.
  - unfold is_legitimate_100_pages. simpl.
    unfold branch_legitimate. simpl. rewrite Hflag. simpl.
    destruct b; [done|]. by rewrite Hsome.
Qed.

(** ** What the shape of a run says about its end *)

Section discovery_shape_facts.
Variable w0 : world.
Variables (resource_type resource_value : string).
Variables (search_term : option string) (max_retries : nat).

Let shape :=
  discovery_trace w0 resource_type resource_value search_term max_retries.

Lemma session_events_plain i c evs session :
  session_events w0 i c evs session → Forall (λ e, is_plain e = true) evs.
Proof.
  unfold session_events. destruct (session_valid _).
  - intros [-> _]. by repeat constructor.
  - intros (sleeps & found & -> & _). constructor; [done|].
    apply Forall_app. split.
    + apply Forall_forall. by intros e [-> _]%elem_of_replicate.
    + destruct found; by repeat constructor.
Qed.

(** A run ends in the fallback after all its attempts, or in its last
    attempt: with data that discovery accepts and that the fetch of this
    attempt gave, or with the exception that reading them raised. *)
Lemma discovery_trace_end i k c evs r :
  shape i k c evs r →
  ∃ j, (k + j ≤ max_retries)%nat
    ∧ attempts_of evs = seq (S k) j
    ∧ match r with
      | Ok (data, total_pages) =>
          (data = JNull ∧ total_pages = JNum default_total_pages
           ∧ (k + j)%nat = max_retries)
          ∨ (accepted data total_pages
             ∧ ∃ i' fetch,
                 fetch_events w0 resource_type resource_value search_term
                              i' fetch data)
      | Raise e => ∃ data, raising data e
      end.
Proof.
  induction 1 as [i c
                 |i k c session rest r Hk Hs _ IH
                 |i k c c' session fetch data error_type saved rest r Hk Hs Hf Hr _ IH
                 |i k c c' session fetch data total_pages Hk Hs Hf Ha
                 |i k c c' session fetch data e Hk Hs Hf Hr].
  - exists 0%nat. split; [lia|]. split; [done|]. left.
    split; [done|]. split; [done|]. lia.
  - destruct IH as (j & Hj & Hatt & Hend).
    exists (S j). split; [lia|]. split; [|by destruct r as [[? ?]|]; [destruct Hend as [(? & ? & ?)|?]; [left; repeat split; try done; lia|by right]|]].
    unfold attempts_of in *. simpl. rewrite omap_app.
    fold (attempts_of session).
    rewrite (attempts_of_plain _ (session_events_plain _ _ _ _ Hs)). simpl.
    by rewrite Hatt.
  - destruct IH as (j & Hj & Hatt & Hend).
    exists (S j). split; [lia|]. split; [|by destruct r as [[? ?]|]; [destruct Hend as [(? & ? & ?)|?]; [left; repeat split; try done; lia|by right]|]].
    unfold attempts_of in *. simpl. rewrite !omap_app.
    fold (attempts_of session) (attempts_of fetch).
    rewrite (attempts_of_plain _ (session_events_plain _ _ _ _ Hs)).
    rewrite (attempts_of_plain _ (proj1 Hf)). simpl.
    f_equal. exact Hatt.
  - exists 1%nat. split; [lia|]. split.
    + unfold attempts_of. simpl. rewrite !omap_app.
      fold (attempts_of session) (attempts_of fetch).
      rewrite (attempts_of_plain _ (session_events_plain _ _ _ _ Hs)).
      by rewrite (attempts_of_plain _ (proj1 Hf)).
    + right. split; [done|]. by eexists _, fetch.
  - exists 1%nat. split; [lia|]. split.
    + unfold attempts_of. simpl. rewrite !omap_app.
      fold (attempts_of session) (attempts_of fetch).
      rewrite (attempts_of_plain _ (session_events_plain _ _ _ _ Hs)).
      by rewrite (attempts_of_plain _ (proj1 Hf)).
    + by exists data.
Qed.

End discovery_shape_facts.

(** ** Discovery of the page count: the ceiling and the archive *)

Lemma first_page_verdict_cases data :
  (∃ total_pages, accepted data total_pages)
  ∨ (∃ error_type saved, rejected data error_type saved)
  ∨ (∃ e, raising data e).
Proof.
  destruct (truthy data) eqn:Ht.
  2: { right. left. eexists _, _. left. done. }
  destruct (get_total_pages_from_data data) as [total_pages|e] eqn:Hp.
  2: { right. right. exists e. split; [done|]. by left. }
  destruct (py_eq_int total_pages default_total_pages) eqn:Hc.
  2: { left. exists total_pages. split; [done|]. split; [done|].
       intros H. congruence. }
  destruct (is_legitimate_100_pages data) as [[|]|e] eqn:Hl.
  - left. exists total_pages. split; [done|]. split; [done|]. done.
  - right. left. eexists _, _. right. split; [done|].
    split; [by exists total_pages|]. done.
  - right. right. exists e. split; [done|]. right.
    split; [by exists total_pages|done].
Qed.

(** C1, amended. Whatever the network answers, a discovery ends in one
    of three ways. It falls back, after all its attempts, to no data with
    the count 100. Or it returns the data the fetch of its last attempt gave
    with the count read from them, and then a count of 100 passed the
    legitimacy check, which says yes only where the meta data of the
    apexDomainData or serverResponse branch hold a true [limit_reached] or
    the [records] value of that branch has a length above zero, be it a
    list, a string or a dict (and in a response of one branch with meta
    data any such value makes the check say yes). Or reading the count or
    the check raises on the data, and the run ends with that exception. Every response is taken
    in one of these ways or archived, and an attempt that archives leaves
    the turn to the next one: the run has the shape [discovery_trace]. *)
Theorem get_first_page_with_retry_ceiling_is_legitimate
    (resource_type resource_value : string) (search_term : option string)
    (max_retries : nat) (c : cookies) (w : world) :
  ∃ r w' evs,
    get_first_page_with_retry resource_type resource_value search_term
                              max_retries c w = (r, w')
    ∧ trace w' = trace w ++ evs
    ∧ discovery_trace w resource_type resource_value search_term max_retries
                      (requests_made w) 0 c evs r
    ∧ match r with
      | Ok (data, total_pages) =>
          (data = JNull ∧ total_pages = JNum default_total_pages
           ∧ attempts_of evs = seq 1 max_retries)
          ∨ (accepted data total_pages
             ∧ (py_eq_int total_pages default_total_pages = true →
                is_legitimate_100_pages data = Ok true ∧ ceiling_signal data)
             ∧ ∃ i fetch,
                 fetch_events w resource_type resource_value search_term
                              i fetch data)
      | Raise e => ∃ data, raising data e
      end
    ∧ (∀ data, is_legitimate_100_pages data = Ok true → ceiling_signal data)
    ∧ (∀ name records meta_fields,
         name = "apexDomainData" ∨ name = "serverResponse" →
         nonempty_value records →
         is_legitimate_100_pages
           (JObj [("pageProps",
                   JObj [(name, JObj [("data", JObj [("records", records);
                                                     ("meta", JObj meta_fields)])])])])
         = Ok true)
    ∧ (∀ data,
         (∃ total_pages, accepted data total_pages)
         ∨ (∃ error_type saved, rejected data error_type saved)
         ∨ (∃ e, raising data e)).
Proof.
  destruct (first_page_attempts_trace w resource_type resource_value search_term
              max_retries max_retries 0 c w eq_refl eq_refl)
    as (r & w' & evs & Hrun & E & Hshape).
  exists r, w', evs. split; [done|]. split; [apply E|]. split; [done|].
  split; [|split; [apply is_legitimate_100_pages_ceiling_signal
                  |split; [apply is_legitimate_100_pages_nonempty
                          |apply first_page_verdict_cases]]].
  destruct (discovery_trace_end _ _ _ _ _ _ _ _ _ _ Hshape) as (j & Hj & Hatt & Hend).
  destruct r as [[data total_pages]|e]; [|done].
  destruct Hend as [(-> & -> & Hmax)|[Hacc Hfetch]].
  - left. split; [done|]. split; [done|]. rewrite Hatt. f_equal. lia.
  - right. split; [done|]. split; [|done]. intros Hc.
    destruct Hacc as (_ & _ & Hl). split; [by apply Hl|].
    by apply is_legitimate_100_pages_ceiling_signal, Hl.
Qed.

Lemma get_first_page_with_retry_ceiling_is_legitimate_witness :
  let body := page_response "serverResponse" [JObj [("hostname", JStr "a.com")]]
                            (JObj [("total_pages", JNum 100)]) in
  let w := example_world (λ _ r, match r with
                                 | ValidateRequest _ => Response 200 None
                                 | _ => Response 200 (Some body)
                                 end)
                         (λ _, CookieAbsent) in
  (get_first_page_with_retry "subdomain" "example.com" None 10 "stale" w).1
  = Ok (body, JNum 100)
  ∧ ceiling_signal body.
Proof.
  intros body w.
  destruct (get_first_page_with_retry_ceiling_is_legitimate
              "subdomain" "example.com" None 10 "stale" w)
    as (r & w' & evs & Hrun & _ & _ & Hend & _).
  assert ((get_first_page_with_retry "subdomain" "example.com" None 10 "stale" w).1
          = Ok (body, JNum 100)) as Hres by (vm_compute; reflexivity).
  split; [exact Hres|].
  rewrite Hrun in Hres. cbn [fst] in Hres. subst r.
  destruct Hend as [(Hnull & _)|(_ & Hlegit & _)]; [discriminate Hnull|].
  exact (proj2 (Hlegit eq_refl)).
Defined.

(** C1 as stated fails in two ways. With a string where the records
    should be, the legitimacy check finds a length above zero and discovery
    returns the count 100 for a response with no signal and no record: the
    extraction of its records raises. And with a number there, the check
    itself raises: discovery ends in its first attempt with the exception,
    without archive, without another attempt and without the fallback. *)
Lemma get_first_page_with_retry_ceiling_counterexample :
  let page records :=
    JObj [("pageProps",
           JObj [("serverResponse",
                  JObj [("data",
                         JObj [("records", records);
                               ("meta", JObj [("total_pages", JNum 100)])])])])] in
  let run records :=
    get_first_page_with_retry "subdomain" "example.com" None 10 "stale"
      (example_world (λ _ r, match r with
                             | ValidateRequest _ => Response 200 None
                             | _ => Response 200 (Some (page records))
                             end)
                     (λ _, CookieAbsent)) in
  (run (JStr "none")).1 = Ok (page (JStr "none"), JNum 100)
  ∧ extract_domains_from_data (page (JStr "none")) = Raise AttributeError
  ∧ (run (JNum 5)).1 = Raise TypeError
  ∧ attempts_of (trace (run (JNum 5)).2) = [1%nat]
  ∧ archived_attempts (trace (run (JNum 5)).2) = [].
Proof. intros page run. vm_compute. repeat split; reflexivity. Qed.



